(** * Expense tracker (app.py): a shallow embedding and its specification

    The Flask application of [app.py] is embedded as state-passing
    functions over an explicit world: the two tables of the database, the
    SQLAlchemy session (identity map and pending work) of the current
    request, the login cookie and the flashed messages.  The library
    functions the handlers call ([datetime.strptime], [float], [str] of a
    float, [csv.writer], [date.strftime]) are embedded next to them, on
    ASCII strings and binary64 floats. *)

From Stdlib Require Import ZArith Floats Ascii String.
From stdpp Require Import base option list strings gmap sorting.

Local Open Scope Z_scope.

(** ** Python values and exceptions *)

(** The exceptions the handlers can meet.  [str(e)] is kept symbolic: a
    flashed text built from it is recorded as the prefix and the exception. *)
Inductive exn : Type :=
| ValueError (msg : string)          (* float(), strptime(), date() *)
| BadRequestKeyError (key : string)  (* request.form[key], key missing: HTTP 400 *)
| NotFound                           (* get_or_404: HTTP 404 *)
| IntegrityError (msg : string)      (* a NOT NULL or UNIQUE constraint at flush *)
| OverflowError (msg : string).      (* an integer SQLite has no room for *)

Inductive result (A : Type) : Type :=
| Ok (a : A)
| Raise (e : exn).
Arguments Ok {A} a.
Arguments Raise {A} e.

(** What a column of a result row, or an entry of a dictionary built from
    one, holds in Python: a float, [None] for SQL's NULL, or an [int]. *)
Inductive pyval : Type :=
| PyNone
| PyInt (n : Z)
| PyFloat (x : float).

Module Py.

(** *** Characters *)

Definition CR : ascii := ascii_of_nat 13.
Definition LF : ascii := ascii_of_nat 10.
Definition DQUOTE : ascii := ascii_of_nat 34.

Definition is_digit (c : ascii) : bool :=
  match Ascii.is_nat c with Some _ => true | None => false end.

Definition digit_val (c : ascii) : Z :=
  match Ascii.is_nat c with Some n => Z.of_nat n | None => 0 end.

(** [int(s)] on a run of decimal digits, most significant first. *)
Fixpoint int_digits (acc : Z) (s : string) : Z :=
  match s with
  | EmptyString => acc
  | String c s' => int_digits (10 * acc + digit_val c) s'
  end.

Definition digit_char (d : Z) : ascii := ascii_of_nat (48 + Z.to_nat d).

(** Decimal digits of a natural number, [fuel] bounding the number of digits. *)
Fixpoint str_nat_aux (fuel : nat) (n : Z) (acc : string) : string :=
  match fuel with
  | O => acc
  | S fuel' =>
      let acc' := String (digit_char (n mod 10)) acc in
      if n / 10 =? 0 then acc' else str_nat_aux fuel' (n / 10) acc'
  end.

(** [str(n)] for an integer [n >= 0]. *)
Definition str_nat (n : Z) : string :=
  str_nat_aux (S (Z.to_nat (Z.log2 n))) n EmptyString.

(** [str(n).zfill(w)]: what [%02d] and [%04d] print for [n >= 0]. *)
Fixpoint zfill_aux (pad : nat) (s : string) : string :=
  match pad with
  | O => s
  | S p => String "0"%char (zfill_aux p s)
  end.

Definition zfill (w : nat) (s : string) : string :=
  zfill_aux (w - String.length s) s.

(** *** datetime.date *)

Record date : Type := mkdate { year : Z; month : Z; day : Z }.

Definition is_leap (y : Z) : bool :=
  (y mod 4 =? 0) && (negb (y mod 100 =? 0) || (y mod 400 =? 0)).

Definition days_in_month (y m : Z) : Z :=
  if m =? 2 then (if is_leap y then 29 else 28)
  else if (m =? 4) || (m =? 6) || (m =? 9) || (m =? 11) then 30
  else 31.

(** [datetime.date(y, m, d)]: the constructor checks the ranges. *)
Definition date_new (y m d : Z) : result date :=
  if negb ((1 <=? y) && (y <=? 9999)) then Raise (ValueError "year is out of range")
  else if negb ((1 <=? m) && (m <=? 12)) then Raise (ValueError "month must be in 1..12")
  else if negb ((1 <=? d) && (d <=? days_in_month y m)) then
    Raise (ValueError "day is out of range for month")
  else Ok (mkdate y m d).

(** Dates compare as (year, month, day) triples; the ISO text a date
    column stores compares the same way. *)
Definition date_le (a b : date) : Prop :=
  year a < year b
  \/ (year a = year b
      /\ (month a < month b \/ (month a = month b /\ day a <= day b))).

Global Instance date_le_dec : RelDecision date_le.
Proof. intros a b. unfold date_le. apply _. Defined.

(** *** datetime.strptime(s, '%Y-%m-%d')

    The format compiles to the regular expression
    [(?P<Y>\d\d\d\d)-(?P<m>1[0-2]|0[1-9]|[1-9])-(?P<d>3[0-1]|[1-2]\d|0[1-9]|[1-9]| [1-9])],
    matched at the start of the text by a backtracking matcher: each group
    lists its matches in the order of its alternatives, and the first
    complete match is taken. *)

Definition in_range (lo hi c : ascii) : bool :=
  (nat_of_ascii lo <=? nat_of_ascii c)%nat && (nat_of_ascii c <=? nat_of_ascii hi)%nat.

(** One candidate of a group: the text it matched and the rest. *)
Definition two_chars (p1 p2 : ascii -> bool) (s : string) : list (string * string) :=
  match s with
  | String a (String b rest) =>
      if p1 a && p2 b then [(String a (String b EmptyString), rest)] else []
  | _ => []
  end.

Definition one_char (p : ascii -> bool) (s : string) : list (string * string) :=
  match s with
  | String a rest => if p a then [(String a EmptyString, rest)] else []
  | _ => []
  end.

Definition lit (c : ascii) (s : string) : list string :=
  match s with
  | String a rest => if Ascii.eqb a c then [rest] else []
  | _ => []
  end.

Definition group_Y (s : string) : list (string * string) :=
  match s with
  | String a (String b (String c (String d rest))) =>
      if is_digit a && is_digit b && is_digit c && is_digit d
      then [(String a (String b (String c (String d EmptyString))), rest)]
      else []
  | _ => []
  end.

Definition group_m (s : string) : list (string * string) :=
  two_chars (Ascii.eqb "1") (in_range "0" "2") s
  ++ two_chars (Ascii.eqb "0") (in_range "1" "9") s
  ++ one_char (in_range "1" "9") s.

Definition group_d (s : string) : list (string * string) :=
  two_chars (Ascii.eqb "3") (in_range "0" "1") s
  ++ two_chars (in_range "1" "2") is_digit s
  ++ two_chars (Ascii.eqb "0") (in_range "1" "9") s
  ++ one_char (in_range "1" "9") s
  ++ two_chars (Ascii.eqb " ") (in_range "1" "9") s.

(** All the matches of the whole pattern, in the matcher's order:
    the groups as text, and the unmatched rest. *)
Definition format_regex_matches (s : string) : list (string * string * string * string) :=
  '(Y, r1) ← group_Y s;
  r2 ← lit "-" r1;
  '(m, r3) ← group_m r2;
  r4 ← lit "-" r3;
  '(d, r5) ← group_d r4;
  [(Y, m, d, r5)].

(** [int(found['d'])]: [int] skips the blank of the [ [1-9]] alternative. *)
Definition int_group (s : string) : Z :=
  match s with
  | String " " s' => int_digits 0 s'
  | _ => int_digits 0 s
  end.

(** [datetime.strptime(data_string, '%Y-%m-%d').date()]. *)
Definition strptime (data_string : string) : result date :=
  match format_regex_matches data_string with
  | [] => Raise (ValueError "time data does not match format")
  | (Y, m, d, rest) :: _ =>
      match rest with
      | String _ _ => Raise (ValueError "unconverted data remains")
      | EmptyString => date_new (int_digits 0 Y) (int_group m) (int_group d)
      end
  end.

(** [d.strftime('%Y-%m-%d')].  The C library's [%Y] prints the year as a
    plain decimal number, without leading zeros (glibc: year 999 is
    printed [999]); [%m] and [%d] print two digits. *)
Definition strftime (d : date) : string :=
  str_nat (year d) +:+ "-" +:+ zfill 2 (str_nat (month d))
    +:+ "-" +:+ zfill 2 (str_nat (day d)).

(** SQLite's [strftime('%m', d)], the two-digit month of a stored date. *)
Definition strftime_m (d : date) : string := zfill 2 (str_nat (month d)).

(** *** float(s): text to binary64

    The text is stripped of blanks at both ends, underscores between
    digits are dropped, and what is left must be a decimal literal
    ([[sign] digits [. digits] [e [sign] digits]], at least one digit in
    the mantissa), or [inf], [infinity] or [nan] in any case with an
    optional sign.  The value is the binary64 float nearest to the
    decimal, ties to even, infinite on overflow. *)

Fixpoint lstrip (s : string) : string :=
  match s with
  | String c s' => if Ascii.is_space c then lstrip s' else s
  | EmptyString => s
  end.

Definition str_rev (s : string) : string :=
  string_of_list_ascii (rev (list_ascii_of_string s)).

Definition strip (s : string) : string := str_rev (lstrip (str_rev (lstrip s))).

(** Underscores are allowed only between two digits; [prev] is the
    character before [s] (a blank at the start). *)
Fixpoint drop_underscores (prev : ascii) (s : string) : option string :=
  match s with
  | EmptyString => if Ascii.eqb prev "_" then None else Some EmptyString
  | String c s' =>
      if Ascii.eqb c "_" then
        if is_digit prev then drop_underscores c s' else None
      else if Ascii.eqb prev "_" && negb (is_digit c) then None
      else String c <$> drop_underscores c s'
  end.

Fixpoint span_digits (s : string) : string * string :=
  match s with
  | String c s' =>
      if is_digit c then let '(ds, rest) := span_digits s' in (String c ds, rest)
      else (EmptyString, s)
  | EmptyString => (EmptyString, EmptyString)
  end.

Definition opt_sign (s : string) : bool * string :=
  match s with
  | String "-" s' => (true, s')
  | String "+" s' => (false, s')
  | _ => (false, s)
  end.

Definition lower (c : ascii) : ascii :=
  if in_range "A" "Z" c then ascii_of_nat (nat_of_ascii c + 32) else c.

Fixpoint str_lower (s : string) : string :=
  match s with
  | EmptyString => EmptyString
  | String c s' => String (lower c) (str_lower s')
  end.

(** The nearest binary64 to [(-1)^neg * m * 10^e], for [m >= 0].  A negative
    exponent divides: the quotient keeps 65 bits or more and a sticky bit
    for the remainder, which is all that rounding to 53 bits looks at. *)
Definition decimal_to_sf (neg : bool) (m e : Z) : spec_float :=
  let sgn := if neg then -1 else 1 in
  if m =? 0 then S754_zero neg
  else if 0 <=? e then binary_normalize 53 1024 (sgn * (m * 10 ^ e)) 0 false
  else
    let D := 10 ^ (- e) in
    let k := Z.max 0 (Z.log2 D - Z.log2 m + 66) in
    let q := (m * 2 ^ k) / D in
    let sticky := if (m * 2 ^ k) mod D =? 0 then 0 else 1 in
    binary_normalize 53 1024 (sgn * (2 * q + sticky)) (- (k + 1)) false.

(** The exponent part [e[sign]digits]; when no digit follows, the [e] is not
    part of the number and is left in the rest. *)
Definition parse_exponent (s : string) : Z * string :=
  match s with
  | String c s' =>
      if Ascii.eqb (lower c) "e" then
        let '(eneg, s2) := opt_sign s' in
        let '(eds, rest) := span_digits s2 in
        match eds with
        | EmptyString => (0, s)
        | _ => ((if eneg then -1 else 1) * int_digits 0 eds, rest)
        end
      else (0, s)
  | EmptyString => (0, s)
  end.

(** A decimal literal at the start of [s]: its value and the rest. *)
Definition parse_decimal (s : string) : option (spec_float * string) :=
  let '(neg, s1) := opt_sign s in
  let '(ip, s2) := span_digits s1 in
  let '(fp, s3) :=
    match s2 with
    | String "." s2' => span_digits s2'
    | _ => (EmptyString, s2)
    end in
  match ip +:+ fp with
  | EmptyString => None
  | ds =>
      let '(ex, rest) := parse_exponent s3 in
      Some (decimal_to_sf neg (int_digits 0 ds) (ex - Z.of_nat (String.length fp)), rest)
  end.

Definition parse_inf_or_nan (s : string) : option (spec_float * string) :=
  let '(neg, s1) := opt_sign s in
  let l := str_lower s1 in
  if String.prefix "infinity" l then Some (S754_infinity neg, String.substring 8 (String.length s1) s1)
  else if String.prefix "inf" l then Some (S754_infinity neg, String.substring 3 (String.length s1) s1)
  else if String.prefix "nan" l then Some (S754_nan, String.substring 3 (String.length s1) s1)
  else None.

(** [float(s)] for a text [s]. *)
Definition float_new (s : string) : result float :=
  let bad := Raise (ValueError "could not convert string to float") in
  match drop_underscores " " (strip s) with
  | None => bad
  | Some t =>
      match (match parse_decimal t with Some r => Some r | None => parse_inf_or_nan t end) with
      | Some (x, EmptyString) => Ok (SF2Prim x)
      | _ => bad
      end
  end.

(** *** str(x) for a float x

    The shortest run of decimal digits that [float] reads back as [x] (the
    one nearest to [x] when several of that length do), laid out as
    [repr] does: plain notation for a decimal point position in -3..16,
    exponent notation outside. *)

Global Instance spec_float_eq_dec : EqDecision spec_float.
Proof. solve_decision. Defined.

Definition ndigits (n : Z) : Z := Z.of_nat (String.length (str_nat n)).

(** [10^t <= N / D], for positive [N] and [D]. *)
Definition pow10_le (t N D : Z) : bool :=
  if 0 <=? t then 10 ^ t * D <=? N else D <=? N * 10 ^ (- t).

(** The position [p] of the decimal point of [N / D]: [10^(p-1) <= N/D < 10^p]. *)
Definition decimal_point (N D : Z) : Z :=
  let p0 := ndigits N - ndigits D + 1 in
  if pow10_le (p0 - 1) N D then p0 else p0 - 1.

(** The [k]-digit decimals next to [N / D], nearest first, each as an
    integer [n] standing for [n * 10^(p-k)]. *)
Definition candidates (N D p k : Z) : list Z :=
  let ex := p - k in
  let num := if 0 <=? ex then N else N * 10 ^ (- ex) in
  let den := if 0 <=? ex then D * 10 ^ ex else D in
  let lo := num / den in
  let r := num mod den in
  if r =? 0 then [lo]
  else if 2 * r <? den then [lo; lo + 1]
  else if den <? 2 * r then [lo + 1; lo]
  else if Z.even lo then [lo; lo + 1] else [lo + 1; lo].

Fixpoint shortest_aux (x : spec_float) (N D p : Z) (ks : list Z) : Z * Z :=
  match ks with
  | [] => (N / D, 0)
  | k :: ks' =>
      match filter (fun n => decimal_to_sf false n (p - k) = x) (candidates N D p k) with
      | n :: _ => (n, p - k)
      | [] => shortest_aux x N D p ks'
      end
  end.

Fixpoint rstrip_zeros_rev (s : list ascii) : list ascii :=
  match s with
  | c :: s' => if Ascii.eqb c "0" then rstrip_zeros_rev s' else s
  | [] => []
  end.

(** The digits and the decimal point position of the finite positive float
    [m * 2^e]: the value printed is [0.digits * 10^decpt]. *)
Definition shortest_digits (m e : Z) : string * Z :=
  let N := m * 2 ^ Z.max e 0 in
  let D := 2 ^ Z.max (- e) 0 in
  let p := decimal_point N D in
  let '(n, ex) := shortest_aux (S754_finite false (Z.to_pos m) e) N D p (seqZ 1 17) in
  let ds := str_nat n in
  (string_of_list_ascii (rev (rstrip_zeros_rev (rev (list_ascii_of_string ds)))),
   Z.of_nat (String.length ds) + ex).

Definition zeros (n : Z) : string := zfill_aux (Z.to_nat n) EmptyString.

(** The exponent as [%+.02d] prints it. *)
Definition str_exp (ex : Z) : string :=
  (if ex <? 0 then "-" else "+") +:+ zfill 2 (str_nat (Z.abs ex)).

Definition format_short (ds : string) (decpt : Z) : string :=
  let len := Z.of_nat (String.length ds) in
  if (decpt <=? -4) || (16 <? decpt) then
    String.substring 0 1 ds
      +:+ (if 1 <? len then "." +:+ String.substring 1 (String.length ds) ds else EmptyString)
      +:+ "e" +:+ str_exp (decpt - 1)
  else if decpt <=? 0 then "0." +:+ zeros (- decpt) +:+ ds
  else if decpt <? len then
    String.substring 0 (Z.to_nat decpt) ds +:+ "."
      +:+ String.substring (Z.to_nat decpt) (String.length ds) ds
  else ds +:+ zeros (decpt - len) +:+ ".0".

Definition float_repr (x : float) : string :=
  match Prim2SF x with
  | S754_nan => "nan"
  | S754_infinity s => if s then "-inf" else "inf"
  | S754_zero s => if s then "-0.0" else "0.0"
  | S754_finite s m e =>
      let '(ds, decpt) := shortest_digits (Z.pos m) e in
      (if s then "-" else EmptyString) +:+ format_short ds decpt
  end.

(** *** csv.writer(si).writerow(fields), the default (excel) dialect

    Fields are joined by commas; a field that holds the delimiter, the
    quote character or a character of the line terminator is put between
    quotes with its quotes doubled; the row ends with CR LF. *)

Definition lineterminator : string := String CR (String LF EmptyString).

Definition needs_quotes (c : ascii) : bool :=
  Ascii.eqb c "," || Ascii.eqb c DQUOTE || Ascii.eqb c CR || Ascii.eqb c LF.

Fixpoint has_special (s : string) : bool :=
  match s with
  | EmptyString => false
  | String c s' => needs_quotes c || has_special s'
  end.

Fixpoint double_quotes (s : string) : string :=
  match s with
  | EmptyString => EmptyString
  | String c s' =>
      if Ascii.eqb c DQUOTE then String c (String c (double_quotes s'))
      else String c (double_quotes s')
  end.

Definition csv_field (s : string) : string :=
  if has_special s then String DQUOTE (double_quotes s +:+ String DQUOTE EmptyString)
  else s.

Fixpoint join_fields (fs : list string) : string :=
  match fs with
  | [] => EmptyString
  | [f] => csv_field f
  | f :: fs' => csv_field f +:+ "," +:+ join_fields fs'
  end.

(** A row of one empty field is written as a pair of quotes. *)
Definition writerow (fields : list string) : string :=
  match fields with
  | [f] =>
      match f with
      | EmptyString => String DQUOTE (String DQUOTE EmptyString)
      | _ => csv_field f
      end
  | _ => join_fields fields
  end +:+ lineterminator.

End Py.

(** ** The data model *)

(** class User(db.Model, UserMixin) *)
Module User.
Record t : Type := mk {
  id : Z;
  username : string;
  password : string   (* the hash, never the plain text *)
}.
End User.

(** class Expense(db.Model) *)
Module Expense.
Record t : Type := mk {
  id : Z;
  description : string;
  amount : float;
  date : Py.date;
  category : string;
  user_id : Z
}.

(** Attribute assignment on a loaded object. *)
Definition set_description (v : string) (e : t) : t :=
  mk (id e) v (amount e) (date e) (category e) (user_id e).
Definition set_amount (v : float) (e : t) : t :=
  mk (id e) (description e) v (date e) (category e) (user_id e).
Definition set_date (v : Py.date) (e : t) : t :=
  mk (id e) (description e) (amount e) v (category e) (user_id e).
Definition set_category (v : string) (e : t) : t :=
  mk (id e) (description e) (amount e) (date e) v (user_id e).
Definition set_id (v : Z) (e : t) : t :=
  mk v (description e) (amount e) (date e) (category e) (user_id e).
End Expense.

(** The committed tables, rows in rowid order. *)
Record database : Type := mkdb {
  user_table : list User.t;
  expense_table : list Expense.t
}.

(** [db.session]: the unit of work of one request.  Loaded objects live in
    the identity map under their primary key, and the handler's variable
    [expense] is that key: assigning an attribute changes the object in the
    map, not the row.  Nothing reaches the tables before [commit]. *)
Record session : Type := mksession {
  identity_map : gmap Z Expense.t;
  pending_new : list Expense.t;     (* session.add: objects the INSERT will give a key *)
  pending_delete : list Z           (* session.delete *)
}.

Definition empty_session : session := mksession ∅ [] [].

(** A flashed text: a literal, or a literal followed by [str(e)]. *)
Inductive message : Type :=
| Text (s : string)
| TextExn (prefix : string) (e : exn).

(** What lasts from one request to the next: the tables, the login cookie
    and the flashed messages (text, category), oldest first. *)
Record world : Type := mkworld {
  db : database;
  user_cookie : option Z;
  flashes : list (message * string)
}.

(** The world during a request: also the session. *)
Record ctx : Type := mkctx {
  cdb : database;
  csess : session;
  ccookie : option Z;
  cflashes : list (message * string)
}.

Inductive http_method : Type := GET | POST.

Record request : Type := mkrequest {
  method : http_method;
  form : list (string * string);
  args : list (string * string)
}.

Record url : Type := mkurl { endpoint : string; values : list (string * Z) }.

Definition url_for (ep : string) (vals : list (string * Z)) : url := mkurl ep vals.

(** What a template is rendered with. *)
Inductive context : Type :=
| NoContext
| CtxExpenses (expenses : list Expense.t)
| CtxExpense (expense : Expense.t)
| CtxDashboard (labels : list string) (values : list pyval)
    (monthlyLabels : list string) (monthlyData : list pyval).

Inductive response : Type :=
| Redirect (u : url)
| Render (template : string) (c : context)
| Response (body : string) (mimetype : string) (headers : list (string * string))
| ErrorPage (code : Z).

(** ** Handlers as state-and-exception computations *)

Definition M (A : Type) : Type := ctx -> result A * ctx.

Global Instance M_ret : MRet M := fun A a c => (Ok a, c).

Global Instance M_bind : MBind M := fun A B f m c =>
  match m c with
  | (Ok a, c') => f a c'
  | (Raise e, c') => (Raise e, c')
  end.

Definition raise {A} (e : exn) : M A := fun c => (Raise e, c).

(** A library call that returns or raises. *)
Definition lift {A} (r : result A) : M A := fun c => (r, c).

(** [try: body / except Exception as e: handler e]; what the body did to the
    session and the flashes before raising stays done. *)
Definition try_except {A} (body : M A) (handler : exn -> M A) : M A := fun c =>
  match body c with
  | (Ok a, c') => (Ok a, c')
  | (Raise e, c') => handler e c'
  end.

Definition flash (msg : message) (cat : string) : M unit := fun c =>
  (Ok tt, mkctx (cdb c) (csess c) (ccookie c) (cflashes c ++ [(msg, cat)])).

Definition get_db : M database := fun c => (Ok (cdb c), c).

Definition get_session : M session := fun c => (Ok (csess c), c).

Definition put_session (s : session) : M unit := fun c =>
  (Ok tt, mkctx (cdb c) s (ccookie c) (cflashes c)).

(** A MultiDict returns the first value of a key. *)
Fixpoint multidict_get (d : list (string * string)) (key : string) : option string :=
  match d with
  | [] => None
  | (k, v) :: d' => if String.eqb k key then Some v else multidict_get d' key
  end.

(** [request.form[key]] *)
Definition form_get (req : request) (key : string) : M string :=
  match multidict_get (form req) key with
  | Some v => mret v
  | None => raise (BadRequestKeyError key)
  end.

(** [request.args.get(key)] *)
Definition args_get (req : request) (key : string) : option string :=
  multidict_get (args req) key.

(** Python's truth of an optional text: neither [None] nor empty. *)
Definition truthy (o : option string) : bool :=
  match o with
  | Some (String _ _) => true
  | _ => false
  end.

(** *** The ORM *)

Definition find_expense (tbl : list Expense.t) (k : Z) : option Expense.t :=
  List.find (fun e => Expense.id e =? k) tbl.

(** The integers SQLite stores and the driver binds: 64 bits, signed. *)
Definition sqlite_int (k : Z) : bool := (- 2 ^ 63 <=? k) && (k <? 2 ^ 63).

(** [Expense.query.get_or_404(k)]: the object of the identity map, loaded
    from its row when it is not there yet; the result is the reference.
    A key outside SQLite's integers cannot be bound to the query: the
    driver raises [OverflowError], which nothing catches.  The keys of
    rows are SQLite integers, so such a key is one that finds no row. *)
Definition get_or_404 (k : Z) : M Z :=
  s ← get_session;
  match identity_map s !! k with
  | Some _ => mret k
  | None =>
      d ← get_db;
      match find_expense (expense_table d) k with
      | Some e =>
          put_session (mksession (<[k := e]> (identity_map s)) (pending_new s) (pending_delete s));;
          mret k
      | None =>
          if sqlite_int k then raise NotFound
          else raise (OverflowError "Python int too large to convert to SQLite INTEGER")
      end
  end.

(** Reading the object behind a reference. *)
Definition deref (k : Z) : M Expense.t :=
  s ← get_session;
  match identity_map s !! k with
  | Some e => mret e
  | None => raise NotFound
  end.

(** [expense.attr = v] *)
Definition setattr (k : Z) (upd : Expense.t -> Expense.t) : M unit :=
  s ← get_session;
  put_session (mksession (alter upd k (identity_map s)) (pending_new s) (pending_delete s)).

(** [db.session.add(obj)] *)
Definition session_add (e : Expense.t) : M unit :=
  s ← get_session;
  put_session (mksession (identity_map s) (pending_new s ++ [e]) (pending_delete s)).

(** [db.session.delete(obj)] *)
Definition session_delete (k : Z) : M unit :=
  s ← get_session;
  put_session (mksession (identity_map s) (pending_new s) (pending_delete s ++ [k])).

(** The key SQLite gives a new row: one more than the largest in the table. *)
Definition next_id (tbl : list Expense.t) : Z :=
  1 + foldr (fun e acc => Z.max (Expense.id e) acc) 0 tbl.

(** The NOT NULL columns.  The texts and the date of an object are never
    [None]; the amount is bound as NULL when it is a NaN, which SQLite
    does not store. *)
Definition not_null (e : Expense.t) : bool := negb (is_nan (Expense.amount e)).

Fixpoint insert_rows (tbl : list Expense.t) (news : list Expense.t) : list Expense.t :=
  match news with
  | [] => tbl
  | e :: news' => insert_rows (tbl ++ [Expense.set_id (next_id tbl) e]) news'
  end.

(** UPDATE of every loaded object's row. *)
Definition update_rows (im : gmap Z Expense.t) (tbl : list Expense.t) : list Expense.t :=
  map (fun row => default row (im !! Expense.id row)) tbl.

Definition delete_rows (ks : list Z) (tbl : list Expense.t) : list Expense.t :=
  List.filter (fun row => negb (existsb (Z.eqb (Expense.id row)) ks)) tbl.

(** The table after the flush of a session: inserts and updates, then deletes. *)
Definition flushed (s : session) (tbl : list Expense.t) : list Expense.t :=
  delete_rows (pending_delete s)
    (insert_rows (update_rows (identity_map s) tbl) (pending_new s)).

(** The objects the flush writes: the new ones, and the loaded ones that
    are not being deleted. *)
Definition written (s : session) : list Expense.t :=
  pending_new s
  ++ List.filter (fun e => negb (existsb (Z.eqb (Expense.id e)) (pending_delete s)))
       (map snd (map_to_list (identity_map s))).

(** [db.session.commit()]: one transaction.  A written row that breaks a
    constraint raises, and the tables stay as they were. *)
Definition commit : M unit := fun c =>
  let s := csess c in
  if forallb not_null (written s) then
    (Ok tt, mkctx (mkdb (user_table (cdb c)) (flushed s (expense_table (cdb c))))
                  empty_session (ccookie c) (cflashes c))
  else
    (Raise (IntegrityError "NOT NULL constraint failed: expense.amount"), c).

(** A query: the rows of the table that pass its filters. *)
Definition query : Type := Expense.t -> bool.

Definition filter_by_user_id (uid : Z) : query := fun e => Expense.user_id e =? uid.

Definition qfilter (q : query) (p : Expense.t -> bool) : query := fun e => q e && p e.

(** [Expense.date >= d] and [Expense.date <= d] *)
Definition on_or_after (d : Py.date) (e : Expense.t) : bool :=
  bool_decide (Py.date_le d (Expense.date e)).

Definition on_or_before (d : Py.date) (e : Expense.t) : bool :=
  bool_decide (Py.date_le (Expense.date e) d).

(** [q.all()] *)
Definition all (q : query) : M (list Expense.t) :=
  d ← get_db; mret (List.filter q (expense_table d)).

(** ORDER BY: the rows are put in the order [R]; rows the order does not
    tell apart stay in the order in which the table was read. *)
Fixpoint sort_insert {A} (R : relation A) `{!RelDecision R} (x : A) (l : list A) : list A :=
  match l with
  | [] => [x]
  | y :: l' => if decide (R x y) then x :: l else y :: sort_insert R x l'
  end.

Definition order_by {A} (R : relation A) `{!RelDecision R} (l : list A) : list A :=
  foldr (sort_insert R) [] l.

(** ORDER BY date DESC: later dates first. *)
Definition date_desc (a b : Expense.t) : Prop := Py.date_le (Expense.date b) (Expense.date a).

Global Instance date_desc_dec : RelDecision date_desc.
Proof. intros a b. unfold date_desc. apply _. Defined.

(** [q.order_by(Expense.date.desc()).all()] *)
Definition order_by_date_desc_all (q : query) : M (list Expense.t) :=
  rows ← all q; mret (order_by date_desc rows).

(** *** flask_login *)

(** [load_user]: [User.query.get(int(user_id))] *)
Definition load_user (d : database) (uid : Z) : option User.t :=
  List.find (fun u => User.id u =? uid) (user_table d).

(** [current_user]: the user of the cookie when that row exists. *)
Definition current_user : M (option User.t) := fun c =>
  (Ok (ccookie c ≫= load_user (cdb c)), c).

(** [login_user(user)] *)
Definition login_user (u : User.t) : M unit := fun c =>
  (Ok tt, mkctx (cdb c) (csess c) (Some (User.id u)) (cflashes c)).

(** [@login_required]: without a user, the login manager flashes its
    message and sends the browser to the login view. *)
Definition login_required (view : User.t -> M response) : M response :=
  u ← current_user;
  match u with
  | Some cu => view cu
  | None =>
      flash (Text "Please log in to access this page.") "message";;
      mret (Redirect (url_for "login" []))
  end.

(** An exception that leaves a view: werkzeug's HTTP exceptions carry their
    status, any other is a server error. *)
Definition error_page (e : exn) : response :=
  match e with
  | NotFound => ErrorPage 404
  | BadRequestKeyError _ => ErrorPage 400
  | ValueError _ | IntegrityError _ | OverflowError _ => ErrorPage 500
  end.

(** One request from start to end: the handler runs on a fresh session,
    the session is removed when the request ends (uncommitted work is
    dropped), and an exception that left the handler becomes an error page. *)
Definition handle (view : M response) (w : world) : response * world :=
  let '(r, c) := view (mkctx (db w) empty_session (user_cookie w) (flashes w)) in
  let w' := mkworld (cdb c) (ccookie c) (cflashes c) in
  match r with
  | Ok resp => (resp, w')
  | Raise e => (error_page e, w')
  end.

(** ** The views of app.py *)

Module App.

(** *** /login *)

Section Login.
(** [werkzeug.security.check_password_hash(pwhash, password)] *)
Variable check_password_hash : string -> string -> bool.

(** [User.query.filter_by(username=username).first()] *)
Definition user_by_name (d : database) (name : string) : option User.t :=
  List.find (fun u => String.eqb (User.username u) name) (user_table d).

Definition login (req : request) : M response :=
  match method req with
  | POST =>
      username ← form_get req "username";
      password ← form_get req "password";
      d ← get_db;
      let user := user_by_name d username in
      (* user and check_password_hash(user.password, password) *)
      let checked :=
        match user with
        | Some u => if check_password_hash (User.password u) password then Some u else None
        | None => None
        end in
      match checked with
      | Some user =>
          login_user user;;
          mret (Redirect (url_for "expenses" []))
      | None =>
          flash (Text "Invalid username or password!") "danger";;
          mret (Redirect (url_for "login" []))
      end
  | GET => mret (Render "login.html" NoContext)
  end.
End Login.

(** *** /expenses *)

Definition expenses (req : request) : M response :=
  login_required (fun cu =>
    let start_date := args_get req "start_date" in
    let end_date := args_get req "end_date" in
    let query := filter_by_user_id (User.id cu) in
    query ←
      (if truthy start_date then
         try_except
           (d ← lift (Py.strptime (default EmptyString start_date));
            mret (qfilter query (on_or_after d)))
           (fun e =>
              flash (Text "Invalid start date format. Use YYYY-MM-DD.") "danger";;
              mret query)
       else mret query);
    query ←
      (if truthy end_date then
         try_except
           (d ← lift (Py.strptime (default EmptyString end_date));
            mret (qfilter query (on_or_before d)))
           (fun e =>
              flash (Text "Invalid end date format. Use YYYY-MM-DD.") "danger";;
              mret query)
       else mret query);
    expenses ← order_by_date_desc_all query;
    mret (Render "expenses.html" (CtxExpenses expenses))).

(** *** /add *)

Definition add_expense (req : request) : M response :=
  login_required (fun cu =>
    match method req with
    | POST =>
        description ← form_get req "description";
        amount ← form_get req "amount";
        date_str ← form_get req "date";
        category ← form_get req "category";
        try_except
          (date_obj ← lift (Py.strptime date_str);
           amount_f ← lift (Py.float_new amount);
           let new_expense :=   (* its id is set when the row is inserted *)
             Expense.mk 0 description amount_f date_obj category (User.id cu) in
           session_add new_expense;;
           commit;;
           flash (Text "Expense added successfully!") "success";;
           mret (Redirect (url_for "expenses" [])))
          (fun err =>
             flash (TextExn "Error adding expense: " err) "danger";;
             mret (Redirect (url_for "add_expense" [])))
    | GET => mret (Render "add_expense.html" NoContext)
    end).

(** *** /edit/<int:expense_id> *)

Definition edit_expense (expense_id : Z) (req : request) : M response :=
  login_required (fun cu =>
    expense ← get_or_404 expense_id;
    e ← deref expense;
    if negb (Expense.user_id e =? User.id cu) then
      flash (Text "You are not authorized to edit this expense.") "danger";;
      mret (Redirect (url_for "expenses" []))
    else
      match method req with
      | POST =>
          description ← form_get req "description";
          setattr expense (Expense.set_description description);;
          amount ← form_get req "amount";
          amount_f ← lift (Py.float_new amount);
          setattr expense (Expense.set_amount amount_f);;
          date_str ← form_get req "date";
          category ← form_get req "category";
          setattr expense (Expense.set_category category);;
          try_except
            (date_obj ← lift (Py.strptime date_str);
             setattr expense (Expense.set_date date_obj);;
             commit;;
             flash (Text "Expense updated successfully!") "success";;
             mret (Redirect (url_for "expenses" [])))
            (fun err =>
               flash (TextExn "Error updating expense: " err) "danger";;
               mret (Redirect (url_for "edit_expense" [("expense_id", expense_id)])))
      | GET =>
          e ← deref expense;
          mret (Render "edit_expense.html" (CtxExpense e))
      end).

(** *** /delete/<int:expense_id> *)

Definition delete_expense (expense_id : Z) (req : request) : M response :=
  login_required (fun cu =>
    expense ← get_or_404 expense_id;
    e ← deref expense;
    if negb (Expense.user_id e =? User.id cu) then
      flash (Text "You are not authorized to delete this expense.") "danger";;
      mret (Redirect (url_for "expenses" []))
    else
      try_except
        (session_delete expense;;
         commit;;
         flash (Text "Expense deleted successfully!") "success")
        (fun err => flash (TextExn "Error deleting expense: " err) "danger");;
      mret (Redirect (url_for "expenses" []))).

(** *** /dashboard *)

(** SQL's [sum] over floats, in row order. *)
Definition fsum (l : list float) : float := foldl PrimFloat.add 0%float l.

(** One more row for [GROUP BY key] with [sum(amount)]: the row joins the
    group of its key, or opens a group. *)
Fixpoint group_add {K} `{EqDecision K} (k : K) (a : float) (groups : list (K * float))
  : list (K * float) :=
  match groups with
  | [] => [(k, PrimFloat.add 0 a)]
  | (k', t) :: groups' =>
      if decide (k' = k) then (k', PrimFloat.add t a) :: groups'
      else (k', t) :: group_add k a groups'
  end.

(** A float of a result row as Python gets it.  SQLite has no NaN: a sum
    that is not a number (an infinite amount met by the opposite one) is
    NULL, which Python reads as [None]. *)
Definition sql_real (x : float) : pyval := if is_nan x then PyNone else PyFloat x.

(** The order of text keys (BINARY collation): byte by byte, a text before
    the texts it starts. *)
Definition text_le (a b : string) : Prop := String.leb a b = true.

Global Instance text_le_dec : RelDecision text_le.
Proof. intros a b. unfold text_le. apply _. Defined.

Definition key_le {V} (p q : string * V) : Prop := text_le (fst p) (fst q).

Global Instance key_le_dec {V} : RelDecision (@key_le V).
Proof. intros p q. unfold key_le. apply _. Defined.

(** [query(key, sum(amount)).group_by(key).all()]: one result row for each
    key, with the sum of the amounts of its group taken in table order.
    SQLite forms the groups by sorting on the key, so the result rows come
    in ascending order of the key. *)
Definition group_by_sum (key : Expense.t -> string) (rows : list Expense.t)
  : list (string * pyval) :=
  map (fun '(k, t) => (k, sql_real t))
    (order_by key_le
       (foldl (fun groups e => group_add (key e) (Expense.amount e) groups) [] rows)).

(** [calendar.month_abbr] *)
Definition month_abbr : list string :=
  [""; "Jan"; "Feb"; "Mar"; "Apr"; "May"; "Jun"; "Jul"; "Aug"; "Sep"; "Oct"; "Nov"; "Dec"].

(** [range(1, 13)] *)
Definition range_1_13 : list Z := seqZ 1 12.

(** [{int(month): total for month, total in monthly_expenses}]: a later
    pair replaces an earlier one with the same key. *)
Definition monthly_dict_of (monthly_expenses : list (string * pyval)) : gmap Z pyval :=
  foldl (fun d '(month, total) => <[Py.int_digits 0 month := total]> d) ∅ monthly_expenses.

Definition dashboard (req : request) : M response :=
  login_required (fun cu =>
    rows ← all (filter_by_user_id (User.id cu));
    let expense_data := group_by_sum Expense.category rows in
    let labels := map fst expense_data in
    let values := map snd expense_data in
    let monthly_expenses := group_by_sum (fun e => Py.strftime_m (Expense.date e)) rows in
    let monthly_dict := monthly_dict_of monthly_expenses in
    let monthlyLabels := map (fun i => default EmptyString (month_abbr !! Z.to_nat i)) range_1_13 in
    let monthlyData := map (fun i => default (PyInt 0) (monthly_dict !! i)) range_1_13 in
    mret (Render "dashboard.html" (CtxDashboard labels values monthlyLabels monthlyData))).

(** *** /export *)

Definition export_row (expense : Expense.t) : string :=
  Py.writerow [Py.strftime (Expense.date expense);
               Expense.description expense;
               Expense.category expense;
               Py.float_repr (Expense.amount expense)].

Definition export (req : request) : M response :=
  login_required (fun cu =>
    expenses ← order_by_date_desc_all (filter_by_user_id (User.id cu));
    let si := Py.writerow ["Date"; "Description"; "Category"; "Amount"] in
    let output := foldl (fun si expense => si +:+ export_row expense) si expenses in
    mret (Response output "text/csv"
            [("Content-Disposition", "attachment;filename=expenses.csv")])).

End App.

(** ** Vocabulary of the specification *)

(** The caller: the user the login cookie stands for. *)
Definition logged_in (w : world) (cu : User.t) : Prop :=
  user_cookie w ≫= load_user (db w) = Some cu.

(** The context a world starts a request with. *)
Definition start (w : world) : ctx := mkctx (db w) empty_session (user_cookie w) (flashes w).

(** The context once the row [e] of key [k] is loaded. *)
Definition loaded (w : world) (k : Z) (e : Expense.t) : ctx :=
  mkctx (db w) (mksession {[k := e]} [] []) (user_cookie w) (flashes w).

(** The table with the rows of key [k] replaced by [e']. *)
Definition replace_row (k : Z) (e' : Expense.t) (tbl : list Expense.t) : list Expense.t :=
  map (fun row => if Expense.id row =? k then e' else row) tbl.

(** The world after a request that changed the flashes only. *)
Definition with_flashes (w : world) (msgs : list (message * string)) : world :=
  mkworld (db w) (user_cookie w) (flashes w ++ msgs).

(** The world after a request that changed the expense table. *)
Definition with_expenses (w : world) (tbl : list Expense.t) (msgs : list (message * string))
  : world :=
  mkworld (mkdb (user_table (db w)) tbl) (user_cookie w) (flashes w ++ msgs).

(** A date bound of ListExpenses as the filter uses it: the date the text
    parses to, none when the bound is absent or does not parse. *)
Definition parsed_bound (o : option string) : option Py.date :=
  match o with
  | Some s => match Py.strptime s with Ok d => Some d | Raise _ => None end
  | None => None
  end.

(** A bound given as a text that is not a date. *)
Definition unparsable (o : option string) : bool :=
  match o with
  | Some s => match Py.strptime s with Ok _ => false | Raise _ => true end
  | None => false
  end.

(** The rows ListExpenses selects: the owner's, dated within the bounds. *)
Definition selects (uid : Z) (lo hi : option Py.date) (e : Expense.t) : bool :=
  (Expense.user_id e =? uid)
  && match lo with Some d => bool_decide (Py.date_le d (Expense.date e)) | None => true end
  && match hi with Some d => bool_decide (Py.date_le (Expense.date e) d) | None => true end.

Definition start_warning : message * string :=
  (Text "Invalid start date format. Use YYYY-MM-DD.", "danger").

Definition end_warning : message * string :=
  (Text "Invalid end date format. Use YYYY-MM-DD.", "danger").

(** The warnings of a listing: one for each non-empty bound that is not a date. *)
Definition bound_warnings (start_date end_date : option string) : list (message * string) :=
  (if truthy start_date && unparsable start_date then [start_warning] else [])
  ++ (if truthy end_date && unparsable end_date then [end_warning] else []).

(** A text that [float] reads as a number: it converts, and not to a NaN. *)
Definition parses_number (s : string) (a : float) : Prop :=
  Py.float_new s = Ok a /\ is_nan a = false.

(** The owner's rows: the rows whose [user_id] is the owner's key, in table
    order.  Among rows, those of a month (of any year) and those of a
    category. *)
Definition owned (uid : Z) (tbl : list Expense.t) : list Expense.t :=
  List.filter (fun e => Expense.user_id e =? uid) tbl.

(** The rows of the group of key [k]. *)
Definition group_rows {K} `{EqDecision K} (key : Expense.t -> K) (k : K)
    (rows : list Expense.t) : list Expense.t :=
  List.filter (fun e => bool_decide (key e = k)) rows.

Definition of_month (i : Z) (rows : list Expense.t) : list Expense.t :=
  group_rows (fun e => Py.month (Expense.date e)) i rows.

Definition of_category (c : string) (rows : list Expense.t) : list Expense.t :=
  group_rows Expense.category c rows.

Definition amounts (rows : list Expense.t) : list float := map Expense.amount rows.

(** What the dashboard reports for a group of rows: the float sum of their
    amounts in table order, [None] when that sum is not a number, and the
    integer 0 for a group without rows. *)
Definition reported (rows : list Expense.t) : pyval :=
  match rows with
  | [] => PyInt 0
  | _ => if is_nan (App.fsum (amounts rows)) then PyNone else PyFloat (App.fsum (amounts rows))
  end.

(** The total of a month and of a category: what is reported for the
    owner's rows of that month or category. *)
Definition month_total (uid : Z) (tbl : list Expense.t) (i : Z) : pyval :=
  reported (of_month i (owned uid tbl)).

Definition category_total (uid : Z) (tbl : list Expense.t) (c : string) : pyval :=
  reported (of_category c (owned uid tbl)).

(** A group with its total. *)
Definition group_total {K} `{EqDecision K} (key : Expense.t -> K) (rows : list Expense.t)
    (k : K) : K * float :=
  (k, App.fsum (amounts (group_rows key k rows))).

(** The distinct elements of a list, in the order of their first occurrence. *)
Definition add_key {K} `{EqDecision K} (ks : list K) (k : K) : list K :=
  if decide (k ∈ ks) then ks else ks ++ [k].

Definition first_keys {K} `{EqDecision K} (l : list K) : list K := foldl add_key [] l.

(** A text before another in byte order. *)
Definition text_lt (a b : string) : Prop := String.compare a b = Lt.

(** The categories an owner has used, each once, in ascending byte order. *)
Definition categories (uid : Z) (tbl : list Expense.t) : list string :=
  order_by App.text_le (first_keys (map Expense.category (owned uid tbl))).

Definition month_names : list string :=
  ["Jan"; "Feb"; "Mar"; "Apr"; "May"; "Jun"; "Jul"; "Aug"; "Sep"; "Oct"; "Nov"; "Dec"].

(** Stored dates are calendar dates: [strptime] returns no other. *)
Definition valid_date (d : Py.date) : Prop :=
  1 <= Py.year d <= 9999 /\ 1 <= Py.month d <= 12
  /\ 1 <= Py.day d <= Py.days_in_month (Py.year d) (Py.month d).

Definition dates_valid (tbl : list Expense.t) : Prop :=
  Forall (fun e => valid_date (Expense.date e)) tbl.

(** The key the dashboard groups months by, and the rows it is meant for. *)
Definition month_key (e : Expense.t) : string := Py.strftime_m (Expense.date e).

Definition months_valid (rows : list Expense.t) : Prop :=
  Forall (fun e => 1 <= Py.month (Expense.date e) <= 12) rows.

(** The exact value of a finite float, in units of [2^-1074]. *)
Definition exact (x : float) : Z :=
  match Prim2SF x with
  | S754_finite s m e => (if s then -1 else 1) * (Z.pos m * 2 ^ (e + 1074))
  | _ => 0
  end.








(** What a rendered dashboard shows: the category totals and the month totals. *)
Definition dashboard_totals (r : response) : list pyval * list pyval :=
  match r with
  | Render _ (CtxDashboard _ values _ monthlyData) => (values, monthlyData)
  | _ => ([], [])
  end.

(** The rows of a CSV document, one after the other. *)
Definition join_rows (rows : list string) : string := foldr String.append EmptyString rows.

(** The end of a line of the export: a carriage return and a line feed. *)
Definition crlf : string := String "013" (String "010" EmptyString).

Definition csv_header : string := "Date,Description,Category,Amount" +:+ crlf.

(** A field as the export writes it: as it is, or between quotes when it
    holds a comma, a quote or a line break. *)
Definition quoted (field : string) : string := Py.csv_field field.

(** The line of an expense whose date is written [date_text]: the date,
    the description, the category and the amount as [str] prints it, each
    as the export writes a field, with commas between them and the line
    end after. *)
Definition csv_line (date_text : string) (e : Expense.t) : string :=
  quoted date_text +:+ "," +:+ quoted (Expense.description e)
    +:+ "," +:+ quoted (Expense.category e)
    +:+ "," +:+ quoted (Py.float_repr (Expense.amount e)) +:+ crlf.

(** A text of the form YYYY-MM-DD that spells the date [d]: four digits,
    a hyphen, two digits, a hyphen, two digits. *)
Definition spells_date (d : Py.date) (s : string) : bool :=
  match s with
  | String y1 (String y2 (String y3 (String y4 (String h1 (String m1 (String m2
      (String h2 (String d1 (String d2 EmptyString))))))))) =>
      Ascii.eqb h1 "-" && Ascii.eqb h2 "-"
      && forallb Py.is_digit [y1; y2; y3; y4; m1; m2; d1; d2]
      && (Py.int_digits 0 (String y1 (String y2 (String y3 (String y4 EmptyString))))
          =? Py.year d)
      && (Py.int_digits 0 (String m1 (String m2 EmptyString)) =? Py.month d)
      && (Py.int_digits 0 (String d1 (String d2 EmptyString)) =? Py.day d)
  | _ => false
  end.

Definition body_of (r : response) : string :=
  match r with
  | Response body _ _ => body
  | _ => EmptyString
  end.

(** What [strptime] does after the year group. *)
Definition after_year (r1 : string) : list (string * string * string) :=
  r2 ← Py.lit "-" r1;
  '(m, r3) ← Py.group_m r2;
  r4 ← Py.lit "-" r3;
  '(d, r5) ← Py.group_d r4;
  [(m, d, r5)].

(** The year text of [y]: four digits that read as [y]. *)
Definition year_text_ok (y : Z) : bool :=
  match Py.str_nat y with
  | String a (String b (String c (String e EmptyString))) =>
      Py.is_digit a && Py.is_digit b && Py.is_digit c && Py.is_digit e
      && (Py.int_digits 0 (String a (String b (String c (String e EmptyString)))) =? y)
  | _ => false
  end.

(** The month and day texts of [m] and [dd] have two characters each, are
    matched whole, and read as [m] and [dd]. *)
Definition month_day_ok (m dd : Z) : bool :=
  match after_year ("-" +:+ Py.zfill 2 (Py.str_nat m) +:+ "-" +:+ Py.zfill 2 (Py.str_nat dd)) with
  | (ms, ds, EmptyString) :: _ =>
      (Py.int_group ms =? m) && (Py.int_group ds =? dd)
      && (String.length (Py.zfill 2 (Py.str_nat m)) =? 2)%nat
      && (String.length (Py.zfill 2 (Py.str_nat dd)) =? 2)%nat
  | _ => false
  end.

(** The year text of [y] has fewer than four characters. *)
Definition year_short (y : Z) : bool := (String.length (Py.str_nat y) <=? 3)%nat.

(** The month and day texts of [m] and [dd] are two digits each that read
    as [m] and [dd]. *)
Definition month_day_spelled (m dd : Z) : bool :=
  match Py.zfill 2 (Py.str_nat m), Py.zfill 2 (Py.str_nat dd) with
  | String m1 (String m2 EmptyString), String d1 (String d2 EmptyString) =>
      forallb Py.is_digit [m1; m2; d1; d2]
      && (Py.int_digits 0 (String m1 (String m2 EmptyString)) =? m)
      && (Py.int_digits 0 (String d1 (String d2 EmptyString)) =? dd)
  | _, _ => false
  end.

(** ** Sample worlds and requests *)

Module Demo.

Definition alice : User.t := User.mk 1 "alice" "hash-of-alice".
Definition bob : User.t := User.mk 2 "bob" "hash-of-bob".

(** Alice is logged in; nobody has an expense yet. *)
Definition w0 : world := mkworld (mkdb [alice; bob] []) (Some 1) [].

Definition as_user (uid : Z) (w : world) : world := mkworld (db w) (Some uid) (flashes w).

Definition expense_form (description amount date category : string) : list (string * string) :=
  [("description", description); ("amount", amount); ("date", date); ("category", category)].

Definition post (f : list (string * string)) : request := mkrequest POST f [].

Definition get (a : list (string * string)) : request := mkrequest GET [] a.

(** The world after a request. *)
Definition next (view : M response) (w : world) : world := snd (handle view w).

(** Coffee, 3.50, 2024-01-15, Food. *)
Definition coffee : request := post (expense_form "Coffee" "3.50" "2024-01-15" "Food").

Definition w_coffee : world := next (App.add_expense coffee) w0.

(** Two expenses in March of two years. *)
Definition w_march : world :=
  next (App.add_expense (post (expense_form "Rent" "20" "2024-03-10" "Home")))
    (next (App.add_expense (post (expense_form "Books" "10" "2023-03-01" "Fun"))) w0).


(** A listing asked with an empty start date. *)
Definition empty_start : request := get [("start_date", EmptyString)].

(** An expense without a description. *)
Definition nameless : request := post (expense_form EmptyString "1" "2024-01-01" "Food").

(** The CSV text with LF line ends. *)
Definition coffee_csv_lf : string :=
  "Date,Description,Category,Amount"
    +:+ String "010" ("2024-01-15,Coffee,Food,3.5" +:+ String "010" EmptyString).

(** The CSV text with CR LF line ends. *)
Definition coffee_csv_crlf : string :=
  "Date,Description,Category,Amount"
    +:+ String "013" (String "010"
          ("2024-01-15,Coffee,Food,3.5" +:+ String "013" (String "010" EmptyString))).

(** Bob adds an expense from his browser; the world is then seen from
    Alice's again. *)
Definition bob_adds (description amount date category : string) (w : world) : world :=
  as_user 1 (next (App.add_expense (post (expense_form description amount date category)))
               (as_user 2 w)).

(** Alice's two March expenses, with a March and a May expense of Bob. *)
Definition w_march_both : world :=
  bob_adds "Tools" "7" "2024-05-02" "Home" (bob_adds "Lunch" "5" "2024-03-05" "Food" w_march).

(** Alice's coffee, with a later tea of Bob. *)
Definition w_coffee_both : world := bob_adds "Tea" "2" "2024-01-20" "Food" w_coffee.

(** An infinite expense and an infinite refund in January. *)
Definition w_inf : world :=
  next (App.add_expense (post (expense_form "Refund" "-inf" "2024-01-03" "Luck")))
    (next (App.add_expense (post (expense_form "Yacht" "inf" "2024-01-02" "Luck"))) w0).

(** An expense of the year 999. *)
Definition w_old : world :=
  next (App.add_expense (post (expense_form "Quill" "1" "0999-01-01" "Office"))) w0.


(** Four categories of Alice, entered in the order Home, Fun, food, Bus,
    and one of Bob. *)
Definition w_labels : world :=
  next (App.add_expense (post (expense_form "d" "4" "2024-01-04" "Bus")))
    (bob_adds "x" "9" "2024-01-09" "Art"
       (next (App.add_expense (post (expense_form "c" "3" "2024-02-03" "food")))
          (next (App.add_expense (post (expense_form "b" "2" "2024-01-02" "Fun")))
             (next (App.add_expense (post (expense_form "a" "1" "2024-01-01" "Home"))) w0)))).

(** A password check for the samples: the hash of [p] is [hash-of-p]. *)
Definition sample_check (pwhash password : string) : bool :=
  String.eqb pwhash ("hash-of-" +:+ password).

End Demo.

(** ** The other views of app.py: the homepage, registration and logout *)

Module Auth.

(** The key SQLite gives a new user row. *)
Definition next_user_id (tbl : list User.t) : Z :=
  1 + foldr (fun u acc => Z.max (User.id u) acc) 0 tbl.

(** [db.session.add(new_user); db.session.commit()]: the INSERT of the user
    row and the flush of the rest of the session, in one transaction.  The
    [username] column is UNIQUE: a second row with a name of the table
    raises, and the tables stay as they were. *)
Definition add_user_commit (new_user : User.t) : M unit := fun c =>
  if existsb (fun u => String.eqb (User.username u) (User.username new_user))
       (user_table (cdb c))
  then (Raise (IntegrityError "UNIQUE constraint failed: user.username"), c)
  else
    match commit c with
    | (Ok _, c') =>
        (Ok tt,
         mkctx (mkdb (user_table (cdb c')
                        ++ [User.mk (next_user_id (user_table (cdb c')))
                              (User.username new_user) (User.password new_user)])
                  (expense_table (cdb c')))
           (csess c') (ccookie c') (cflashes c'))
    | (Raise e, _) => (Raise e, c)
    end.

(** [logout_user()] *)
Definition logout_user : M unit := fun c =>
  (Ok tt, mkctx (cdb c) (csess c) None (cflashes c)).

(** *** / *)

Definition home (req : request) : M response :=
  u ← current_user;
  match u with
  | Some _ => mret (Redirect (url_for "expenses" []))   (* current_user.is_authenticated *)
  | None => mret (Render "home.html" NoContext)
  end.

(** *** /register *)

Section Register.
(** [werkzeug.security.generate_password_hash(password)] *)
Variable generate_password_hash : string -> string.

Definition register (req : request) : M response :=
  match method req with
  | POST =>
      username ← form_get req "username";
      password ← form_get req "password";
      d ← get_db;
      match App.user_by_name d username with
      | Some _ =>
          flash (Text "Username already exists!") "danger";;
          mret (Redirect (url_for "register" []))
      | None =>
          let new_user :=   (* its id is set when the row is inserted *)
            User.mk 0 username (generate_password_hash password) in
          add_user_commit new_user;;
          flash (Text "Registration successful! Please log in.") "success";;
          mret (Redirect (url_for "login" []))
      end
  | GET => mret (Render "register.html" NoContext)
  end.
End Register.

(** *** /logout *)

Definition logout (req : request) : M response :=
  login_required (fun cu =>
    logout_user;;
    flash (Text "You have been logged out.") "success";;
    mret (Redirect (url_for "home" []))).

End Auth.

(** ** More vocabulary *)

(** What a lookup raises for a key that finds no row: [NotFound], or the
    driver's [OverflowError] for a key that is no SQLite integer. *)
Definition no_row (k : Z) : exn :=
  if sqlite_int k then NotFound
  else OverflowError "Python int too large to convert to SQLite INTEGER".

(** Nobody is logged in: no cookie, or a cookie whose user is gone. *)
Definition anonymous (w : world) : Prop :=
  user_cookie w ≫= load_user (db w) = None.

(** What the login manager answers to an anonymous caller of a protected view. *)
Definition login_message : message * string :=
  (Text "Please log in to access this page.", "message").

(** Primary keys and user names are unique. *)
Definition unique_ids (tbl : list Expense.t) : Prop := NoDup (map Expense.id tbl).

Definition unique_user_ids (tbl : list User.t) : Prop := NoDup (map User.id tbl).

Definition unique_usernames (tbl : list User.t) : Prop := NoDup (map User.username tbl).

(** The key and the owner of every row, in table order. *)
Definition ownership (tbl : list Expense.t) : list (Z * Z) :=
  map (fun e => (Expense.id e, Expense.user_id e)) tbl.

(** The four fields of the expense forms. *)
Definition expense_fields : list string := ["description"; "amount"; "date"; "category"].

(** Strictly earlier. *)
Definition date_lt (a b : Py.date) : Prop := ~ Py.date_le b a.

(** The world after a registration that went through. *)
Definition registered (w : world) (u pwhash : string) : world :=
  mkworld
    (mkdb (user_table (db w) ++ [User.mk (Auth.next_user_id (user_table (db w))) u pwhash])
       (expense_table (db w)))
    (user_cookie w)
    (flashes w ++ [(Text "Registration successful! Please log in.", "success")]).

(** Amounts are numbers: a NaN is bound as NULL, which the column refuses. *)
Definition amounts_stored (tbl : list Expense.t) : Prop :=
  Forall (fun e => is_nan (Expense.amount e) = false) tbl.

(** What one request of the user [uid] can do to the expense table:
    nothing, one INSERT under a fresh key, one UPDATE of a row of theirs
    that keeps its key and owner, or one DELETE of a row of theirs. *)
Inductive table_step (uid : Z) (tbl : list Expense.t) : list Expense.t -> Prop :=
| step_none : table_step uid tbl tbl
| step_insert (d : string) (a : float) (dt : Py.date) (c : string) :
    valid_date dt -> is_nan a = false ->
    table_step uid tbl (tbl ++ [Expense.mk (next_id tbl) d a dt c uid])
| step_update (k : Z) (e : Expense.t) (d : string) (a : float) (dt : Py.date) (c : string) :
    find_expense tbl k = Some e -> Expense.user_id e = uid ->
    valid_date dt -> is_nan a = false ->
    table_step uid tbl (replace_row k (Expense.mk k d a dt c uid) tbl)
| step_delete (k : Z) (e : Expense.t) :
    find_expense tbl k = Some e -> Expense.user_id e = uid ->
    table_step uid tbl (List.filter (fun row => negb (Expense.id row =? k)) tbl).

(** A request that leaves the users and the login cookie alone and does
    to the expenses what the caller may do. *)
Definition steps_as (uid : Z) (w w' : world) : Prop :=
  user_table (db w') = user_table (db w)
  /\ user_cookie w' = user_cookie w
  /\ table_step uid (expense_table (db w)) (expense_table (db w')).

(** Every route of app.py, for one request and one key in the URL. *)
Definition routes (generate_password_hash : string -> string)
    (check_password_hash : string -> string -> bool) (req : request) (k : Z)
  : list (M response) :=
  [Auth.home req; Auth.register generate_password_hash req;
   App.login check_password_hash req; Auth.logout req;
   App.expenses req; App.add_expense req; App.edit_expense k req;
   App.delete_expense k req; App.dashboard req; App.export req].

(** The same server, seen from the browser of the user [uid]. *)
Definition browser_of (uid : Z) (w : world) : world := mkworld (db w) (Some uid) [].

(** * Proofs *)

(** ** Running a handler *)

Lemma bind_run {A B} (m : M A) (f : A -> M B) (c : ctx) :
  (m ≫= f) c =
  match m c with
  | (Ok a, c') => f a c'
  | (Raise e, c') => (Raise e, c')
  end.
Proof. reflexivity. Qed.

Lemma setattr_run (k : Z) (upd : Expense.t -> Expense.t) (c : ctx) :
  setattr k upd c =
  (Ok tt, mkctx (cdb c)
            (mksession (alter upd k (identity_map (csess c))) (pending_new (csess c))
               (pending_delete (csess c)))
            (ccookie c) (cflashes c)).
Proof. reflexivity. Qed.

Lemma handle_login_required (view : User.t -> M response) (w : world) (cu : User.t) :
  logged_in w cu -> handle (login_required view) w = handle (view cu) w.
Proof.
  unfold logged_in, handle, login_required. intros H.
  rewrite bind_run. unfold current_user. simpl. rewrite H. reflexivity.
Qed.

Lemma find_expense_id (tbl : list Expense.t) (k : Z) (e : Expense.t) :
  find_expense tbl k = Some e -> Expense.id e = k.
Proof. unfold find_expense. intros H. apply find_some in H as [_ H]. lia. Qed.

Lemma load_found (w : world) (k : Z) (e : Expense.t) (body : Z -> Expense.t -> M response) :
  find_expense (expense_table (db w)) k = Some e ->
  (expense ← get_or_404 k; x ← deref expense; body expense x) (start w)
  = body k e (loaded w k e).
Proof.
  intros H. unfold start. rewrite bind_run. unfold get_or_404 at 1. rewrite bind_run. simpl.
  rewrite lookup_empty. rewrite bind_run. simpl. rewrite H. simpl.
  rewrite bind_run. unfold deref. rewrite bind_run. simpl.
  rewrite insert_empty. rewrite lookup_singleton_eq. reflexivity.
Qed.

Lemma update_rows_singleton (k : Z) (e' : Expense.t) (tbl : list Expense.t) :
  update_rows {[k := e']} tbl = replace_row k e' tbl.
Proof.
  unfold update_rows, replace_row. apply map_ext. intros row.
  rewrite lookup_singleton.
  case_decide; destruct (Z.eqb_spec (Expense.id row) k); simpl; congruence.
Qed.

Lemma update_rows_empty (tbl : list Expense.t) : update_rows ∅ tbl = tbl.
Proof.
  unfold update_rows. induction tbl as [|row tbl IH]; simpl; [done|].
  rewrite lookup_empty. simpl. congruence.
Qed.

Lemma delete_rows_nil (tbl : list Expense.t) : delete_rows [] tbl = tbl.
Proof. unfold delete_rows. simpl. induction tbl; simpl; congruence. Qed.

(** Committing one changed object rewrites its row, or fails as a whole. *)
Lemma commit_dirty (d : database) (k : Z) (e' : Expense.t) (ck : option Z)
    (fl : list (message * string)) :
  commit (mkctx d (mksession {[k := e']} [] []) ck fl) =
  if not_null e' then
    (Ok tt, mkctx (mkdb (user_table d) (replace_row k e' (expense_table d))) empty_session ck fl)
  else (Raise (IntegrityError "NOT NULL constraint failed: expense.amount"),
        mkctx d (mksession {[k := e']} [] []) ck fl).
Proof.
  unfold commit, written, flushed.
  cbn [csess cdb pending_new pending_delete identity_map ccookie cflashes].
  rewrite map_to_list_singleton.
  cbn [map snd List.filter existsb negb app forallb insert_rows].
  rewrite delete_rows_nil, update_rows_singleton, andb_true_r. reflexivity.
Qed.

(** Committing one new object appends its row under a fresh key. *)
Lemma commit_new (d : database) (e : Expense.t) (ck : option Z) (fl : list (message * string)) :
  commit (mkctx d (mksession ∅ [e] []) ck fl) =
  if not_null e then
    (Ok tt, mkctx (mkdb (user_table d)
                     (expense_table d ++ [Expense.set_id (next_id (expense_table d)) e]))
              empty_session ck fl)
  else (Raise (IntegrityError "NOT NULL constraint failed: expense.amount"),
        mkctx d (mksession ∅ [e] []) ck fl).
Proof.
  unfold commit, written, flushed.
  cbn [csess cdb pending_new pending_delete identity_map ccookie cflashes].
  rewrite map_to_list_empty.
  cbn [map snd List.filter existsb negb app forallb insert_rows].
  rewrite delete_rows_nil, update_rows_empty, andb_true_r. reflexivity.
Qed.

(** ** ORDER BY *)

Section Ordering.
Context {A : Type} (R : relation A) `{!RelDecision R}.

Lemma sort_insert_Permutation (x : A) (l : list A) : sort_insert R x l ≡ₚ x :: l.
Proof.
  induction l as [|y l IH]; cbn [sort_insert]; [reflexivity|].
  case_decide; [reflexivity|]. rewrite IH. apply perm_swap.
Qed.

Lemma order_by_Permutation (l : list A) : order_by R l ≡ₚ l.
Proof.
  unfold order_by. induction l as [|x l IH]; cbn [foldr]; [reflexivity|].
  rewrite sort_insert_Permutation, IH. reflexivity.
Qed.

Lemma sort_insert_sorted `{!Transitive R} `{!Total R} (x : A) (l : list A) :
  StronglySorted R l -> StronglySorted R (sort_insert R x l).
Proof.
  induction 1 as [|y l Hl IH Hy]; cbn [sort_insert]; [repeat constructor|].
  case_decide as Hxy.
  - constructor; [constructor; assumption|]. constructor; [exact Hxy|].
    eapply List.Forall_impl; [|exact Hy]. intros z Hz. exact (transitivity Hxy Hz).
  - constructor; [exact IH|].
    rewrite sort_insert_Permutation. constructor; [|exact Hy].
    destruct (total R x y); [contradiction|assumption].
Qed.

Lemma StronglySorted_order_by `{!Transitive R} `{!Total R} (l : list A) :
  StronglySorted R (order_by R l).
Proof.
  unfold order_by. induction l as [|x l IH]; cbn [foldr]; [constructor|].
  apply sort_insert_sorted, IH.
Qed.

(** Rows the order does not tell apart keep their order: a filter that
    lets no row pass together with a row strictly before it sees the
    sorted list as it sees the list. *)
Lemma filter_sort_insert (P : A -> bool) (x : A) (l : list A) :
  (forall y, In y l -> P x = true -> P y = true -> R x y) ->
  List.filter P (sort_insert R x l) = List.filter P (x :: l).
Proof.
  induction l as [|y l IH]; intros Hties; cbn [sort_insert]; [reflexivity|].
  case_decide as Hxy; [reflexivity|].
  cbn [List.filter]. rewrite IH by (intros z Hz; apply Hties; right; exact Hz).
  cbn [List.filter]. destruct (P x) eqn:Hx, (P y) eqn:Hy; try reflexivity.
  exfalso. apply Hxy. apply Hties; [left; reflexivity|reflexivity|exact Hy].
Qed.

Lemma filter_order_by (P : A -> bool) (l : list A) :
  (forall x y, In x l -> In y l -> P x = true -> P y = true -> R x y) ->
  List.filter P (order_by R l) = List.filter P l.
Proof.
  unfold order_by. induction l as [|x l IH]; intros Hties; cbn [foldr]; [reflexivity|].
  rewrite filter_sort_insert.
  - cbn [List.filter]. rewrite IH; [reflexivity|].
    intros a b Ha Hb. apply Hties; right; assumption.
  - intros y Hy. apply Hties; [left; reflexivity|right].
    apply (Permutation_in _ (order_by_Permutation l)). exact Hy.
Qed.

End Ordering.

(** ** The order of texts *)

Lemma ascii_compare_refl (x : ascii) : Ascii.compare x x = Eq.
Proof. unfold Ascii.compare. apply N.compare_refl. Qed.

Lemma string_compare_refl (a : string) : String.compare a a = Eq.
Proof. induction a as [|x a IH]; cbn; [reflexivity|]. rewrite ascii_compare_refl. exact IH. Qed.

Lemma ascii_compare_trans (x y z : ascii) (r : comparison) :
  r <> Eq -> Ascii.compare x y = r -> Ascii.compare y z = r -> Ascii.compare x z = r.
Proof.
  unfold Ascii.compare. intros Hr Hxy Hyz. destruct r; [contradiction| |].
  - apply N.compare_lt_iff in Hxy, Hyz. apply N.compare_lt_iff.
    exact (N.lt_trans _ _ _ Hxy Hyz).
  - apply N.compare_gt_iff in Hxy, Hyz. apply N.compare_gt_iff.
    exact (N.lt_trans _ _ _ Hyz Hxy).
Qed.

Lemma string_compare_lt_trans (a b c : string) :
  String.compare a b = Lt -> String.compare b c = Lt -> String.compare a c = Lt.
Proof.
  revert b c. induction a as [|x a IH]; intros [|y b] [|z c]; cbn; try discriminate; try reflexivity.
  destruct (Ascii.compare x y) eqn:Hxy, (Ascii.compare y z) eqn:Hyz; try discriminate.
  - apply Ascii.compare_eq_iff in Hxy, Hyz. subst. rewrite ascii_compare_refl. apply IH.
  - apply Ascii.compare_eq_iff in Hxy. subst. rewrite Hyz. reflexivity.
  - apply Ascii.compare_eq_iff in Hyz. subst. rewrite Hxy. reflexivity.
  - rewrite (ascii_compare_trans x y z Lt); [reflexivity|discriminate|assumption..].
Qed.

Lemma text_le_iff (a b : string) : App.text_le a b <-> text_lt a b \/ a = b.
Proof.
  unfold App.text_le, text_lt, String.leb. destruct (String.compare a b) eqn:Hc.
  - apply String.compare_eq_iff in Hc. tauto.
  - tauto.
  - split; [discriminate|]. intros [H| ->]; [discriminate|].
    rewrite string_compare_refl in Hc. discriminate.
Qed.

Global Instance text_le_trans : Transitive App.text_le.
Proof.
  intros a b c. rewrite !text_le_iff. intros [Hab| ->] [Hbc| ->]; auto.
  left. exact (string_compare_lt_trans a b c Hab Hbc).
Qed.

Global Instance text_le_total : Total App.text_le.
Proof. intros a b. exact (String.leb_total a b). Qed.

Global Instance key_le_trans {V} : Transitive (@App.key_le V).
Proof. intros p q r. unfold App.key_le. apply text_le_trans. Qed.

Global Instance key_le_total {V} : Total (@App.key_le V).
Proof. intros p q. unfold App.key_le. apply text_le_total. Qed.

Lemma text_lt_irrefl (a : string) : ~ text_lt a a.
Proof. unfold text_lt. rewrite string_compare_refl. discriminate. Qed.

(** A list in ascending order without repetition is in strictly ascending order. *)
Lemma sorted_NoDup_strict (l : list string) :
  StronglySorted App.text_le l -> NoDup l -> StronglySorted text_lt l.
Proof.
  induction 1 as [|x l Hl IH Hx]; intros Hnd; [constructor|].
  apply NoDup_cons in Hnd as [Hnot Hnd]. constructor; [apply IH, Hnd|].
  apply List.Forall_forall. intros y Hy.
  pose proof (proj1 (List.Forall_forall _ _) Hx y Hy) as Hle.
  apply text_le_iff in Hle as [Hlt| ->]; [exact Hlt|].
  exfalso. apply Hnot, list_elem_of_In, Hy.
Qed.

(** ** EditExpense and DeleteExpense *)

(** The steps of a view, one at a time. *)
Ltac run_form H :=
  rewrite bind_run; unfold form_get at 1; rewrite H; cbn [mret M_ret].

Ltac run_setattr := rewrite bind_run, setattr_run.

Ltac run_lift := rewrite bind_run; unfold lift at 1.

(** A branch of a view that ends the request with the tables untouched. *)
Ltac unchanged := intros [= <- <-]; left; reflexivity.

(** The whole of an owner's POST to /edit: what it answers and the world
    it leaves, case by case. *)
Lemma edit_expense_post (w : world) (cu : User.t) (k : Z) (req : request) (e : Expense.t)
    (d sa sd c : string) :
  logged_in w cu ->
  find_expense (expense_table (db w)) k = Some e ->
  Expense.user_id e = User.id cu ->
  method req = POST ->
  multidict_get (form req) "description" = Some d ->
  multidict_get (form req) "amount" = Some sa ->
  multidict_get (form req) "date" = Some sd ->
  multidict_get (form req) "category" = Some c ->
  handle (App.edit_expense k req) w =
  match Py.float_new sa with
  | Raise err => (error_page err, w)
  | Ok a =>
      let back := Redirect (url_for "edit_expense" [("expense_id", k)]) in
      match Py.strptime sd with
      | Raise err => (back, with_flashes w [(TextExn "Error updating expense: " err, "danger")])
      | Ok dt =>
          if is_nan a then
            (back, with_flashes w
                     [(TextExn "Error updating expense: "
                         (IntegrityError "NOT NULL constraint failed: expense.amount"), "danger")])
          else
            (Redirect (url_for "expenses" []),
             with_expenses w
               (replace_row k (Expense.mk (Expense.id e) d a dt c (Expense.user_id e))
                  (expense_table (db w)))
               [(Text "Expense updated successfully!", "success")])
      end
  end.
Proof.
  intros Hin Hfind Hown Hm Hd Ha Hsd Hc.
  unfold App.edit_expense. rewrite (handle_login_required _ w cu Hin).
  unfold handle. fold (start w). rewrite (load_found w k e _ Hfind).
  rewrite Hown, Z.eqb_refl, Hm. cbn [negb].
  rewrite bind_run. unfold form_get at 1. rewrite Hd.
  cbn [mret M_ret]. rewrite bind_run, setattr_run.
  rewrite bind_run. unfold form_get at 1. rewrite Ha.
  cbn [mret M_ret]. rewrite bind_run. unfold lift at 1.
  destruct (Py.float_new sa) as [a|err] eqn:Hfa.
  2:{ destruct w as [dbw ck fl]; reflexivity. }
  rewrite bind_run, setattr_run.
  rewrite bind_run. unfold form_get at 1. rewrite Hsd.
  cbn [mret M_ret]. rewrite bind_run. unfold form_get at 1. rewrite Hc.
  cbn [mret M_ret]. rewrite bind_run, setattr_run.
  unfold try_except. rewrite bind_run. unfold lift at 1.
  destruct (Py.strptime sd) as [dt|err] eqn:Hdt; [|reflexivity].
  rewrite bind_run, setattr_run.
  cbn [loaded cdb csess ccookie cflashes identity_map pending_new pending_delete].
  rewrite !alter_singleton_eq.
  rewrite bind_run, commit_dirty. unfold not_null. cbn [Expense.set_date Expense.set_category
    Expense.set_amount Expense.set_description Expense.amount Expense.id Expense.user_id
    Expense.description Expense.date Expense.category].
  rewrite <- Hown. destruct (is_nan a); reflexivity.
Qed.

(** Whatever an owner sends to /edit, the table either stays as it was or
    has the row rewritten with all four submitted fields. *)
Lemma edit_expense_all_or_nothing (w : world) (cu : User.t) (k : Z) (req : request)
    (e : Expense.t) (resp : response) (w' : world) :
  logged_in w cu ->
  find_expense (expense_table (db w)) k = Some e ->
  Expense.user_id e = User.id cu ->
  handle (App.edit_expense k req) w = (resp, w') ->
  db w' = db w
  \/ exists d sa a sd dt c,
       multidict_get (form req) "description" = Some d
       /\ multidict_get (form req) "amount" = Some sa /\ Py.float_new sa = Ok a
       /\ multidict_get (form req) "date" = Some sd /\ Py.strptime sd = Ok dt
       /\ multidict_get (form req) "category" = Some c
       /\ db w' = mkdb (user_table (db w))
                    (replace_row k (Expense.mk (Expense.id e) d a dt c (Expense.user_id e))
                       (expense_table (db w))).
Proof.
  intros Hin Hfind Hown.
  unfold App.edit_expense. rewrite (handle_login_required _ w cu Hin).
  unfold handle. fold (start w). rewrite (load_found w k e _ Hfind).
  rewrite Hown, Z.eqb_refl. cbn [negb]. rewrite <- Hown.
  destruct (method req).
  { rewrite bind_run. unfold deref. rewrite bind_run.
    cbn [get_session loaded csess identity_map]. rewrite lookup_singleton_eq. unchanged. }
  destruct (multidict_get (form req) "description") as [d|] eqn:Hd.
  2:{ rewrite bind_run. unfold form_get at 1. rewrite Hd. unchanged. }
  run_form Hd. run_setattr.
  destruct (multidict_get (form req) "amount") as [sa|] eqn:Ha.
  2:{ rewrite bind_run. unfold form_get at 1. rewrite Ha. unchanged. }
  run_form Ha.
  destruct (Py.float_new sa) as [a|err] eqn:Hfa.
  2:{ run_lift. unchanged. }
  run_lift. run_setattr.
  destruct (multidict_get (form req) "date") as [sd|] eqn:Hsd.
  2:{ rewrite bind_run. unfold form_get at 1. rewrite Hsd. unchanged. }
  run_form Hsd.
  destruct (multidict_get (form req) "category") as [c|] eqn:Hc.
  2:{ rewrite bind_run. unfold form_get at 1. rewrite Hc. unchanged. }
  run_form Hc. run_setattr.
  unfold try_except.
  destruct (Py.strptime sd) as [dt|err] eqn:Hdt.
  2:{ run_lift. unchanged. }
  run_lift. run_setattr.
  cbn [loaded cdb csess ccookie cflashes identity_map pending_new pending_delete].
  rewrite !alter_singleton_eq, bind_run, commit_dirty.
  destruct (not_null _); [|unchanged].
  intros [= <- <-]. right. exists d, sa, a, sd, dt, c.
  repeat split; first [assumption | reflexivity].
Qed.

(** A caller who does not own the row is turned away from /edit before
    anything is read from the request. *)
Lemma edit_expense_not_owner (w : world) (cu : User.t) (k : Z) (req : request) (e : Expense.t) :
  logged_in w cu ->
  find_expense (expense_table (db w)) k = Some e ->
  Expense.user_id e <> User.id cu ->
  handle (App.edit_expense k req) w =
  (Redirect (url_for "expenses" []),
   with_flashes w [(Text "You are not authorized to edit this expense.", "danger")]).
Proof.
  intros Hin Hfind Hown.
  unfold App.edit_expense. rewrite (handle_login_required _ w cu Hin).
  unfold handle. fold (start w). rewrite (load_found w k e _ Hfind).
  destruct (Z.eqb_spec (Expense.user_id e) (User.id cu)) as [Heq|_]; [contradiction|].
  reflexivity.
Qed.

Lemma delete_expense_not_owner (w : world) (cu : User.t) (k : Z) (req : request) (e : Expense.t) :
  logged_in w cu ->
  find_expense (expense_table (db w)) k = Some e ->
  Expense.user_id e <> User.id cu ->
  handle (App.delete_expense k req) w =
  (Redirect (url_for "expenses" []),
   with_flashes w [(Text "You are not authorized to delete this expense.", "danger")]).
Proof.
  intros Hin Hfind Hown.
  unfold App.delete_expense. rewrite (handle_login_required _ w cu Hin).
  unfold handle. fold (start w). rewrite (load_found w k e _ Hfind).
  destruct (Z.eqb_spec (Expense.user_id e) (User.id cu)) as [Heq|_]; [contradiction|].
  reflexivity.
Qed.

Lemma delete_rows_replace_row (k : Z) (e : Expense.t) (tbl : list Expense.t) :
  Expense.id e = k ->
  delete_rows [k] (replace_row k e tbl)
  = List.filter (fun row => negb (Expense.id row =? k)) tbl.
Proof.
  intros Hid. unfold delete_rows, replace_row.
  induction tbl as [|row tbl IH]; [reflexivity|].
  cbn [map List.filter]. rewrite IH. clear IH.
  destruct (Z.eqb_spec (Expense.id row) k) as [Heq|Hne]; cbn [existsb].
  - rewrite Hid, Z.eqb_refl. reflexivity.
  - destruct (Z.eqb_spec (Expense.id row) k); [contradiction|]. reflexivity.
Qed.

(** The owner's DeleteExpense removes the row. *)
Lemma delete_expense_owner (w : world) (cu : User.t) (k : Z) (req : request) (e : Expense.t) :
  logged_in w cu ->
  find_expense (expense_table (db w)) k = Some e ->
  Expense.user_id e = User.id cu ->
  handle (App.delete_expense k req) w =
  (Redirect (url_for "expenses" []),
   with_expenses w (List.filter (fun row => negb (Expense.id row =? k)) (expense_table (db w)))
     [(Text "Expense deleted successfully!", "success")]).
Proof.
  intros Hin Hfind Hown.
  unfold App.delete_expense. rewrite (handle_login_required _ w cu Hin).
  unfold handle. fold (start w). rewrite (load_found w k e _ Hfind).
  rewrite Hown, Z.eqb_refl. cbn [negb].
  rewrite bind_run. unfold try_except. rewrite bind_run. unfold session_delete.
  rewrite bind_run.
  cbn [get_session put_session loaded csess cdb ccookie cflashes identity_map
         pending_new pending_delete app].
  rewrite bind_run. unfold commit, written, flushed.
  cbn [csess cdb pending_new pending_delete identity_map ccookie cflashes].
  rewrite map_to_list_singleton. cbn [map snd List.filter existsb app insert_rows].
  rewrite (find_expense_id _ _ _ Hfind), Z.eqb_refl. cbn [orb negb forallb].
  rewrite update_rows_singleton.
  rewrite (delete_rows_replace_row k e _ (find_expense_id _ _ _ Hfind)).
  reflexivity.
Qed.

(** C1. For every existing expense and every edit request of its owner,
    EditExpense is all-or-nothing on the stored record: after the request
    the table either is exactly as before, or has the row rewritten with
    all four of the submitted description, amount, date and category.  An
    amount or a date that does not parse leaves the table as it was, and a
    POST whose four fields are valid does rewrite the row. *)
Theorem edit_expense_atomic (w : world) (cu : User.t) (k : Z) (req : request)
    (e : Expense.t) (resp : response) (w' : world) :
  logged_in w cu ->
  find_expense (expense_table (db w)) k = Some e ->
  Expense.user_id e = User.id cu ->
  handle (App.edit_expense k req) w = (resp, w') ->
  (db w' = db w
   \/ exists d sa a sd dt c,
        multidict_get (form req) "description" = Some d
        /\ multidict_get (form req) "amount" = Some sa /\ Py.float_new sa = Ok a
        /\ multidict_get (form req) "date" = Some sd /\ Py.strptime sd = Ok dt
        /\ multidict_get (form req) "category" = Some c
        /\ db w' = mkdb (user_table (db w))
                     (replace_row k (Expense.mk (Expense.id e) d a dt c (Expense.user_id e))
                        (expense_table (db w))))
  /\ (forall sa err, multidict_get (form req) "amount" = Some sa ->
        Py.float_new sa = Raise err -> db w' = db w)
  /\ (forall sd err, multidict_get (form req) "date" = Some sd ->
        Py.strptime sd = Raise err -> db w' = db w)
  /\ (forall d sa a sd dt c,
        method req = POST ->
        multidict_get (form req) "description" = Some d ->
        multidict_get (form req) "amount" = Some sa -> parses_number sa a ->
        multidict_get (form req) "date" = Some sd -> Py.strptime sd = Ok dt ->
        multidict_get (form req) "category" = Some c ->
        db w' = mkdb (user_table (db w))
                  (replace_row k (Expense.mk (Expense.id e) d a dt c (Expense.user_id e))
                     (expense_table (db w)))).
Proof.
  intros Hin Hfind Hown Hrun.
  pose proof (edit_expense_all_or_nothing w cu k req e resp w' Hin Hfind Hown Hrun) as Hall.
  split; [exact Hall|]. split; [|split].
  - intros sa err Ha Hfa.
    destruct Hall as [Hsame|(d & sa' & a & sd & dt & c & Hd & Ha' & Hfa' & _)]; [exact Hsame|].
    congruence.
  - intros sd err Hsd Hdt.
    destruct Hall as [Hsame|(d & sa & a & sd' & dt & c & Hd & Ha & Hfa & Hsd' & Hdt' & _)];
      [exact Hsame|].
    congruence.
  - intros d sa a sd dt c Hm Hd Ha [Hfa Hnan] Hsd Hdt Hc.
    rewrite (edit_expense_post w cu k req e d sa sd c Hin Hfind Hown Hm Hd Ha Hsd Hc) in Hrun.
    rewrite Hfa, Hdt, Hnan in Hrun. cbv zeta in Hrun.
    injection Hrun as _ <-. reflexivity.
Qed.

(** Where the half-done update lives: when the date of the edit does not
    parse, the object of the session already has the new description,
    amount and category with the old date, and the table has the old row. *)
Lemma edit_expense_session_half_updated :
  identity_map
    (csess (snd (App.edit_expense 1
                   (Demo.post (Demo.expense_form "Tea" "2.25" "2024-02-30" "Drinks"))
                   (start Demo.w_coffee))))
    !! 1
  = Some (Expense.mk 1 "Tea" 2.25 (Py.mkdate 2024 1 15) "Drinks" 1)
  /\ expense_table
       (cdb (snd (App.edit_expense 1
                    (Demo.post (Demo.expense_form "Tea" "2.25" "2024-02-30" "Drinks"))
                    (start Demo.w_coffee))))
     = [Expense.mk 1 "Coffee" 3.5 (Py.mkdate 2024 1 15) "Food" 1].
Proof. split; vm_compute; reflexivity. Qed.

(** C1 at work: Alice's coffee, edited with a date that is no date, stays as
    it was although the description was already assigned. *)
Lemma edit_expense_atomic_witness :
  logged_in Demo.w_coffee Demo.alice
  /\ Py.strptime "2024-02-30" = Raise (ValueError "day is out of range for month")
  /\ db (Demo.next (App.edit_expense 1 (Demo.post (Demo.expense_form "Tea" "2.25" "2024-02-30" "Drinks")))
          Demo.w_coffee)
     = db Demo.w_coffee.
Proof.
  split; [vm_compute; reflexivity|]. split; [vm_compute; reflexivity|].
  refine (proj1 (proj2 (proj2
            (edit_expense_atomic Demo.w_coffee Demo.alice 1
               (Demo.post (Demo.expense_form "Tea" "2.25" "2024-02-30" "Drinks"))
               (Expense.mk 1 "Coffee" 3.5 (Py.mkdate 2024 1 15) "Food" 1)
               _ _ _ _ _ (surjective_pairing _))))
            "2024-02-30" (ValueError "day is out of range for month") _ _);
    vm_compute; reflexivity.
Defined.

(** C2. For every expense and every caller who is not its owner, EditExpense
    and DeleteExpense both answer with the authorization refusal and leave
    the whole world but the flashed refusal unchanged, whatever the
    request holds: the ownership check comes before any mutation. *)
Theorem non_owner_forbidden (w : world) (cu : User.t) (k : Z) (req : request) (e : Expense.t) :
  logged_in w cu ->
  find_expense (expense_table (db w)) k = Some e ->
  Expense.user_id e <> User.id cu ->
  handle (App.edit_expense k req) w =
    (Redirect (url_for "expenses" []),
     with_flashes w [(Text "You are not authorized to edit this expense.", "danger")])
  /\ handle (App.delete_expense k req) w =
    (Redirect (url_for "expenses" []),
     with_flashes w [(Text "You are not authorized to delete this expense.", "danger")])
  /\ db (snd (handle (App.edit_expense k req) w)) = db w
  /\ db (snd (handle (App.delete_expense k req) w)) = db w.
Proof.
  intros Hin Hfind Hown.
  rewrite (edit_expense_not_owner w cu k req e Hin Hfind Hown).
  rewrite (delete_expense_not_owner w cu k req e Hin Hfind Hown).
  repeat split; reflexivity.
Qed.

(** C2 at work: Bob posts an edit of Alice's coffee, and asks to delete it. *)
Lemma non_owner_forbidden_witness :
  logged_in (Demo.as_user 2 Demo.w_coffee) Demo.bob
  /\ db (Demo.next (App.edit_expense 1 (Demo.post (Demo.expense_form "Mine" "0" "2020-01-01" "Bob")))
          (Demo.as_user 2 Demo.w_coffee))
     = db Demo.w_coffee
  /\ db (Demo.next (App.delete_expense 1 (Demo.get [])) (Demo.as_user 2 Demo.w_coffee))
     = db Demo.w_coffee.
Proof.
  split; [vm_compute; reflexivity|].
  split.
  - apply (non_owner_forbidden (Demo.as_user 2 Demo.w_coffee) Demo.bob 1
             (Demo.post (Demo.expense_form "Mine" "0" "2020-01-01" "Bob"))
             (Expense.mk 1 "Coffee" 3.5 (Py.mkdate 2024 1 15) "Food" 1));
      [vm_compute; reflexivity | vm_compute; reflexivity | vm_compute; discriminate].
  - apply (non_owner_forbidden (Demo.as_user 2 Demo.w_coffee) Demo.bob 1 (Demo.get [])
             (Expense.mk 1 "Coffee" 3.5 (Py.mkdate 2024 1 15) "Food" 1));
      [vm_compute; reflexivity | vm_compute; reflexivity | vm_compute; discriminate].
Defined.

(** ** ListExpenses *)

Global Instance date_desc_total : Total date_desc.
Proof.
  intros a b. unfold date_desc, Py.date_le.
  destruct (Expense.date a) as [y1 m1 d1], (Expense.date b) as [y2 m2 d2]. simpl. lia.
Qed.

Global Instance date_desc_trans : Transitive date_desc.
Proof.
  intros a b c. unfold date_desc, Py.date_le.
  destruct (Expense.date a) as [y1 m1 d1], (Expense.date b) as [y2 m2 d2],
    (Expense.date c) as [y3 m3 d3]. simpl. lia.
Qed.

Lemma with_flashes_nil (w : world) : with_flashes w [] = w.
Proof. destruct w as [d ck fl]. unfold with_flashes. simpl. rewrite app_nil_r. reflexivity. Qed.

Lemma truthy_false_parsed (o : option string) : truthy o = false -> parsed_bound o = None.
Proof. destruct o as [[|c s]|]; [reflexivity|discriminate|reflexivity]. Qed.

(** One bound of the listing: the filter it adds and the warning it flashes. *)
Lemma bound_step (o : option string) (q : query) (mk : Py.date -> Expense.t -> bool)
    (warning : string) (c : ctx) :
  (if truthy o then
     try_except
       (d ← lift (Py.strptime (default EmptyString o)); mret (qfilter q (mk d)))
       (fun e => flash (Text warning) "danger";; mret q)
   else mret q) c
  = (Ok (match parsed_bound o with Some d => qfilter q (mk d) | None => q end),
     mkctx (cdb c) (csess c) (ccookie c)
       (cflashes c ++ if truthy o && unparsable o then [(Text warning, "danger")] else [])).
Proof.
  destruct c as [d s ck fl].
  destruct (truthy o) eqn:Ht.
  - destruct o as [s0|]; [|discriminate]. cbn [andb unparsable parsed_bound].
    change (default EmptyString (Some s0)) with s0.
    unfold try_except. rewrite bind_run. unfold lift.
    destruct (Py.strptime s0); cbn; rewrite ?app_nil_r; reflexivity.
  - rewrite (truthy_false_parsed o Ht). cbn. rewrite app_nil_r. reflexivity.
Qed.

(** The whole of /expenses for a logged-in caller. *)
Lemma expenses_run (w : world) (cu : User.t) (req : request) :
  logged_in w cu ->
  handle (App.expenses req) w =
  (Render "expenses.html"
     (CtxExpenses
        (order_by date_desc
           (List.filter
              (selects (User.id cu) (parsed_bound (args_get req "start_date"))
                 (parsed_bound (args_get req "end_date")))
              (expense_table (db w))))),
   with_flashes w (bound_warnings (args_get req "start_date") (args_get req "end_date"))).
Proof.
  intros Hin. unfold App.expenses. rewrite (handle_login_required _ w cu Hin).
  unfold handle. rewrite bind_run, bound_step. rewrite bind_run, bound_step.
  unfold order_by_date_desc_all, all. rewrite !bind_run.
  cbn [get_db cdb csess ccookie cflashes mret M_ret].
  unfold with_flashes, bound_warnings, start_warning, end_warning. rewrite <- app_assoc.
  do 4 f_equal. apply filter_ext. intros e. unfold selects, qfilter, filter_by_user_id.
  destruct (parsed_bound (args_get req "start_date")),
    (parsed_bound (args_get req "end_date")); unfold on_or_after, on_or_before;
    rewrite ?andb_true_r; reflexivity.
Qed.

Lemma selects_spec (uid : Z) (lo hi : option Py.date) (e : Expense.t) :
  selects uid lo hi e = true <->
  Expense.user_id e = uid
  /\ (forall d, lo = Some d -> Py.date_le d (Expense.date e))
  /\ (forall d, hi = Some d -> Py.date_le (Expense.date e) d).
Proof.
  unfold selects. rewrite !andb_true_iff, Z.eqb_eq.
  destruct lo as [d1|], hi as [d2|]; rewrite ?bool_decide_eq_true; split.
  all: try (intros [[H1 H2] H3]; repeat split; try assumption; intros d [= <-]; assumption).
  all: try (intros [[H1 H2] H3]; repeat split; try assumption; intros d [=]).
  all: intros (H1 & H2 & H3); repeat split; auto.
Qed.

(** C3 as stated fails where a bound is the empty text: it is no date, and
    the listing drops it, but no warning is flashed. *)
Lemma list_expenses_empty_start_no_warning :
  args_get Demo.empty_start "start_date" = Some ""
  /\ Py.strptime "" = Raise (ValueError "time data does not match format")
  /\ flashes (snd (handle (App.expenses Demo.empty_start) Demo.w_coffee))
     = flashes Demo.w_coffee.
Proof. repeat split; vm_compute; reflexivity. Qed.

(** C3, amended.  For every owner and every pair of optional bound texts,
    ListExpenses renders exactly the owner's expenses dated on or after the
    start bound and on or before the end bound, each bound counting only
    when it is given and parses as a date, sorted by date descending; a
    bound that is given, non-empty and not a date is dropped with a
    flashed warning, an empty one is dropped silently, and the listing is
    rendered in every case. *)
Theorem list_expenses_filtered_sorted (w : world) (cu : User.t) (req : request) :
  logged_in w cu ->
  exists rows,
    handle (App.expenses req) w =
      (Render "expenses.html" (CtxExpenses rows),
       with_flashes w (bound_warnings (args_get req "start_date") (args_get req "end_date")))
    /\ rows ≡ₚ List.filter
                 (selects (User.id cu) (parsed_bound (args_get req "start_date"))
                    (parsed_bound (args_get req "end_date")))
                 (expense_table (db w))
    /\ StronglySorted date_desc rows
    /\ (forall e, e ∈ rows <->
          e ∈ expense_table (db w)
          /\ Expense.user_id e = User.id cu
          /\ (forall d, parsed_bound (args_get req "start_date") = Some d ->
                Py.date_le d (Expense.date e))
          /\ (forall d, parsed_bound (args_get req "end_date") = Some d ->
                Py.date_le (Expense.date e) d)).
Proof.
  intros Hin. eexists. split; [apply (expenses_run w cu req Hin)|].
  split; [apply order_by_Permutation|].
  split; [apply StronglySorted_order_by; apply _|].
  intros e. rewrite order_by_Permutation, list_elem_of_In, filter_In, selects_spec.
  rewrite list_elem_of_In. reflexivity.
Qed.

(** C3 at work: Alice's two March expenses, listed from 2024-01-01 up to a
    bound that is no date. *)
Lemma list_expenses_filtered_sorted_witness :
  logged_in Demo.w_march Demo.alice
  /\ exists rows,
       handle (App.expenses (Demo.get [("start_date", "2024-01-01"); ("end_date", "soon")]))
         Demo.w_march
       = (Render "expenses.html" (CtxExpenses rows), with_flashes Demo.w_march [end_warning])
       /\ rows ≡ₚ [Expense.mk 2 "Rent" 20 (Py.mkdate 2024 3 10) "Home" 1].
Proof.
  split; [vm_compute; reflexivity|].
  destruct (list_expenses_filtered_sorted Demo.w_march Demo.alice
              (Demo.get [("start_date", "2024-01-01"); ("end_date", "soon")]))
    as (rows & Hrun & Hperm & _); [vm_compute; reflexivity|].
  exists rows. split; [exact Hrun|exact Hperm].
Defined.

Lemma bad_bound_spec (o : option string) :
  truthy o && unparsable o = true <->
  exists c s, o = Some (String c s) /\ exists err, Py.strptime (String c s) = Raise err.
Proof.
  destruct o as [[|c s]|]; cbn [truthy unparsable andb].
  - split; [discriminate|]. intros (c & s & [=] & _).
  - destruct (Py.strptime (String c s)) as [d|err] eqn:Hp; split.
    + discriminate.
    + intros (c0 & s0 & [= <- <-] & err & Herr). congruence.
    + intros _. exists c, s. split; [reflexivity|]. exists err. exact Hp.
    + reflexivity.
  - split; [discriminate|]. intros (c & s & [=] & _).
Qed.

Lemma start_warning_in (b1 b2 : bool) :
  start_warning ∈ (if b1 then [start_warning] else []) ++ (if b2 then [end_warning] else [])
  <-> b1 = true.
Proof.
  destruct b1, b2; cbn [app]; rewrite ?elem_of_cons, ?elem_of_nil; split; try done.
  - intros _. left. reflexivity.
  - intros _. left. reflexivity.
  - intros [H|H]; [discriminate H|contradiction].
Qed.

Lemma end_warning_in (b1 b2 : bool) :
  end_warning ∈ (if b1 then [start_warning] else []) ++ (if b2 then [end_warning] else [])
  <-> b2 = true.
Proof.
  destruct b1, b2; cbn [app]; rewrite ?elem_of_cons, ?elem_of_nil; split; try done.
  - intros _. right. left. reflexivity.
  - intros [H|H]; [discriminate H|contradiction].
  - intros _. left. reflexivity.
Qed.

(** C10. For every world, a listing asked with an empty [start_date] (or
    [end_date]) is the listing asked without that parameter: same page,
    same world after, so no filter for that bound and no warning.  The
    start (end) warning is flashed exactly when the start (end) bound is a
    non-empty text that does not parse as a date. *)
Theorem empty_bound_as_absent (w : world) (req req' : request) :
  (args_get req "start_date" = Some "" -> args_get req' "start_date" = None ->
   args_get req "end_date" = args_get req' "end_date" ->
   handle (App.expenses req) w = handle (App.expenses req') w)
  /\ (args_get req "end_date" = Some "" -> args_get req' "end_date" = None ->
      args_get req "start_date" = args_get req' "start_date" ->
      handle (App.expenses req) w = handle (App.expenses req') w)
  /\ (forall cu, logged_in w cu ->
        flashes (snd (handle (App.expenses req) w))
        = flashes w ++ bound_warnings (args_get req "start_date") (args_get req "end_date"))
  /\ (start_warning ∈ bound_warnings (args_get req "start_date") (args_get req "end_date")
      <-> exists c s, args_get req "start_date" = Some (String c s)
                      /\ exists err, Py.strptime (String c s) = Raise err)
  /\ (end_warning ∈ bound_warnings (args_get req "start_date") (args_get req "end_date")
      <-> exists c s, args_get req "end_date" = Some (String c s)
                      /\ exists err, Py.strptime (String c s) = Raise err).
Proof.
  split; [|split; [|split; [|split]]].
  - intros H1 H2 H3. unfold App.expenses. rewrite H1, H2, H3. reflexivity.
  - intros H1 H2 H3. unfold App.expenses. rewrite H1, H2, H3. reflexivity.
  - intros cu Hin. rewrite (expenses_run w cu req Hin). reflexivity.
  - unfold bound_warnings. rewrite start_warning_in. apply bad_bound_spec.
  - unfold bound_warnings. rewrite end_warning_in. apply bad_bound_spec.
Qed.

(** C10 at work: Alice's listing with [start_date=] in the query string. *)
Lemma empty_bound_as_absent_witness :
  handle (App.expenses Demo.empty_start) Demo.w_march
  = handle (App.expenses (Demo.get [])) Demo.w_march.
Proof.
  apply (proj1 (empty_bound_as_absent Demo.w_march Demo.empty_start (Demo.get [])));
    reflexivity.
Defined.

(** ** AddExpense *)

(** The whole of a logged-in caller's POST to /add. *)
Lemma add_expense_post (w : world) (cu : User.t) (req : request) (d sa sd c : string) :
  logged_in w cu ->
  method req = POST ->
  multidict_get (form req) "description" = Some d ->
  multidict_get (form req) "amount" = Some sa ->
  multidict_get (form req) "date" = Some sd ->
  multidict_get (form req) "category" = Some c ->
  handle (App.add_expense req) w =
  let back := Redirect (url_for "add_expense" []) in
  match Py.strptime sd with
  | Raise err => (back, with_flashes w [(TextExn "Error adding expense: " err, "danger")])
  | Ok dt =>
      match Py.float_new sa with
      | Raise err => (back, with_flashes w [(TextExn "Error adding expense: " err, "danger")])
      | Ok a =>
          if is_nan a then
            (back, with_flashes w
                     [(TextExn "Error adding expense: "
                         (IntegrityError "NOT NULL constraint failed: expense.amount"), "danger")])
          else
            (Redirect (url_for "expenses" []),
             with_expenses w
               (expense_table (db w)
                  ++ [Expense.mk (next_id (expense_table (db w))) d a dt c (User.id cu)])
               [(Text "Expense added successfully!", "success")])
      end
  end.
Proof.
  intros Hin Hm Hd Ha Hsd Hc.
  unfold App.add_expense. rewrite (handle_login_required _ w cu Hin).
  unfold handle. rewrite Hm.
  run_form Hd. run_form Ha. run_form Hsd. run_form Hc.
  unfold try_except. cbv zeta.
  destruct (Py.strptime sd) as [dt|err]; run_lift; [|reflexivity].
  destruct (Py.float_new sa) as [a|err]; run_lift; [|reflexivity].
  rewrite bind_run. unfold session_add. rewrite bind_run.
  cbn [get_session put_session csess cdb ccookie cflashes empty_session identity_map
         pending_new pending_delete app].
  rewrite bind_run, commit_new. unfold not_null. cbn [Expense.amount].
  destruct (is_nan a); reflexivity.
Qed.

Lemma next_id_above (tbl : list Expense.t) (e : Expense.t) :
  In e tbl -> Expense.id e < next_id tbl.
Proof.
  unfold next_id. induction tbl as [|row tbl IH]; simpl; [contradiction|].
  intros [<-|Hin]; [lia|]. specialize (IH Hin). lia.
Qed.

(** No row of the table has the key the next row will get. *)
Lemma next_id_fresh (tbl : list Expense.t) :
  List.filter (fun e => Expense.id e =? next_id tbl) tbl = [].
Proof.
  pose proof (next_id_above tbl) as Habove. revert Habove. generalize (next_id tbl) as n.
  induction tbl as [|row tbl IH]; intros n Habove; simpl; [reflexivity|].
  destruct (Z.eqb_spec (Expense.id row) n) as [Heq|_].
  - specialize (Habove row (or_introl eq_refl)). lia.
  - apply IH. intros e He. apply Habove. right. exact He.
Qed.

Lemma filter_Permutation_bool {A} (f : A -> bool) (l l' : list A) :
  l ≡ₚ l' -> List.filter f l ≡ₚ List.filter f l'.
Proof.
  induction 1 as [|x l l' _ IH|x y l|l l' l'' _ IH1 _ IH2]; simpl.
  - reflexivity.
  - destruct (f x); [constructor|]; exact IH.
  - destruct (f x), (f y); try reflexivity. apply perm_swap.
  - etransitivity; eassumption.
Qed.

Lemma logged_in_with_expenses (w : world) (cu : User.t) (tbl : list Expense.t)
    (msgs : list (message * string)) :
  logged_in w cu -> logged_in (with_expenses w tbl msgs) cu.
Proof. unfold logged_in, with_expenses, load_user. simpl. trivial. Qed.

Lemma filter_filter_nil {A} (f g : A -> bool) (l : list A) :
  List.filter f l = [] -> List.filter f (List.filter g l) = [].
Proof.
  induction l as [|x l IH]; simpl; [reflexivity|].
  destruct (f x) eqn:Hf; [discriminate|]. intros H.
  destruct (g x); simpl; rewrite ?Hf; auto.
Qed.

(** The unfiltered listing of the world after an accepted AddExpense holds
    the new row once. *)
Lemma listing_has_new_once (w : world) (cu : User.t) (new : Expense.t) (req' : request)
    (msgs : list (message * string)) :
  logged_in w cu ->
  Expense.id new = next_id (expense_table (db w)) ->
  Expense.user_id new = User.id cu ->
  args_get req' "start_date" = None ->
  args_get req' "end_date" = None ->
  exists rows,
    handle (App.expenses req') (with_expenses w (expense_table (db w) ++ [new]) msgs)
    = (Render "expenses.html" (CtxExpenses rows),
       with_expenses w (expense_table (db w) ++ [new]) msgs)
    /\ List.filter (fun e => Expense.id e =? Expense.id new) rows = [new].
Proof.
  intros Hin Hid Hown Hs He.
  pose proof (logged_in_with_expenses w cu (expense_table (db w) ++ [new]) msgs Hin) as Hin'.
  rewrite (expenses_run _ cu req' Hin'), Hs, He. cbn [parsed_bound bound_warnings truthy andb app].
  rewrite with_flashes_nil. eexists. split; [reflexivity|].
  apply Permutation_singleton_r.
  rewrite (filter_Permutation_bool _ _ _ (order_by_Permutation date_desc _)).
  cbn [with_expenses db expense_table]. rewrite !List.filter_app.
  rewrite filter_filter_nil by (rewrite Hid; apply next_id_fresh).
  cbn [List.filter app]. unfold selects. rewrite Hown, !Z.eqb_refl.
  cbn [andb List.filter]. rewrite Z.eqb_refl. reflexivity.
Qed.

(** C6. AddExpense(owner, description, amount, date, category): when the
    amount text is not parseable as a number (it does not convert, or it
    converts to NaN, which the NOT NULL amount column refuses) or the date
    text is not parseable as a calendar date, the request is answered with
    the flashed error and the world is otherwise unchanged (no row
    inserted); otherwise exactly one row is appended, with the submitted
    fields, a fresh key and the caller as owner, and the caller's next
    unfiltered listing holds exactly one row with that key: the new one. *)
Theorem add_expense_validates (w : world) (cu : User.t) (req : request) (d sa sd c : string) :
  logged_in w cu ->
  method req = POST ->
  multidict_get (form req) "description" = Some d ->
  multidict_get (form req) "amount" = Some sa ->
  multidict_get (form req) "date" = Some sd ->
  multidict_get (form req) "category" = Some c ->
  ((forall a, ~ parses_number sa a) \/ (forall dt, Py.strptime sd <> Ok dt) ->
   exists err,
     handle (App.add_expense req) w =
     (Redirect (url_for "add_expense" []),
      with_flashes w [(TextExn "Error adding expense: " err, "danger")]))
  /\ (forall a dt, parses_number sa a -> Py.strptime sd = Ok dt ->
      handle (App.add_expense req) w =
        (Redirect (url_for "expenses" []),
         with_expenses w
           (expense_table (db w)
              ++ [Expense.mk (next_id (expense_table (db w))) d a dt c (User.id cu)])
           [(Text "Expense added successfully!", "success")])
      /\ find_expense (expense_table (db w)) (next_id (expense_table (db w))) = None
      /\ forall req',
           args_get req' "start_date" = None -> args_get req' "end_date" = None ->
           exists rows,
             fst (handle (App.expenses req') (snd (handle (App.add_expense req) w)))
             = Render "expenses.html" (CtxExpenses rows)
             /\ List.filter (fun e => Expense.id e =? next_id (expense_table (db w))) rows
                = [Expense.mk (next_id (expense_table (db w))) d a dt c (User.id cu)]).
Proof.
  intros Hin Hm Hd Ha Hsd Hc.
  pose proof (add_expense_post w cu req d sa sd c Hin Hm Hd Ha Hsd Hc) as Hrun.
  cbv zeta in Hrun. split.
  - intros Hbad. rewrite Hrun.
    destruct (Py.strptime sd) as [dt|err] eqn:Hdt; [|eauto].
    destruct (Py.float_new sa) as [a|err] eqn:Hfa; [|eauto].
    destruct (is_nan a) eqn:Hnan; [eauto|].
    destruct Hbad as [Hbad|Hbad].
    + exfalso. apply (Hbad a). split; [exact Hfa|exact Hnan].
    + exfalso. apply (Hbad dt). reflexivity.
  - intros a dt [Hfa Hnan] Hdt. rewrite Hdt, Hfa, Hnan in Hrun.
    split; [exact Hrun|]. split.
    + unfold find_expense.
      destruct (List.find _ (expense_table (db w))) as [e|] eqn:Hf; [|reflexivity].
      apply find_some in Hf as [He Heq]. apply next_id_above in He. lia.
    + intros req' Hs He. rewrite Hrun. cbn [snd].
      destruct (listing_has_new_once w cu
                  (Expense.mk (next_id (expense_table (db w))) d a dt c (User.id cu)) req'
                  [(Text "Expense added successfully!", "success")] Hin eq_refl eq_refl Hs He)
        as (rows & Hlist & Hone).
      exists rows. rewrite Hlist. split; [reflexivity|exact Hone].
Qed.

(** C6 at work: Alice adds the coffee to an empty table. *)
Lemma add_expense_validates_witness :
  logged_in Demo.w0 Demo.alice
  /\ parses_number "3.50" 3.5
  /\ Py.strptime "2024-01-15" = Ok (Py.mkdate 2024 1 15)
  /\ handle (App.add_expense Demo.coffee) Demo.w0 =
     (Redirect (url_for "expenses" []),
      with_expenses Demo.w0
        (expense_table (db Demo.w0)
           ++ [Expense.mk (next_id (expense_table (db Demo.w0))) "Coffee" 3.5
                 (Py.mkdate 2024 1 15) "Food" (User.id Demo.alice)])
        [(Text "Expense added successfully!", "success")]).
Proof.
  split; [vm_compute; reflexivity|].
  split; [split; vm_compute; reflexivity|].
  split; [vm_compute; reflexivity|].
  refine (proj1 (proj2 (add_expense_validates Demo.w0 Demo.alice Demo.coffee
                          "Coffee" "3.50" "2024-01-15" "Food" _ _ _ _ _ _)
                   3.5%float (Py.mkdate 2024 1 15) _ _));
    try split; vm_compute; reflexivity.
Defined.

(** ** The description of a stored expense *)

Lemma find_expense_replace_row (tbl : list Expense.t) (k : Z) (e0 e' : Expense.t) :
  find_expense tbl k = Some e0 -> Expense.id e' = k ->
  find_expense (replace_row k e' tbl) k = Some e'.
Proof.
  unfold find_expense, replace_row. intros Hfind Hid.
  induction tbl as [|row tbl IH]; simpl in *; [discriminate|].
  destruct (Z.eqb_spec (Expense.id row) k) as [Heq|Hne].
  - rewrite Hid, Z.eqb_refl. reflexivity.
  - destruct (Z.eqb_spec (Expense.id row) k); [contradiction|]. apply IH. exact Hfind.
Qed.

(** C9 as stated fails: AddExpense with an empty description stores a row
    whose description is the empty string. *)
Lemma add_expense_empty_description :
  multidict_get (form Demo.nameless) "description" = Some ""
  /\ expense_table (db (snd (handle (App.add_expense Demo.nameless) Demo.w0)))
     = [Expense.mk 1 "" 1 (Py.mkdate 2024 1 1) "Food" 1].
Proof. split; vm_compute; reflexivity. Qed.

(** C9, amended.  Every expense AddExpense creates and every expense
    EditExpense rewrites carries the submitted description exactly as it
    was submitted, whatever text it is: the description is a string, and
    nothing requires it to be non-empty. *)
Theorem description_stored_as_submitted (w : world) (cu : User.t) (req : request)
    (d sa sd c : string) (a : float) (dt : Py.date) :
  logged_in w cu ->
  method req = POST ->
  multidict_get (form req) "description" = Some d ->
  multidict_get (form req) "amount" = Some sa ->
  multidict_get (form req) "date" = Some sd ->
  multidict_get (form req) "category" = Some c ->
  parses_number sa a ->
  Py.strptime sd = Ok dt ->
  (exists e,
     expense_table (db (snd (handle (App.add_expense req) w))) = expense_table (db w) ++ [e]
     /\ Expense.description e = d)
  /\ (forall k e0,
        find_expense (expense_table (db w)) k = Some e0 ->
        Expense.user_id e0 = User.id cu ->
        exists e,
          find_expense (expense_table (db (snd (handle (App.edit_expense k req) w)))) k = Some e
          /\ Expense.description e = d).
Proof.
  intros Hin Hm Hd Ha Hsd Hc [Hfa Hnan] Hdt. split.
  - rewrite (add_expense_post w cu req d sa sd c Hin Hm Hd Ha Hsd Hc), Hdt, Hfa, Hnan.
    cbv zeta. eexists. split; reflexivity.
  - intros k e0 Hfind Hown.
    rewrite (edit_expense_post w cu k req e0 d sa sd c Hin Hfind Hown Hm Hd Ha Hsd Hc).
    rewrite Hfa, Hdt, Hnan. cbv zeta. cbn [snd with_expenses db expense_table].
    eexists. split.
    + apply (find_expense_replace_row _ k e0); [exact Hfind|].
      cbn [Expense.id]. apply (find_expense_id _ _ _ Hfind).
    + reflexivity.
Qed.

(** C9 at work: the empty description is stored like any other. *)
Lemma description_stored_as_submitted_witness :
  logged_in Demo.w0 Demo.alice
  /\ exists e,
       expense_table (db (snd (handle (App.add_expense Demo.nameless) Demo.w0)))
       = expense_table (db Demo.w0) ++ [e]
       /\ Expense.description e = "".
Proof.
  split; [vm_compute; reflexivity|].
  refine (proj1 (description_stored_as_submitted Demo.w0 Demo.alice Demo.nameless
                   "" "1" "2024-01-01" "Food" 1%float (Py.mkdate 2024 1 1) _ _ _ _ _ _ _ _));
    try split; vm_compute; reflexivity.
Defined.

(** ** Stored dates are calendar dates *)

Lemma date_new_valid (y m dd : Z) (d : Py.date) : Py.date_new y m dd = Ok d -> valid_date d.
Proof.
  unfold Py.date_new, valid_date.
  destruct ((1 <=? y) && (y <=? 9999)) eqn:Hy; cbn [negb]; [|discriminate].
  destruct ((1 <=? m) && (m <=? 12)) eqn:Hm; cbn [negb]; [|discriminate].
  destruct ((1 <=? dd) && (dd <=? Py.days_in_month y m)) eqn:Hd; cbn [negb]; [|discriminate].
  intros [= <-]. cbn [Py.year Py.month Py.day].
  apply andb_true_iff in Hy as [Hy1 Hy2], Hm as [Hm1 Hm2], Hd as [Hd1 Hd2]. lia.
Qed.

Lemma strptime_valid (s : string) (d : Py.date) : Py.strptime s = Ok d -> valid_date d.
Proof.
  unfold Py.strptime.
  destruct (Py.format_regex_matches s) as [|[[[Y m] dd] rest] ms]; [discriminate|].
  destruct rest; [|discriminate]. apply date_new_valid.
Qed.

Lemma dates_valid_replace_row (k : Z) (e' : Expense.t) (tbl : list Expense.t) :
  valid_date (Expense.date e') -> dates_valid tbl -> dates_valid (replace_row k e' tbl).
Proof.
  unfold dates_valid, replace_row. intros He Hall. apply List.Forall_map.
  eapply List.Forall_impl; [|exact Hall]. intros row Hrow. cbv beta.
  destruct (Expense.id row =? k); assumption.
Qed.

(** AddExpense, EditExpense and DeleteExpense keep the dates of the table
    calendar dates. *)
Lemma add_expense_dates_valid (w : world) (cu : User.t) (req : request) :
  logged_in w cu ->
  dates_valid (expense_table (db w)) ->
  dates_valid (expense_table (db (snd (handle (App.add_expense req) w)))).
Proof.
  intros Hin Hvalid.
  unfold App.add_expense. rewrite (handle_login_required _ w cu Hin). unfold handle.
  destruct (method req); [exact Hvalid|].
  destruct (multidict_get (form req) "description") as [d|] eqn:Hd.
  2:{ rewrite bind_run. unfold form_get at 1. rewrite Hd. exact Hvalid. }
  run_form Hd.
  destruct (multidict_get (form req) "amount") as [sa|] eqn:Ha.
  2:{ rewrite bind_run. unfold form_get at 1. rewrite Ha. exact Hvalid. }
  run_form Ha.
  destruct (multidict_get (form req) "date") as [sd|] eqn:Hsd.
  2:{ rewrite bind_run. unfold form_get at 1. rewrite Hsd. exact Hvalid. }
  run_form Hsd.
  destruct (multidict_get (form req) "category") as [c|] eqn:Hc.
  2:{ rewrite bind_run. unfold form_get at 1. rewrite Hc. exact Hvalid. }
  run_form Hc. unfold try_except.
  destruct (Py.strptime sd) as [dt|err] eqn:Hdt; run_lift; [|exact Hvalid].
  destruct (Py.float_new sa) as [a|err]; run_lift; [|exact Hvalid].
  rewrite bind_run. unfold session_add. rewrite bind_run.
  cbn [get_session put_session csess cdb ccookie cflashes empty_session identity_map
         pending_new pending_delete app].
  rewrite bind_run, commit_new. destruct (not_null _); [|exact Hvalid].
  cbn [snd db cdb expense_table flash bind_run]. unfold dates_valid.
  apply Forall_app. split; [exact Hvalid|]. constructor; [|constructor].
  cbn [Expense.set_id Expense.date]. apply (strptime_valid sd dt Hdt).
Qed.

Lemma edit_expense_dates_valid (w : world) (cu : User.t) (k : Z) (req : request)
    (e : Expense.t) :
  logged_in w cu ->
  find_expense (expense_table (db w)) k = Some e ->
  Expense.user_id e = User.id cu ->
  dates_valid (expense_table (db w)) ->
  dates_valid (expense_table (db (snd (handle (App.edit_expense k req) w)))).
Proof.
  intros Hin Hfind Hown Hvalid.
  destruct (edit_expense_all_or_nothing w cu k req e _ _ Hin Hfind Hown
              (surjective_pairing _))
    as [Hsame|(d & sa & a & sd & dt & c & _ & _ & _ & _ & Hdt & _ & Hnew)].
  - rewrite Hsame. exact Hvalid.
  - rewrite Hnew. cbn [expense_table]. apply dates_valid_replace_row; [|exact Hvalid].
    cbn [Expense.date]. apply (strptime_valid sd dt Hdt).
Qed.

Lemma delete_expense_dates_valid (w : world) (cu : User.t) (k : Z) (req : request)
    (e : Expense.t) :
  logged_in w cu ->
  find_expense (expense_table (db w)) k = Some e ->
  Expense.user_id e = User.id cu ->
  dates_valid (expense_table (db w)) ->
  dates_valid (expense_table (db (snd (handle (App.delete_expense k req) w)))).
Proof.
  intros Hin Hfind Hown Hvalid. rewrite (delete_expense_owner w cu k req e Hin Hfind Hown).
  cbn [snd with_expenses db expense_table]. unfold dates_valid.
  apply List.Forall_forall. intros row Hrow. apply filter_In in Hrow as [Hrow _].
  exact (proj1 (List.Forall_forall _ _) Hvalid row Hrow).
Qed.

(** ** The dashboard *)

Section Grouping.
Context {K : Type} `{EqDecision K}.
Variable key : Expense.t -> K.

Lemma fsum_snoc (l : list float) (a : float) :
  App.fsum (l ++ [a]) = PrimFloat.add (App.fsum l) a.
Proof. unfold App.fsum. rewrite foldl_snoc. reflexivity. Qed.

Lemma group_rows_snoc_eq (rows : list Expense.t) (r : Expense.t) :
  group_rows key (key r) (rows ++ [r]) = group_rows key (key r) rows ++ [r].
Proof.
  unfold group_rows. rewrite List.filter_app. cbn [List.filter].
  rewrite bool_decide_eq_true_2 by reflexivity. reflexivity.
Qed.

Lemma group_rows_snoc_ne (rows : list Expense.t) (r : Expense.t) (k : K) :
  k <> key r -> group_rows key k (rows ++ [r]) = group_rows key k rows.
Proof.
  intros Hne. unfold group_rows. rewrite List.filter_app. cbn [List.filter].
  rewrite bool_decide_eq_false_2 by congruence. apply app_nil_r.
Qed.

Lemma elem_of_add_key (ks : list K) (k k' : K) : k' ∈ add_key ks k <-> k' ∈ ks \/ k' = k.
Proof.
  unfold add_key. case_decide as Hk.
  - split; [auto|]. intros [Hin | ->]; assumption.
  - rewrite elem_of_app, list_elem_of_singleton. reflexivity.
Qed.

Lemma elem_of_first_keys (l : list K) (k : K) : k ∈ first_keys l <-> k ∈ l.
Proof.
  unfold first_keys. induction l as [|x l IH] using rev_ind.
  - reflexivity.
  - rewrite foldl_snoc, elem_of_add_key, IH, elem_of_app, list_elem_of_singleton. reflexivity.
Qed.

Lemma NoDup_first_keys (l : list K) : NoDup (first_keys l).
Proof.
  unfold first_keys. induction l as [|x l IH] using rev_ind.
  - constructor.
  - rewrite foldl_snoc. unfold add_key at 1. case_decide as Hk; [exact IH|].
    apply NoDup_app. split; [exact IH|]. split.
    + intros y Hy Hx. apply list_elem_of_singleton in Hx. subst. contradiction.
    + apply NoDup_singleton.
Qed.

(** A row whose key has no group yet opens one; the groups met before are
    left alone. *)
Lemma group_add_new (rows : list Expense.t) (r : Expense.t) (ks : list K) :
  key r ∉ ks ->
  App.group_add (key r) (Expense.amount r) (map (group_total key rows) ks)
  = map (group_total key (rows ++ [r])) ks
      ++ [(key r, PrimFloat.add 0 (Expense.amount r))].
Proof.
  induction ks as [|k ks IH]; intros Hk; cbn [map App.group_add app]; [reflexivity|].
  apply not_elem_of_cons in Hk as [Hne Hk].
  cbn [group_total fst]. rewrite decide_False by congruence.
  rewrite IH by exact Hk. unfold group_total at 2.
  rewrite group_rows_snoc_ne by congruence. reflexivity.
Qed.

Lemma group_total_other (rows : list Expense.t) (r : Expense.t) (ks : list K) :
  key r ∉ ks -> map (group_total key (rows ++ [r])) ks = map (group_total key rows) ks.
Proof.
  intros Hk. apply map_ext_in. intros k Hin. unfold group_total.
  rewrite group_rows_snoc_ne; [reflexivity|].
  intros ->. apply Hk, list_elem_of_In, Hin.
Qed.

(** A row whose key has a group adds its amount to that group's total. *)
Lemma group_add_old (rows : list Expense.t) (r : Expense.t) (ks : list K) :
  NoDup ks -> key r ∈ ks ->
  App.group_add (key r) (Expense.amount r) (map (group_total key rows) ks)
  = map (group_total key (rows ++ [r])) ks.
Proof.
  induction 1 as [|k ks Hk Hnd IH]; intros Hin; [inversion Hin|].
  cbn [map App.group_add]. cbn [group_total fst]. destruct (decide (k = key r)) as [->|Hne].
  - unfold group_total at 2. rewrite group_rows_snoc_eq. unfold amounts.
    rewrite map_app. cbn [map]. rewrite fsum_snoc.
    rewrite (group_total_other rows r ks Hk). reflexivity.
  - apply elem_of_cons in Hin as [Heq|Hin]; [congruence|].
    rewrite IH by exact Hin. unfold group_total at 2.
    rewrite group_rows_snoc_ne by congruence. reflexivity.
Qed.

Lemma group_rows_none (rows : list Expense.t) (k : K) :
  k ∉ map key rows -> group_rows key k rows = [].
Proof.
  induction rows as [|r rows IH]; [reflexivity|]. cbn [map]. intros Hk.
  apply not_elem_of_cons in Hk as [Hne Hk]. unfold group_rows. cbn [List.filter].
  rewrite bool_decide_eq_false_2 by congruence. apply IH, Hk.
Qed.

(** The groups as the rows are read: one pair for each key, in the order
    of first occurrence, with the float sum of the group's amounts in row
    order. *)
Lemma group_fold_spec (rows : list Expense.t) :
  foldl (fun groups e => App.group_add (key e) (Expense.amount e) groups) [] rows
  = map (group_total key rows) (first_keys (map key rows)).
Proof.
  unfold first_keys. induction rows as [|r rows IH] using rev_ind.
  - reflexivity.
  - rewrite map_app. cbn [map]. rewrite !foldl_snoc, IH. fold (first_keys (map key rows)).
    unfold add_key. case_decide as Hk.
    + apply group_add_old; [apply NoDup_first_keys|exact Hk].
    + rewrite group_add_new by exact Hk. rewrite map_app. cbn [map]. f_equal.
      unfold group_total. rewrite group_rows_snoc_eq.
      rewrite group_rows_none by (rewrite <- elem_of_first_keys; exact Hk).
      reflexivity.
Qed.

Lemma group_rows_some (rows : list Expense.t) (k : K) :
  k ∈ map key rows -> group_rows key k rows <> [].
Proof.
  intros Hk Hnone. apply list_elem_of_In, in_map_iff in Hk as (r & Hr & Hin).
  assert (In r (group_rows key k rows)) as Hbad.
  { unfold group_rows. apply filter_In. split; [exact Hin|].
    apply bool_decide_eq_true_2. exact Hr. }
  rewrite Hnone in Hbad. exact Hbad.
Qed.

End Grouping.

(** Sorting pairs by their key sorts the keys. *)
Lemma order_by_keys {V} (f : string -> V) (ks : list string) :
  order_by App.key_le (map (fun k => (k, f k)) ks)
  = map (fun k => (k, f k)) (order_by App.text_le ks).
Proof.
  unfold order_by. induction ks as [|x ks IH]; cbn [map foldr]; [reflexivity|].
  rewrite IH. generalize (foldr (sort_insert App.text_le) [] ks). clear IH.
  intros l. induction l as [|y l IH]; cbn [map sort_insert]; [reflexivity|].
  destruct (decide (App.text_le x y)) as [Hxy|Hxy].
  - rewrite decide_True by exact Hxy. reflexivity.
  - rewrite decide_False by exact Hxy. cbn [map]. rewrite IH. reflexivity.
Qed.

Lemma elem_of_order_by {A} (R : relation A) `{!RelDecision R} (l : list A) (x : A) :
  x ∈ order_by R l <-> x ∈ l.
Proof. rewrite (order_by_Permutation R l). reflexivity. Qed.

Lemma NoDup_order_by {A} (R : relation A) `{!RelDecision R} (l : list A) :
  NoDup l -> NoDup (order_by R l).
Proof. rewrite (order_by_Permutation R l). trivial. Qed.

Lemma reported_some (rows : list Expense.t) :
  rows <> [] -> reported rows = App.sql_real (App.fsum (amounts rows)).
Proof. destruct rows; [contradiction|reflexivity]. Qed.

(** GROUP BY with sum: one result row for each key, in ascending order of
    the keys, with what is reported for the rows of the key. *)
Lemma group_by_sum_spec (key : Expense.t -> string) (rows : list Expense.t) :
  App.group_by_sum key rows
  = map (fun k => (k, reported (group_rows key k rows)))
      (order_by App.text_le (first_keys (map key rows))).
Proof.
  unfold App.group_by_sum. rewrite group_fold_spec.
  change (map (group_total key rows) (first_keys (map key rows)))
    with (map (fun k => (k, App.fsum (amounts (group_rows key k rows))))
            (first_keys (map key rows))).
  rewrite (order_by_keys (fun k => App.fsum (amounts (group_rows key k rows)))), map_map.
  apply map_ext_in. intros k Hk. cbv beta. f_equal. symmetry. apply reported_some.
  apply group_rows_some.
  apply list_elem_of_In in Hk. rewrite elem_of_order_by, elem_of_first_keys in Hk. exact Hk.
Qed.




(** *** Months *)

Lemma int_strftime_m (d : Py.date) :
  1 <= Py.month d <= 12 -> Py.int_digits 0 (Py.strftime_m d) = Py.month d.
Proof.
  destruct d as [y m dd]. unfold Py.strftime_m. cbn [Py.month]. intros Hm.
  assert (m = 1 \/ m = 2 \/ m = 3 \/ m = 4 \/ m = 5 \/ m = 6 \/ m = 7 \/ m = 8 \/ m = 9
          \/ m = 10 \/ m = 11 \/ m = 12) as Hcases by lia.
  repeat destruct Hcases as [->|Hcases]; try subst m; reflexivity.
Qed.

Lemma month_key_eq (e e' : Expense.t) :
  1 <= Py.month (Expense.date e) <= 12 -> 1 <= Py.month (Expense.date e') <= 12 ->
  month_key e = month_key e' <-> Py.month (Expense.date e) = Py.month (Expense.date e').
Proof.
  intros He He'. unfold month_key. split.
  - intros Heq. rewrite <- (int_strftime_m _ He), <- (int_strftime_m _ He'), Heq. reflexivity.
  - intros Heq. unfold Py.strftime_m. rewrite Heq. reflexivity.
Qed.

Lemma monthly_dict_of_snoc (G : list (string * pyval)) (k : string) (t : pyval) :
  App.monthly_dict_of (G ++ [(k, t)]) = <[Py.int_digits 0 k := t]> (App.monthly_dict_of G).
Proof. unfold App.monthly_dict_of. rewrite foldl_snoc. reflexivity. Qed.

Lemma monthly_dict_none (G : list (string * pyval)) (i : Z) :
  Forall (fun p => Py.int_digits 0 (fst p) <> i) G -> App.monthly_dict_of G !! i = None.
Proof.
  induction G as [|[k t] G IH] using rev_ind; intros Hall; [apply lookup_empty|].
  apply Forall_app in Hall as [Hall Hlast]. apply Forall_inv in Hlast. cbn [fst] in Hlast.
  rewrite monthly_dict_of_snoc, lookup_insert_ne by exact Hlast. apply IH, Hall.
Qed.

Lemma monthly_dict_some (G : list (string * pyval)) (k : string) (t : pyval) :
  NoDup (map (fun p => Py.int_digits 0 (fst p)) G) -> (k, t) ∈ G ->
  App.monthly_dict_of G !! Py.int_digits 0 k = Some t.
Proof.
  induction G as [|[k' t'] G IH] using rev_ind; intros Hnd Hin; [inversion Hin|].
  rewrite map_app in Hnd. cbn [map fst] in Hnd.
  apply NoDup_app in Hnd as (Hnd & Hnot & _).
  rewrite monthly_dict_of_snoc.
  apply elem_of_app in Hin as [Hin|Hin].
  - rewrite lookup_insert_ne; [apply IH; assumption|].
    intros Heq. apply (Hnot (Py.int_digits 0 k)).
    + apply list_elem_of_In, in_map_iff. exists (k, t). split; [reflexivity|].
      apply list_elem_of_In, Hin.
    + rewrite Heq. apply list_elem_of_singleton. reflexivity.
  - apply list_elem_of_singleton in Hin. injection Hin as -> ->. apply lookup_insert_eq.
Qed.

Lemma group_rows_month (rows : list Expense.t) (e : Expense.t) :
  months_valid rows -> 1 <= Py.month (Expense.date e) <= 12 ->
  group_rows month_key (month_key e) rows = of_month (Py.month (Expense.date e)) rows.
Proof.
  intros Hall He. unfold of_month, group_rows. apply filter_ext_in. intros e' Hin.
  apply (proj1 (List.Forall_forall _ _) Hall) in Hin.
  apply bool_decide_ext. apply month_key_eq; assumption.
Qed.

(** The month's entry of the dictionary, or 0: the month's total. *)
Lemma monthly_data_entry (rows : list Expense.t) (i : Z) :
  months_valid rows ->
  default (PyInt 0) (App.monthly_dict_of (App.group_by_sum month_key rows) !! i)
  = reported (of_month i rows).
Proof.
  intros Hall. rewrite group_by_sum_spec.
  destruct (of_month i rows) as [|e rest] eqn:Hrows.
  - rewrite monthly_dict_none; [reflexivity|].
    apply List.Forall_forall. intros [k t] Hin. cbn [fst].
    apply in_map_iff in Hin as (k' & [= <- _] & Hin).
    apply list_elem_of_In in Hin. rewrite elem_of_order_by, elem_of_first_keys in Hin.
    apply list_elem_of_In, in_map_iff in Hin as (e & <- & Hin).
    pose proof (proj1 (List.Forall_forall _ _) Hall e Hin) as He.
    unfold month_key. rewrite (int_strftime_m _ He). intros Heq.
    assert (In e (of_month i rows)) as Hbad.
    { unfold of_month, group_rows. apply filter_In. split; [exact Hin|].
      apply bool_decide_eq_true_2. exact Heq. }
    rewrite Hrows in Hbad. exact Hbad.
  - assert (In e (of_month i rows)) as He by (rewrite Hrows; left; reflexivity).
    unfold of_month, group_rows in He. apply filter_In in He as [Hin Hm].
    apply bool_decide_eq_true_1 in Hm.
    pose proof (proj1 (List.Forall_forall _ _) Hall e Hin) as Hv.
    assert (Py.int_digits 0 (month_key e) = i) as Hkey
      by (unfold month_key; rewrite (int_strftime_m _ Hv); exact Hm).
    rewrite <- Hrows. rewrite <- Hkey at 1.
    rewrite (monthly_dict_some _ (month_key e)
               (reported (group_rows month_key (month_key e) rows))).
    + rewrite (group_rows_month rows e Hall Hv), Hm. reflexivity.
    + rewrite map_map. cbn [fst].
      apply (NoDup_fmap_2_strong (Py.int_digits 0));
        [|apply NoDup_order_by, NoDup_first_keys].
      intros x y Hx Hy Heq.
      rewrite elem_of_order_by, elem_of_first_keys in Hx, Hy.
      apply list_elem_of_In, in_map_iff in Hx as (ex & <- & Hex).
      apply list_elem_of_In, in_map_iff in Hy as (ey & <- & Hey).
      pose proof (proj1 (List.Forall_forall _ _) Hall ex Hex) as Hvx.
      pose proof (proj1 (List.Forall_forall _ _) Hall ey Hey) as Hvy.
      apply month_key_eq; [assumption..|].
      unfold month_key in Heq. rewrite !int_strftime_m in Heq by assumption. exact Heq.
    + apply list_elem_of_In, in_map_iff. exists (month_key e). split; [reflexivity|].
      apply list_elem_of_In. rewrite elem_of_order_by, elem_of_first_keys.
      apply list_elem_of_In, in_map. exact Hin.
Qed.

Lemma owned_months_valid (uid : Z) (tbl : list Expense.t) :
  dates_valid tbl -> months_valid (owned uid tbl).
Proof.
  unfold dates_valid, months_valid, owned. intros Hall. apply List.Forall_forall. intros e He.
  apply filter_In in He as [He _]. apply (proj1 (List.Forall_forall _ _) Hall) in He.
  destruct He as (_ & Hm & _). exact Hm.
Qed.

(** The whole of /dashboard for a logged-in caller. *)
Lemma dashboard_run (w : world) (cu : User.t) (req : request) :
  logged_in w cu ->
  dates_valid (expense_table (db w)) ->
  handle (App.dashboard req) w =
  (Render "dashboard.html"
     (CtxDashboard
        (categories (User.id cu) (expense_table (db w)))
        (map (category_total (User.id cu) (expense_table (db w)))
           (categories (User.id cu) (expense_table (db w))))
        month_names
        (map (month_total (User.id cu) (expense_table (db w))) App.range_1_13)),
   w).
Proof.
  intros Hin Hvalid. unfold App.dashboard. rewrite (handle_login_required _ w cu Hin).
  unfold handle, all. rewrite !bind_run. cbn [get_db cdb csess ccookie cflashes mret M_ret].
  fold (owned (User.id cu) (expense_table (db w))).
  destruct w as [d ck fl]. cbn [db user_cookie flashes]. f_equal. f_equal. f_equal.
  - rewrite group_by_sum_spec, map_map. cbn [fst]. apply map_id.
  - rewrite group_by_sum_spec, map_map. reflexivity.
  - apply map_ext. intros i. fold month_key.
    apply monthly_data_entry, owned_months_valid, Hvalid.
Qed.

Lemma month_entry (f : Z -> pyval) (i : Z) :
  1 <= i <= 12 -> map f App.range_1_13 !! Z.to_nat (i - 1) = Some (f i).
Proof.
  intros Hi.
  assert (i = 1 \/ i = 2 \/ i = 3 \/ i = 4 \/ i = 5 \/ i = 6 \/ i = 7 \/ i = 8 \/ i = 9
          \/ i = 10 \/ i = 11 \/ i = 12) as Hcases by lia.
  repeat destruct Hcases as [->|Hcases]; try subst i; reflexivity.
Qed.

(** C4 as stated fails where the amounts of a month have no sum: with an
    infinite expense and an infinite refund in January, the January entry
    is [None], not a number. *)
Lemma monthly_total_none :
  amounts (of_month 1 (owned 1 (expense_table (db Demo.w_inf)))) = [infinity; neg_infinity]
  /\ snd (dashboard_totals (fst (handle (App.dashboard (Demo.get [])) Demo.w_inf))) !! 0%nat
     = Some PyNone.
Proof. split; vm_compute; reflexivity. Qed.

(** C4, amended.  For every owner and every table of calendar-dated
    expenses, MonthlyTotals returns the 12 months January to December in
    calendar order.  The entry of a month is taken from the owner's
    expenses whose date falls in that month, whatever the year: the
    integer 0 when there is none, otherwise the float sum of their
    amounts in table order, or [None] when that sum is not a number. *)
Theorem monthly_totals_all_months (w : world) (cu : User.t) (req : request) :
  logged_in w cu ->
  dates_valid (expense_table (db w)) ->
  exists labels values monthlyData,
    handle (App.dashboard req) w =
      (Render "dashboard.html" (CtxDashboard labels values month_names monthlyData), w)
    /\ length month_names = 12%nat
    /\ length monthlyData = 12%nat
    /\ (forall i, 1 <= i <= 12 ->
          monthlyData !! Z.to_nat (i - 1)
          = Some (reported (of_month i (owned (User.id cu) (expense_table (db w))))))
    /\ (forall i, 1 <= i <= 12 ->
          of_month i (owned (User.id cu) (expense_table (db w))) = [] ->
          monthlyData !! Z.to_nat (i - 1) = Some (PyInt 0))
    /\ (forall i, 1 <= i <= 12 ->
          of_month i (owned (User.id cu) (expense_table (db w))) <> [] ->
          monthlyData !! Z.to_nat (i - 1)
          = Some (if is_nan (App.fsum (amounts (of_month i (owned (User.id cu)
                                                             (expense_table (db w))))))
                  then PyNone
                  else PyFloat (App.fsum (amounts (of_month i (owned (User.id cu)
                                                                (expense_table (db w)))))))).
Proof.
  intros Hin Hvalid. do 3 eexists.
  split; [apply (dashboard_run w cu req Hin Hvalid)|].
  split; [reflexivity|]. split; [reflexivity|]. split; [|split].
  - intros i Hi.
    apply (month_entry (month_total (User.id cu) (expense_table (db w))) i Hi).
  - intros i Hi Hnone. rewrite (month_entry _ i Hi). unfold month_total. rewrite Hnone.
    reflexivity.
  - intros i Hi Hsome. rewrite (month_entry _ i Hi). unfold month_total.
    destruct (of_month i (owned (User.id cu) (expense_table (db w)))); [contradiction|].
    reflexivity.
Qed.

(** C4 at work: Alice's 10 on 2023-03-01 and 20 on 2024-03-10 make her
    March 30 and every other month 0; Bob's 5 in March and 7 in May are
    not counted. *)
Lemma monthly_totals_all_months_witness :
  logged_in Demo.w_march_both Demo.alice
  /\ dates_valid (expense_table (db Demo.w_march_both))
  /\ length (expense_table (db Demo.w_march_both)) = 4%nat
  /\ exists labels values,
       handle (App.dashboard (Demo.get [])) Demo.w_march_both =
       (Render "dashboard.html"
          (CtxDashboard labels values month_names
             [PyInt 0; PyInt 0; PyFloat 30; PyInt 0; PyInt 0; PyInt 0;
              PyInt 0; PyInt 0; PyInt 0; PyInt 0; PyInt 0; PyInt 0]),
        Demo.w_march_both).
Proof.
  assert (logged_in Demo.w_march_both Demo.alice) as Hin by (vm_compute; reflexivity).
  assert (dates_valid (expense_table (db Demo.w_march_both))) as Hvalid
    by (repeat constructor; vm_compute; discriminate).
  split; [exact Hin|]. split; [exact Hvalid|]. split; [vm_compute; reflexivity|].
  destruct (monthly_totals_all_months Demo.w_march_both Demo.alice (Demo.get []) Hin Hvalid)
    as (labels & values & monthlyData & Hrun & _).
  exists labels, values. rewrite Hrun. vm_compute in Hrun.
  injection Hrun as _ _ <-. reflexivity.
Defined.

(** *** Month totals against category totals *)



Lemma NoDup_categories (uid : Z) (tbl : list Expense.t) : NoDup (categories uid tbl).
Proof. apply NoDup_order_by, NoDup_first_keys. Qed.









(** ** The date text of a row reads back as its date *)

Lemma fmap_bind_list {A B C} (f : B -> C) (g : A -> list B) (l : list A) :
  f <$> (l ≫= g) = l ≫= (fun x => f <$> g x).
Proof.
  induction l as [|x l IH]; [reflexivity|].
  rewrite !bind_cons, fmap_app, IH. reflexivity.
Qed.

Lemma format_regex_year (a b c e : ascii) (r1 : string) :
  Py.is_digit a = true -> Py.is_digit b = true -> Py.is_digit c = true ->
  Py.is_digit e = true ->
  Py.format_regex_matches (String a (String b (String c (String e r1))))
  = (fun '(m, d, r) => (String a (String b (String c (String e EmptyString))), m, d, r))
      <$> after_year r1.
Proof.
  intros Ha Hb Hc He. unfold Py.format_regex_matches, Py.group_Y.
  rewrite Ha, Hb, Hc, He. cbn [andb]. rewrite bind_singleton. unfold after_year.
  rewrite fmap_bind_list. apply list_bind_ext; [|reflexivity]. intros r2.
  rewrite fmap_bind_list. apply list_bind_ext; [|reflexivity]. intros [m r3].
  rewrite fmap_bind_list. apply list_bind_ext; [|reflexivity]. intros r4.
  rewrite fmap_bind_list. apply list_bind_ext; [|reflexivity]. intros [d r5].
  reflexivity.
Qed.

Lemma year_texts_ok : forallb year_text_ok (seqZ 1000 9000) = true.
Proof. vm_compute. reflexivity. Qed.

Lemma years_short : forallb year_short (seqZ 1 999) = true.
Proof. vm_compute. reflexivity. Qed.

Lemma month_day_texts_ok :
  forallb (fun m => forallb (month_day_ok m) (seqZ 1 31)) (seqZ 1 12) = true.
Proof. vm_compute. reflexivity. Qed.

Lemma month_days_spelled :
  forallb (fun m => forallb (month_day_spelled m) (seqZ 1 31)) (seqZ 1 12) = true.
Proof. vm_compute. reflexivity. Qed.

Lemma days_in_month_le (y m : Z) : Py.days_in_month y m <= 31.
Proof.
  unfold Py.days_in_month.
  destruct (m =? 2); [destruct (Py.is_leap y); lia|].
  destruct ((m =? 4) || (m =? 6) || (m =? 9) || (m =? 11)); lia.
Qed.

(** From the year 1000 on, [strftime] writes a calendar date as ten
    characters, four digits of year, two of month and two of day between
    hyphens, which [strptime] reads back as the same date. *)
Lemma strptime_strftime (d : Py.date) :
  valid_date d -> 1000 <= Py.year d ->
  Py.strptime (Py.strftime d) = Ok d
  /\ String.length (Py.str_nat (Py.year d)) = 4%nat
  /\ String.length (Py.zfill 2 (Py.str_nat (Py.month d))) = 2%nat
  /\ String.length (Py.zfill 2 (Py.str_nat (Py.day d))) = 2%nat.
Proof.
  destruct d as [y m dd]. unfold valid_date, Py.strftime. cbn [Py.year Py.month Py.day].
  intros (Hy & Hm & Hd) Hy4.
  pose proof (days_in_month_le y m) as Hle.
  pose proof (proj1 (forallb_forall _ _) year_texts_ok y) as Hyear.
  pose proof (proj1 (forallb_forall _ _) month_day_texts_ok m) as Hmd.
  assert (In y (seqZ 1000 9000)) as Hy' by (apply list_elem_of_In, elem_of_seqZ; lia).
  assert (In m (seqZ 1 12)) as Hm' by (apply list_elem_of_In, elem_of_seqZ; lia).
  assert (In dd (seqZ 1 31)) as Hd' by (apply list_elem_of_In, elem_of_seqZ; lia).
  specialize (Hyear Hy'). specialize (Hmd Hm').
  pose proof (proj1 (forallb_forall _ _) Hmd dd Hd') as Hday. clear Hmd.
  unfold year_text_ok in Hyear. unfold month_day_ok in Hday.
  destruct (Py.str_nat y) as [|a [|b [|c [|e [|]]]]]; try discriminate Hyear.
  apply andb_true_iff in Hyear as [Hyear Hint].
  apply andb_true_iff in Hyear as [Hyear He].
  apply andb_true_iff in Hyear as [Hyear Hc].
  apply andb_true_iff in Hyear as [Ha Hb].
  apply Z.eqb_eq in Hint.
  change (String a (String b (String c (String e EmptyString)))
            +:+ "-" +:+ Py.zfill 2 (Py.str_nat m) +:+ "-" +:+ Py.zfill 2 (Py.str_nat dd))
    with (String a (String b (String c (String e
           ("-" +:+ Py.zfill 2 (Py.str_nat m) +:+ "-" +:+ Py.zfill 2 (Py.str_nat dd)))))).
  unfold Py.strptime. rewrite (format_regex_year a b c e _ Ha Hb Hc He).
  destruct (after_year _) as [|[[ms ds] rest] others] eqn:Hafter; [discriminate Hday|].
  destruct rest; [|discriminate Hday].
  apply andb_true_iff in Hday as [Hday Hlend].
  apply andb_true_iff in Hday as [Hday Hlenm].
  apply andb_true_iff in Hday as [Hms Hds].
  apply Z.eqb_eq in Hms, Hds. apply Nat.eqb_eq in Hlenm, Hlend.
  cbn [fmap list_fmap]. rewrite Hint, Hms, Hds. unfold Py.date_new.
  replace ((1 <=? y) && (y <=? 9999)) with true by (symmetry; apply andb_true_iff; lia).
  replace ((1 <=? m) && (m <=? 12)) with true by (symmetry; apply andb_true_iff; lia).
  replace ((1 <=? dd) && (dd <=? Py.days_in_month y m)) with true
    by (symmetry; apply andb_true_iff; lia).
  repeat split; assumption.
Qed.

(** From the year 1000 on, the text [strftime] writes is of the form
    YYYY-MM-DD and spells the date. *)
Lemma strftime_spells (d : Py.date) :
  valid_date d -> 1000 <= Py.year d -> spells_date d (Py.strftime d) = true.
Proof.
  destruct d as [y m dd]. unfold valid_date, Py.strftime. cbn [Py.year Py.month Py.day].
  intros (Hy & Hm & Hd) Hy4.
  pose proof (days_in_month_le y m) as Hle.
  pose proof (proj1 (forallb_forall _ _) year_texts_ok y) as Hyear.
  pose proof (proj1 (forallb_forall _ _) month_days_spelled m) as Hmd.
  assert (In y (seqZ 1000 9000)) as Hy' by (apply list_elem_of_In, elem_of_seqZ; lia).
  assert (In m (seqZ 1 12)) as Hm' by (apply list_elem_of_In, elem_of_seqZ; lia).
  assert (In dd (seqZ 1 31)) as Hd' by (apply list_elem_of_In, elem_of_seqZ; lia).
  specialize (Hyear Hy'). specialize (Hmd Hm').
  pose proof (proj1 (forallb_forall _ _) Hmd dd Hd') as Hday. clear Hmd.
  unfold year_text_ok in Hyear. unfold month_day_spelled in Hday.
  destruct (Py.str_nat y) as [|a [|b [|c [|e [|]]]]]; try discriminate Hyear.
  destruct (Py.zfill 2 (Py.str_nat m)) as [|m1 [|m2 [|]]]; try discriminate Hday.
  destruct (Py.zfill 2 (Py.str_nat dd)) as [|d1 [|d2 [|]]]; try discriminate Hday.
  cbv [String.append]. unfold spells_date. cbn [Py.year Py.month Py.day].
  apply andb_true_iff in Hyear as [Hyear Hint].
  apply andb_true_iff in Hyear as [Hyear He].
  apply andb_true_iff in Hyear as [Hyear Hc].
  apply andb_true_iff in Hyear as [Ha Hb].
  apply andb_true_iff in Hday as [Hday Hdd].
  apply andb_true_iff in Hday as [Hdigits Hmm].
  cbn [forallb] in Hdigits |- *.
  apply andb_true_iff in Hdigits as [Hm1 Hdigits].
  apply andb_true_iff in Hdigits as [Hm2 Hdigits].
  apply andb_true_iff in Hdigits as [Hd1 Hdigits].
  apply andb_true_iff in Hdigits as [Hd2 _].
  rewrite Ha, Hb, Hc, He, Hm1, Hm2, Hd1, Hd2, Hint, Hmm, Hdd. reflexivity.
Qed.

Lemma length_append (a b : string) :
  String.length (a +:+ b) = (String.length a + String.length b)%nat.
Proof.
  induction a as [|x a IH]; [reflexivity|].
  change (S (String.length (a +:+ b)) = S (String.length a + String.length b)).
  rewrite IH. reflexivity.
Qed.

Lemma spells_date_length (d : Py.date) (s : string) :
  spells_date d s = true -> String.length s = 10%nat.
Proof.
  destruct s as [|y1 [|y2 [|y3 [|y4 [|h1 [|m1 [|m2 [|h2 [|d1 [|d2 [|x s]]]]]]]]]]];
    intros H; try discriminate H. reflexivity.
Qed.

(** A text that begins with at most three characters before a hyphen
    has no four digits of year. *)
Lemma short_year_no_match (t rest : string) :
  (String.length t <= 3)%nat -> Py.format_regex_matches (t +:+ "-" +:+ rest) = [].
Proof.
  intros Hlen. unfold Py.format_regex_matches.
  assert (Py.group_Y (t +:+ "-" +:+ rest) = []) as ->; [|reflexivity].
  destruct t as [|a [|b [|c [|e t]]]]; cbn [String.length] in Hlen; [| | |  |lia];
    cbv [String.append]; unfold Py.group_Y.
  - destruct rest as [|r1 [|r2 [|r3 rest]]]; reflexivity.
  - destruct rest as [|r1 [|r2 rest]]; try reflexivity.
    rewrite andb_false_r. reflexivity.
  - destruct rest as [|r1 rest]; try reflexivity.
    rewrite andb_false_r. reflexivity.
  - rewrite andb_false_r. reflexivity.
Qed.

(** Before the year 1000, [strftime] writes the year with fewer than four
    digits: the text is not of the form YYYY-MM-DD, and [strptime] does
    not read it. *)
Lemma strftime_short_year (d : Py.date) :
  valid_date d -> Py.year d < 1000 ->
  spells_date d (Py.strftime d) = false
  /\ Py.strptime (Py.strftime d) = Raise (ValueError "time data does not match format").
Proof.
  destruct d as [y m dd]. unfold valid_date, Py.strftime. cbn [Py.year Py.month Py.day].
  intros (Hy & Hm & Hd) Hy3.
  pose proof (days_in_month_le y m) as Hle.
  pose proof (proj1 (forallb_forall _ _) years_short y) as Hyear.
  pose proof (proj1 (forallb_forall _ _) month_days_spelled m) as Hmd.
  assert (In y (seqZ 1 999)) as Hy' by (apply list_elem_of_In, elem_of_seqZ; lia).
  assert (In m (seqZ 1 12)) as Hm' by (apply list_elem_of_In, elem_of_seqZ; lia).
  assert (In dd (seqZ 1 31)) as Hd' by (apply list_elem_of_In, elem_of_seqZ; lia).
  specialize (Hyear Hy'). specialize (Hmd Hm').
  pose proof (proj1 (forallb_forall _ _) Hmd dd Hd') as Hday. clear Hmd.
  unfold year_short in Hyear. apply Nat.leb_le in Hyear.
  split.
  - destruct (spells_date _ _) eqn:Hspells; [|reflexivity]. exfalso.
    apply spells_date_length in Hspells. rewrite !length_append in Hspells.
    unfold month_day_spelled in Hday.
    destruct (Py.zfill 2 (Py.str_nat m)) as [|m1 [|m2 [|]]]; try discriminate Hday.
    destruct (Py.zfill 2 (Py.str_nat dd)) as [|d1 [|d2 [|]]]; try discriminate Hday.
    cbn [String.length] in Hspells. lia.
  - unfold Py.strptime. rewrite (short_year_no_match _ _ Hyear). reflexivity.
Qed.

(** ** ExportCsv *)

Lemma append_assoc (a b c : string) : (a +:+ b) +:+ c = a +:+ (b +:+ c).
Proof.
  induction a as [|x a IH]; [reflexivity|].
  change (String x ((a +:+ b) +:+ c) = String x (a +:+ (b +:+ c))). rewrite IH. reflexivity.
Qed.

Lemma append_empty_r (a : string) : a +:+ EmptyString = a.
Proof.
  induction a as [|x a IH]; [reflexivity|].
  change (String x (a +:+ EmptyString) = String x a). rewrite IH. reflexivity.
Qed.

Lemma write_rows (si : string) (rows : list Expense.t) :
  foldl (fun si expense => si +:+ App.export_row expense) si rows
  = si +:+ join_rows (map App.export_row rows).
Proof.
  revert si. induction rows as [|e rows IH]; intros si; cbn [foldl map join_rows foldr].
  - rewrite append_empty_r. reflexivity.
  - rewrite IH, append_assoc. reflexivity.
Qed.

(** The row the writer makes of an expense is its line: four fields,
    three commas, CR LF. *)
Lemma export_row_line (e : Expense.t) :
  App.export_row e = csv_line (Py.strftime (Expense.date e)) e.
Proof.
  unfold App.export_row, csv_line, Py.writerow, quoted. cbn [Py.join_fields].
  rewrite !append_assoc. reflexivity.
Qed.

(** A text of the form YYYY-MM-DD is written as it is. *)
Lemma digit_plain (c : ascii) : Py.is_digit c = true -> Py.needs_quotes c = false.
Proof. destruct c as [[] [] [] [] [] [] [] []]; try discriminate; reflexivity. Qed.

Lemma spelled_date_plain (d : Py.date) (s : string) :
  spells_date d s = true -> quoted s = s.
Proof.
  destruct s as [|y1 [|y2 [|y3 [|y4 [|h1 [|m1 [|m2 [|h2 [|d1 [|d2 [|x s]]]]]]]]]]];
    intros H; try discriminate H.
  unfold spells_date in H.
  apply andb_true_iff in H as [H _]. apply andb_true_iff in H as [H _].
  apply andb_true_iff in H as [H _].
  apply andb_true_iff in H as [H Hdigits]. apply andb_true_iff in H as [Hh1 Hh2].
  apply Ascii.eqb_eq in Hh1, Hh2. subst h1 h2. cbn [forallb] in Hdigits.
  repeat (apply andb_true_iff in Hdigits as [?%digit_plain Hdigits]).
  unfold quoted, Py.csv_field. cbn [Py.has_special].
  repeat match goal with H : Py.needs_quotes _ = false |- _ => rewrite H; clear H end.
  reflexivity.
Qed.

(** The whole of /export for a logged-in caller. *)
Lemma export_run (w : world) (cu : User.t) (req : request) :
  logged_in w cu ->
  handle (App.export req) w =
  (Response
     (csv_header
        +:+ join_rows (map App.export_row
                         (order_by date_desc (owned (User.id cu) (expense_table (db w))))))
     "text/csv" [("Content-Disposition", "attachment;filename=expenses.csv")],
   w).
Proof.
  intros Hin. unfold App.export. rewrite (handle_login_required _ w cu Hin).
  unfold handle, order_by_date_desc_all, all. rewrite !bind_run.
  cbn [get_db cdb csess ccookie cflashes mret M_ret].
  rewrite write_rows. destruct w as [d ck fl]. reflexivity.
Qed.

(** C7 as stated fails on its example: the document ends its rows with
    CR LF, not with LF alone. *)
Lemma export_coffee_not_lf :
  body_of (fst (handle (App.export (Demo.get [])) Demo.w_coffee)) = Demo.coffee_csv_crlf
  /\ body_of (fst (handle (App.export (Demo.get [])) Demo.w_coffee)) <> Demo.coffee_csv_lf.
Proof.
  split; [vm_compute; reflexivity|]. intros H. vm_compute in H. discriminate H.
Qed.

(** Nor is every date written as YYYY-MM-DD: an expense of the year 999,
    entered as [0999-01-01], is exported with the year [999]. *)
Lemma export_year_not_padded :
  map Expense.date (expense_table (db Demo.w_old)) = [Py.mkdate 999 1 1]
  /\ body_of (fst (handle (App.export (Demo.get [])) Demo.w_old))
     = csv_header +:+ "999-01-01,Quill,Office,1.0" +:+ crlf.
Proof. split; vm_compute; reflexivity. Qed.

(** C7, amended.  For every owner, ExportCsv answers a [text/csv] document
    made of the header row [Date,Description,Category,Amount] followed by
    one row for each expense of that owner, sorted by date descending;
    a row holds the date, the description, the category and the amount,
    with commas between them; every row, the header included, ends with
    CR LF.  The date of a calendar date from the year 1000 on is written
    YYYY-MM-DD, as it is, and reads back as the date; before the year
    1000 the year is written without leading zeros, and the text is
    neither of that form nor read back. *)
Theorem export_csv_rows (w : world) (cu : User.t) (req : request) :
  logged_in w cu ->
  exists rows,
    handle (App.export req) w =
      (Response
         (csv_header
            +:+ join_rows (map (fun e => csv_line (Py.strftime (Expense.date e)) e) rows))
         "text/csv" [("Content-Disposition", "attachment;filename=expenses.csv")],
       w)
    /\ rows ≡ₚ owned (User.id cu) (expense_table (db w))
    /\ StronglySorted date_desc rows
    /\ (forall e, valid_date (Expense.date e) -> 1000 <= Py.year (Expense.date e) ->
          spells_date (Expense.date e) (Py.strftime (Expense.date e)) = true
          /\ quoted (Py.strftime (Expense.date e)) = Py.strftime (Expense.date e)
          /\ Py.strptime (Py.strftime (Expense.date e)) = Ok (Expense.date e))
    /\ (forall e, valid_date (Expense.date e) -> Py.year (Expense.date e) < 1000 ->
          spells_date (Expense.date e) (Py.strftime (Expense.date e)) = false
          /\ exists err, Py.strptime (Py.strftime (Expense.date e)) = Raise err).
Proof.
  intros Hin. eexists. split.
  { rewrite (export_run w cu req Hin).
    rewrite (map_ext _ _ export_row_line). reflexivity. }
  split; [apply order_by_Permutation|].
  split; [apply StronglySorted_order_by; apply _|].
  split.
  - intros e He Hy. pose proof (strftime_spells _ He Hy) as Hspells.
    split; [exact Hspells|]. split; [apply (spelled_date_plain _ _ Hspells)|].
    apply (strptime_strftime _ He Hy).
  - intros e He Hy. destruct (strftime_short_year _ He Hy) as [Hspells Hread].
    split; [exact Hspells|]. eexists. exact Hread.
Qed.

(** C7 at work: after Alice's coffee and Bob's tea, Alice's export is the
    header and the coffee row, each ended by CR LF; the tea is not in it. *)
Lemma export_csv_rows_witness :
  logged_in Demo.w_coffee_both Demo.alice
  /\ length (expense_table (db Demo.w_coffee_both)) = 2%nat
  /\ fst (handle (App.export (Demo.get [])) Demo.w_coffee_both)
     = Response Demo.coffee_csv_crlf "text/csv"
         [("Content-Disposition", "attachment;filename=expenses.csv")].
Proof.
  assert (logged_in Demo.w_coffee_both Demo.alice) as Hin by (vm_compute; reflexivity).
  split; [exact Hin|]. split; [vm_compute; reflexivity|].
  destruct (export_csv_rows Demo.w_coffee_both Demo.alice (Demo.get []) Hin)
    as (rows & Hrun & Hperm & _).
  rewrite Hrun. cbn [fst].
  assert (owned (User.id Demo.alice) (expense_table (db Demo.w_coffee_both))
          = [Expense.mk 1 "Coffee" 3.5 (Py.mkdate 2024 1 15) "Food" 1]) as Howned
    by (vm_compute; reflexivity).
  rewrite Howned in Hperm.
  apply Permutation_singleton_r in Hperm. rewrite Hperm. vm_compute. reflexivity.
Defined.

(** ** Login *)

(** A POST to /login that fails, for either reason. *)
Lemma login_failed (check : string -> string -> bool) (w : world) (req : request)
    (u p : string) :
  method req = POST ->
  multidict_get (form req) "username" = Some u ->
  multidict_get (form req) "password" = Some p ->
  match App.user_by_name (db w) u with
  | Some usr => check (User.password usr) p = false
  | None => True
  end ->
  handle (App.login check req) w =
  (Redirect (url_for "login" []),
   with_flashes w [(Text "Invalid username or password!", "danger")]).
Proof.
  intros Hm Hu Hp Hfail. unfold App.login, handle. rewrite Hm.
  run_form Hu. run_form Hp. rewrite bind_run. cbn [get_db cdb].
  destruct (App.user_by_name (db w) u) as [usr|]; [rewrite Hfail|]; reflexivity.
Qed.

(** C8. For every pair of failed Login attempts, one with an unknown
    username and one with a known username and a wrong password, the two
    answers are identical: the same redirect, the same flashed
    [Invalid username or password!], the same world after.  Nothing in the
    answer tells whether the username exists. *)
Theorem login_failures_identical (check_password_hash : string -> string -> bool)
    (w : world) (req1 req2 : request) (u1 p1 u2 p2 : string) (usr : User.t) :
  method req1 = POST ->
  multidict_get (form req1) "username" = Some u1 ->
  multidict_get (form req1) "password" = Some p1 ->
  App.user_by_name (db w) u1 = None ->
  method req2 = POST ->
  multidict_get (form req2) "username" = Some u2 ->
  multidict_get (form req2) "password" = Some p2 ->
  App.user_by_name (db w) u2 = Some usr ->
  check_password_hash (User.password usr) p2 = false ->
  handle (App.login check_password_hash req1) w = handle (App.login check_password_hash req2) w
  /\ handle (App.login check_password_hash req1) w =
     (Redirect (url_for "login" []),
      with_flashes w [(Text "Invalid username or password!", "danger")]).
Proof.
  intros Hm1 Hu1 Hp1 Hnone Hm2 Hu2 Hp2 Hsome Hwrong.
  rewrite (login_failed check_password_hash w req1 u1 p1 Hm1 Hu1 Hp1)
    by (rewrite Hnone; exact I).
  rewrite (login_failed check_password_hash w req2 u2 p2 Hm2 Hu2 Hp2)
    by (rewrite Hsome; exact Hwrong).
  split; reflexivity.
Qed.

(** C8 at work: nobody called carol, and a wrong password for alice. *)
Lemma login_failures_identical_witness :
  handle (App.login Demo.sample_check
            (Demo.post [("username", "carol"); ("password", "x")])) Demo.w0
  = handle (App.login Demo.sample_check
              (Demo.post [("username", "alice"); ("password", "bob")])) Demo.w0.
Proof.
  apply (login_failures_identical Demo.sample_check Demo.w0
           (Demo.post [("username", "carol"); ("password", "x")])
           (Demo.post [("username", "alice"); ("password", "bob")])
           "carol" "x" "alice" "bob" Demo.alice); vm_compute; reflexivity.
Defined.

(** * Further properties of the views *)

(** ** Callers without a session, and rows that do not exist *)

Lemma handle_login_required_anonymous (view : User.t -> M response) (w : world) :
  anonymous w ->
  handle (login_required view) w
  = (Redirect (url_for "login" []), with_flashes w [login_message]).
Proof.
  unfold anonymous, handle, login_required. intros H.
  rewrite bind_run. unfold current_user. simpl. rewrite H. reflexivity.
Qed.

Lemma world_eta (w : world) : mkworld (db w) (user_cookie w) (flashes w) = w.
Proof. destruct w; reflexivity. Qed.

Lemma load_missing (w : world) (k : Z) (body : Z -> M response) :
  find_expense (expense_table (db w)) k = None ->
  (expense ← get_or_404 k; body expense) (start w) = (Raise (no_row k), start w).
Proof.
  intros H. unfold start, no_row. rewrite bind_run. unfold get_or_404. rewrite bind_run.
  cbn [get_session csess identity_map empty_session]. rewrite lookup_empty, bind_run.
  cbn [get_db cdb]. rewrite H. destruct (sqlite_int k); reflexivity.
Qed.

Lemma error_page_no_row (k : Z) :
  error_page (no_row k) = ErrorPage (if sqlite_int k then 404 else 500).
Proof. unfold no_row. destruct (sqlite_int k); reflexivity. Qed.

(** A missing row ends the request at once: an error page, and the world
    as it was. *)
Lemma handle_missing (w : world) (k : Z) (body : Z -> M response) :
  find_expense (expense_table (db w)) k = None ->
  handle (expense ← get_or_404 k; body expense) w
  = (ErrorPage (if sqlite_int k then 404 else 500), w).
Proof.
  intros H. unfold handle. fold (start w). rewrite (load_missing w k body H).
  rewrite error_page_no_row. unfold start. cbn [cdb ccookie cflashes].
  rewrite world_eta. reflexivity.
Qed.

(** X1. Every protected view (expenses, add, edit, delete, dashboard,
    export, logout) answers a caller without a valid login cookie with the
    redirect to the login view and the login manager's message, whatever
    the request holds, and changes nothing else: the view's body is not
    run. *)
Theorem protected_views_need_login (w : world) (req : request) (k : Z) :
  anonymous w ->
  Forall (fun view =>
            handle view w = (Redirect (url_for "login" []), with_flashes w [login_message]))
    [App.expenses req; App.add_expense req; App.edit_expense k req;
     App.delete_expense k req; App.dashboard req; App.export req; Auth.logout req].
Proof.
  intros Hanon. repeat constructor; apply handle_login_required_anonymous, Hanon.
Qed.

(** X1 at work: Alice's coffee cannot be deleted by a caller without a cookie. *)
Lemma protected_views_need_login_witness :
  anonymous (mkworld (db Demo.w_coffee) None [])
  /\ handle (App.delete_expense 1 (Demo.get [])) (mkworld (db Demo.w_coffee) None [])
     = (Redirect (url_for "login" []),
        mkworld (db Demo.w_coffee) None [login_message]).
Proof.
  split; [reflexivity|].
  pose proof (protected_views_need_login (mkworld (db Demo.w_coffee) None [])
                (Demo.get []) 1 eq_refl) as H.
  apply Forall_cons_1 in H as [_ H]. apply Forall_cons_1 in H as [_ H].
  apply Forall_cons_1 in H as [_ H]. apply Forall_cons_1 in H as [H _]. exact H.
Defined.

(** X2. EditExpense and DeleteExpense of a key no row has leave the world
    exactly as it was, for any request of a logged-in caller: nothing is
    flashed and nothing is read from the form.  The answer is 404 for a
    key that is a SQLite integer, and 500 for a key that is not (from
    2^63 on): the lookup cannot be made, and the error is not caught. *)
Theorem missing_expense_not_found (w : world) (cu : User.t) (k : Z) (req : request) :
  logged_in w cu ->
  find_expense (expense_table (db w)) k = None ->
  (- 2 ^ 63 <= k < 2 ^ 63 ->
   handle (App.edit_expense k req) w = (ErrorPage 404, w)
   /\ handle (App.delete_expense k req) w = (ErrorPage 404, w))
  /\ (k < - 2 ^ 63 \/ 2 ^ 63 <= k ->
      handle (App.edit_expense k req) w = (ErrorPage 500, w)
      /\ handle (App.delete_expense k req) w = (ErrorPage 500, w)).
Proof.
  intros Hin Hnone.
  assert (handle (App.edit_expense k req) w
          = (ErrorPage (if sqlite_int k then 404 else 500), w)) as Hedit.
  { unfold App.edit_expense. rewrite (handle_login_required _ w cu Hin).
    apply (handle_missing w k _ Hnone). }
  assert (handle (App.delete_expense k req) w
          = (ErrorPage (if sqlite_int k then 404 else 500), w)) as Hdelete.
  { unfold App.delete_expense. rewrite (handle_login_required _ w cu Hin).
    apply (handle_missing w k _ Hnone). }
  rewrite Hedit, Hdelete. unfold sqlite_int. split; intros Hk.
  - replace ((- 2 ^ 63 <=? k) && (k <? 2 ^ 63)) with true
      by (symmetry; apply andb_true_iff; lia).
    split; reflexivity.
  - replace ((- 2 ^ 63 <=? k) && (k <? 2 ^ 63)) with false
      by (symmetry; apply andb_false_iff; lia).
    split; reflexivity.
Qed.

(** X2 at work: Alice has no expense 7, and none of key 2^63. *)
Lemma missing_expense_not_found_witness :
  handle (App.edit_expense 7 (Demo.post (Demo.expense_form "Tea" "2" "2024-02-01" "Food")))
    Demo.w_coffee
  = (ErrorPage 404, Demo.w_coffee)
  /\ handle (App.delete_expense (2 ^ 63) (Demo.get [])) Demo.w_coffee
     = (ErrorPage 500, Demo.w_coffee).
Proof.
  split.
  - apply (proj1 (missing_expense_not_found Demo.w_coffee Demo.alice 7
                    (Demo.post (Demo.expense_form "Tea" "2" "2024-02-01" "Food"))
                    ltac:(vm_compute; reflexivity) ltac:(vm_compute; reflexivity))).
    lia.
  - apply (proj2 (missing_expense_not_found Demo.w_coffee Demo.alice (2 ^ 63) (Demo.get [])
                    ltac:(vm_compute; reflexivity) ltac:(vm_compute; reflexivity))).
    lia.
Defined.

(** ** DeleteExpense by the owner *)

Lemma find_expense_filter_out (tbl : list Expense.t) (k : Z) :
  find_expense (List.filter (fun row => negb (Expense.id row =? k)) tbl) k = None.
Proof.
  unfold find_expense.
  destruct (List.find _ (List.filter _ tbl)) as [e|] eqn:Hf; [|reflexivity].
  apply find_some in Hf as [Hin Hid]. apply filter_In in Hin as [_ Hne].
  rewrite Hid in Hne. discriminate Hne.
Qed.

(** X3. DeleteExpense by the owner removes the rows of that key and no
    other, keeps the order of the rest, and flashes the success; the key
    is then gone, so deleting it again changes nothing and answers 404
    (the key of a row is a SQLite integer; a key that is none would be
    answered with 500). *)
Theorem delete_expense_removes (w : world) (cu : User.t) (k : Z) (req req' : request)
    (e : Expense.t) :
  logged_in w cu ->
  find_expense (expense_table (db w)) k = Some e ->
  Expense.user_id e = User.id cu ->
  handle (App.delete_expense k req) w =
    (Redirect (url_for "expenses" []),
     with_expenses w (List.filter (fun row => negb (Expense.id row =? k)) (expense_table (db w)))
       [(Text "Expense deleted successfully!", "success")])
  /\ find_expense (expense_table (db (snd (handle (App.delete_expense k req) w)))) k = None
  /\ handle (App.delete_expense k req') (snd (handle (App.delete_expense k req) w))
     = (ErrorPage (if sqlite_int k then 404 else 500),
        snd (handle (App.delete_expense k req) w)).
Proof.
  intros Hin Hfind Hown.
  rewrite (delete_expense_owner w cu k req e Hin Hfind Hown). cbn [snd].
  split; [reflexivity|]. split; [apply find_expense_filter_out|].
  pose proof (logged_in_with_expenses w cu
                (List.filter (fun row => negb (Expense.id row =? k)) (expense_table (db w)))
                [(Text "Expense deleted successfully!", "success")] Hin) as Hin'.
  unfold App.delete_expense. rewrite (handle_login_required _ _ cu Hin').
  apply handle_missing, find_expense_filter_out.
Qed.

(** X3 at work: Alice deletes her coffee, twice. *)
Lemma delete_expense_removes_witness :
  expense_table (db (Demo.next (App.delete_expense 1 (Demo.get [])) Demo.w_coffee)) = []
  /\ fst (handle (App.delete_expense 1 (Demo.get []))
            (Demo.next (App.delete_expense 1 (Demo.get [])) Demo.w_coffee))
     = ErrorPage 404.
Proof.
  destruct (delete_expense_removes Demo.w_coffee Demo.alice 1 (Demo.get []) (Demo.get [])
              (Expense.mk 1 "Coffee" 3.5 (Py.mkdate 2024 1 15) "Food" 1)
              ltac:(vm_compute; reflexivity) ltac:(vm_compute; reflexivity) eq_refl)
    as (Hrun & _ & Hagain).
  split.
  - unfold Demo.next. rewrite Hrun. reflexivity.
  - unfold Demo.next. rewrite Hagain. reflexivity.
Defined.

Lemma find_expense_snoc (tbl : list Expense.t) (new : Expense.t) (k : Z) :
  (forall e, In e tbl -> Expense.id e <> k) -> Expense.id new = k ->
  find_expense (tbl ++ [new]) k = Some new.
Proof.
  intros Hne Hid. unfold find_expense. induction tbl as [|row tbl IH]; simpl.
  - rewrite Hid, Z.eqb_refl. reflexivity.
  - destruct (Z.eqb_spec (Expense.id row) k) as [Heq|_].
    + exfalso. apply (Hne row); [left; reflexivity|exact Heq].
    + apply IH. intros e He. apply Hne. right. exact He.
Qed.

Lemma filter_out_fresh (tbl : list Expense.t) (k : Z) :
  (forall e, In e tbl -> Expense.id e <> k) ->
  List.filter (fun row => negb (Expense.id row =? k)) tbl = tbl.
Proof.
  intros Hne. induction tbl as [|row tbl IH]; simpl; [reflexivity|].
  destruct (Z.eqb_spec (Expense.id row) k) as [Heq|_].
  - exfalso. apply (Hne row); [left; reflexivity|exact Heq].
  - simpl. rewrite IH; [reflexivity|]. intros e He. apply Hne. right. exact He.
Qed.

Lemma next_id_unused (tbl : list Expense.t) (e : Expense.t) :
  In e tbl -> Expense.id e <> next_id tbl.
Proof. intros He. apply next_id_above in He. lia. Qed.

(** X4. AddExpense followed by DeleteExpense of the new key gives back the
    expense table as it was before the two requests, row for row. *)
Theorem add_then_delete_restores (w : world) (cu : User.t) (req req' : request)
    (d sa sd c : string) (a : float) (dt : Py.date) :
  logged_in w cu ->
  method req = POST ->
  multidict_get (form req) "description" = Some d ->
  multidict_get (form req) "amount" = Some sa ->
  multidict_get (form req) "date" = Some sd ->
  multidict_get (form req) "category" = Some c ->
  parses_number sa a ->
  Py.strptime sd = Ok dt ->
  expense_table
    (db (snd (handle (App.delete_expense (next_id (expense_table (db w))) req')
                (snd (handle (App.add_expense req) w)))))
  = expense_table (db w).
Proof.
  intros Hin Hm Hd Ha Hsd Hc [Hfa Hnan] Hdt.
  rewrite (add_expense_post w cu req d sa sd c Hin Hm Hd Ha Hsd Hc), Hdt, Hfa, Hnan.
  cbv zeta. cbn [snd].
  set (new := Expense.mk (next_id (expense_table (db w))) d a dt c (User.id cu)).
  set (msgs := [(Text "Expense added successfully!", "success")]).
  pose proof (logged_in_with_expenses w cu (expense_table (db w) ++ [new]) msgs Hin) as Hin'.
  rewrite (delete_expense_owner _ cu (next_id (expense_table (db w))) req' new Hin').
  - cbn [snd with_expenses db expense_table]. rewrite List.filter_app.
    rewrite filter_out_fresh by apply next_id_unused.
    cbn [List.filter new Expense.id]. rewrite Z.eqb_refl. cbn [negb]. apply app_nil_r.
  - cbn [with_expenses db expense_table].
    apply find_expense_snoc; [apply next_id_unused|reflexivity].
  - reflexivity.
Qed.

(** X4 at work: Alice adds a tea to her coffee and deletes it again. *)
Lemma add_then_delete_restores_witness :
  expense_table
    (db (Demo.next (App.delete_expense 2 (Demo.get []))
           (Demo.next (App.add_expense (Demo.post (Demo.expense_form "Tea" "2.25" "2024-02-01" "Food")))
              Demo.w_coffee)))
  = expense_table (db Demo.w_coffee).
Proof.
  refine (add_then_delete_restores Demo.w_coffee Demo.alice
            (Demo.post (Demo.expense_form "Tea" "2.25" "2024-02-01" "Food")) (Demo.get [])
            "Tea" "2.25" "2024-02-01" "Food" 2.25%float (Py.mkdate 2024 2 1)
            _ _ _ _ _ _ _ _); try split; vm_compute; reflexivity.
Defined.


(** ** Requests that miss a field or carry a bad amount *)

Lemma in_expense_fields (key : string) :
  In key expense_fields ->
  key = "description" \/ key = "amount" \/ key = "date" \/ key = "category".
Proof. unfold expense_fields. simpl. intuition. Qed.

(** [float] raises nothing but its ValueError. *)
Lemma float_new_raises (s : string) (err : exn) :
  Py.float_new s = Raise err -> err = ValueError "could not convert string to float".
Proof.
  unfold Py.float_new.
  destruct (Py.drop_underscores " " (Py.strip s)) as [t|]; [|intros [= <-]; reflexivity].
  destruct (match Py.parse_decimal t with Some r => Some r | None => Py.parse_inf_or_nan t end)
    as [[x [|ch rest]]|]; [discriminate|intros [= <-]; reflexivity..].
Qed.

(** X5. A POST to /add whose form lacks one of the four fields is answered
    with 400 and leaves the world exactly as it was, whatever the other
    fields hold.  The same POST to /edit by the owner also leaves the world
    as it was; it is answered with 400, or with 500 when the missing field
    is the date or the category and the amount, which is read before
    them, is there and does not convert. *)
Theorem missing_field_bad_request (w : world) (cu : User.t) (req : request) (key : string) :
  logged_in w cu ->
  method req = POST ->
  In key expense_fields ->
  multidict_get (form req) key = None ->
  handle (App.add_expense req) w = (ErrorPage 400, w)
  /\ forall k e,
       find_expense (expense_table (db w)) k = Some e ->
       Expense.user_id e = User.id cu ->
       exists code,
         handle (App.edit_expense k req) w = (ErrorPage code, w)
         /\ (code = 400
             \/ (code = 500
                 /\ (key = "date" \/ key = "category")
                 /\ exists sa err, multidict_get (form req) "amount" = Some sa
                                   /\ Py.float_new sa = Raise err)).
Proof.
  intros Hin Hm Hkey Hnone. split.
  - unfold App.add_expense. rewrite (handle_login_required _ w cu Hin).
    unfold handle. rewrite Hm.
    destruct (multidict_get (form req) "description") as [d|] eqn:Hd.
    2:{ rewrite bind_run. unfold form_get at 1. rewrite Hd. cbn. rewrite world_eta. reflexivity. }
    run_form Hd.
    destruct (multidict_get (form req) "amount") as [sa|] eqn:Ha.
    2:{ rewrite bind_run. unfold form_get at 1. rewrite Ha. cbn. rewrite world_eta. reflexivity. }
    run_form Ha.
    destruct (multidict_get (form req) "date") as [sd|] eqn:Hsd.
    2:{ rewrite bind_run. unfold form_get at 1. rewrite Hsd. cbn. rewrite world_eta. reflexivity. }
    run_form Hsd.
    destruct (multidict_get (form req) "category") as [c|] eqn:Hc.
    2:{ rewrite bind_run. unfold form_get at 1. rewrite Hc. cbn. rewrite world_eta. reflexivity. }
    exfalso. apply in_expense_fields in Hkey as [-> | [-> | [-> | ->]]]; congruence.
  - intros k e Hfind Hown.
    unfold App.edit_expense. rewrite (handle_login_required _ w cu Hin).
    unfold handle. fold (start w). rewrite (load_found w k e _ Hfind).
    rewrite Hown, Z.eqb_refl, Hm. cbn [negb].
    destruct (multidict_get (form req) "description") as [d|] eqn:Hd.
    2:{ exists 400. rewrite bind_run. unfold form_get at 1. rewrite Hd. cbn. rewrite world_eta.
        auto. }
    run_form Hd. run_setattr.
    destruct (multidict_get (form req) "amount") as [sa|] eqn:Ha.
    2:{ exists 400. rewrite bind_run. unfold form_get at 1. rewrite Ha. cbn. rewrite world_eta.
        auto. }
    run_form Ha.
    destruct (Py.float_new sa) as [a|err] eqn:Hfa.
    2:{ exists 500. run_lift. rewrite (float_new_raises sa err Hfa). cbn. rewrite world_eta.
        split; [reflexivity|]. right. split; [reflexivity|]. split; [|eauto].
        apply in_expense_fields in Hkey as [-> | [-> | [-> | ->]]]; [congruence..|auto|auto]. }
    run_lift. run_setattr.
    destruct (multidict_get (form req) "date") as [sd|] eqn:Hsd.
    2:{ exists 400. rewrite bind_run. unfold form_get at 1. rewrite Hsd. cbn. rewrite world_eta.
        auto. }
    run_form Hsd.
    destruct (multidict_get (form req) "category") as [c|] eqn:Hc.
    2:{ exists 400. rewrite bind_run. unfold form_get at 1. rewrite Hc. cbn. rewrite world_eta.
        auto. }
    exfalso. apply in_expense_fields in Hkey as [-> | [-> | [-> | ->]]]; congruence.
Qed.

(** X5 at work: Alice posts an expense without a category. *)
Lemma missing_field_bad_request_witness :
  handle (App.add_expense
            (Demo.post [("description", "Tea"); ("amount", "2"); ("date", "2024-02-01")]))
    Demo.w_coffee
  = (ErrorPage 400, Demo.w_coffee).
Proof.
  apply (proj1 (missing_field_bad_request Demo.w_coffee Demo.alice
                  (Demo.post [("description", "Tea"); ("amount", "2"); ("date", "2024-02-01")])
                  "category" ltac:(vm_compute; reflexivity) eq_refl
                  ltac:(vm_compute; tauto) eq_refl)).
Defined.

(** X6. The two forms treat an amount that does not convert differently.
    AddExpense converts it inside its [try]: the error is flashed and the
    browser sent back to the form.  EditExpense converts it before its
    [try]: the owner gets a 500 and no message.  Neither stores anything. *)
Theorem bad_amount_add_flashes_edit_fails (w : world) (cu : User.t) (req : request)
    (d sa sd c : string) (err : exn) :
  logged_in w cu ->
  method req = POST ->
  multidict_get (form req) "description" = Some d ->
  multidict_get (form req) "amount" = Some sa ->
  multidict_get (form req) "date" = Some sd ->
  multidict_get (form req) "category" = Some c ->
  Py.float_new sa = Raise err ->
  (exists err',
     handle (App.add_expense req) w
     = (Redirect (url_for "add_expense" []),
        with_flashes w [(TextExn "Error adding expense: " err', "danger")]))
  /\ forall k e,
       find_expense (expense_table (db w)) k = Some e ->
       Expense.user_id e = User.id cu ->
       handle (App.edit_expense k req) w = (ErrorPage 500, w).
Proof.
  intros Hin Hm Hd Ha Hsd Hc Hfa. split.
  - rewrite (add_expense_post w cu req d sa sd c Hin Hm Hd Ha Hsd Hc), Hfa. cbv zeta.
    destruct (Py.strptime sd); eauto.
  - intros k e Hfind Hown.
    rewrite (edit_expense_post w cu k req e d sa sd c Hin Hfind Hown Hm Hd Ha Hsd Hc), Hfa.
    rewrite (float_new_raises sa err Hfa). reflexivity.
Qed.

(** X6 at work: Alice types [two] for the amount of her coffee. *)
Lemma bad_amount_add_flashes_edit_fails_witness :
  handle (App.edit_expense 1 (Demo.post (Demo.expense_form "Coffee" "two" "2024-01-15" "Food")))
    Demo.w_coffee
  = (ErrorPage 500, Demo.w_coffee).
Proof.
  refine (proj2 (bad_amount_add_flashes_edit_fails Demo.w_coffee Demo.alice
                   (Demo.post (Demo.expense_form "Coffee" "two" "2024-01-15" "Food"))
                   "Coffee" "two" "2024-01-15" "Food"
                   (ValueError "could not convert string to float") _ _ _ _ _ _ _)
            1 (Expense.mk 1 "Coffee" 3.5 (Py.mkdate 2024 1 15) "Food" 1) _ _);
    vm_compute; reflexivity.
Defined.


(** ** Registration, login and logout *)

Lemma commit_empty (d : database) (ck : option Z) (fl : list (message * string)) :
  commit (mkctx d empty_session ck fl) = (Ok tt, mkctx d empty_session ck fl).
Proof.
  unfold commit, written, flushed, empty_session.
  cbn [csess cdb pending_new pending_delete identity_map ccookie cflashes].
  rewrite map_to_list_empty. cbn [map List.filter app forallb insert_rows].
  rewrite delete_rows_nil, update_rows_empty. destruct d; reflexivity.
Qed.

Lemma user_by_name_none (d : database) (u : string) :
  App.user_by_name d u = None ->
  existsb (fun x => String.eqb (User.username x) u) (user_table d) = false.
Proof.
  unfold App.user_by_name. induction (user_table d) as [|x l IH]; simpl; [reflexivity|].
  destruct (String.eqb (User.username x) u); [discriminate|]. exact IH.
Qed.

Lemma user_by_name_none_iff (tbl : list User.t) (ck : list Expense.t) (u : string) :
  App.user_by_name (mkdb tbl ck) u = None <-> u ∉ map User.username tbl.
Proof.
  unfold App.user_by_name. cbn [user_table]. induction tbl as [|x l IH]; simpl.
  - split; [intros _; apply not_elem_of_nil|reflexivity].
  - rewrite not_elem_of_cons. destruct (String.eqb_spec (User.username x) u) as [Heq|Hne].
    + split; [discriminate|]. intros [Hne _]. congruence.
    + rewrite IH. split; [intros H; split; [congruence|exact H]|intros [_ H]; exact H].
Qed.

(** The whole of a POST to /register. *)
Lemma register_post (gen : string -> string) (w : world) (req : request) (u p : string) :
  method req = POST ->
  multidict_get (form req) "username" = Some u ->
  multidict_get (form req) "password" = Some p ->
  handle (Auth.register gen req) w =
  match App.user_by_name (db w) u with
  | Some _ =>
      (Redirect (url_for "register" []),
       with_flashes w [(Text "Username already exists!", "danger")])
  | None => (Redirect (url_for "login" []), registered w u (gen p))
  end.
Proof.
  intros Hm Hu Hp. unfold Auth.register, handle. rewrite Hm.
  run_form Hu. run_form Hp. rewrite bind_run. cbn [get_db cdb].
  destruct (App.user_by_name (db w) u) as [usr|] eqn:Hfind; [reflexivity|].
  rewrite bind_run. unfold Auth.add_user_commit. cbn [User.username User.password cdb].
  rewrite (user_by_name_none _ _ Hfind), commit_empty. reflexivity.
Qed.

Lemma next_user_id_above (tbl : list User.t) (u : User.t) :
  In u tbl -> User.id u < Auth.next_user_id tbl.
Proof.
  unfold Auth.next_user_id. induction tbl as [|x tbl IH]; simpl; [contradiction|].
  intros [<-|Hin]; [lia|]. specialize (IH Hin). lia.
Qed.

Lemma find_snoc_fresh {A} (f : A -> bool) (l : list A) (x : A) :
  (forall y, In y l -> f y = false) -> f x = true -> List.find f (l ++ [x]) = Some x.
Proof.
  intros Hl Hx. induction l as [|y l IH]; simpl.
  - rewrite Hx. reflexivity.
  - rewrite (Hl y (or_introl eq_refl)). apply IH. intros z Hz. apply Hl. right. exact Hz.
Qed.

Lemma user_by_name_not_in (d : database) (u : string) (y : User.t) :
  App.user_by_name d u = None -> In y (user_table d) -> String.eqb (User.username y) u = false.
Proof.
  unfold App.user_by_name. intros Hnone Hy.
  destruct (String.eqb (User.username y) u) eqn:Heq; [|reflexivity].
  pose proof (find_none _ _ Hnone y Hy) as H. cbv beta in H. congruence.
Qed.

Lemma user_by_name_registered (w : world) (u pwhash : string) :
  App.user_by_name (db w) u = None ->
  App.user_by_name (db (registered w u pwhash)) u
  = Some (User.mk (Auth.next_user_id (user_table (db w))) u pwhash).
Proof.
  intros Hfree. cbn [registered db]. unfold App.user_by_name. cbn [user_table].
  apply find_snoc_fresh.
  - intros y Hy. apply (user_by_name_not_in (db w) u y Hfree Hy).
  - cbn [User.username]. apply String.eqb_refl.
Qed.

(** X7. Register with a user name that is taken stores nothing: the answer
    is the redirect to the form with [Username already exists!], and the
    tables, the taken user's password hash among them, and the login
    cookie stay as they were. *)
Theorem register_taken_name_rejected (generate_password_hash : string -> string)
    (w : world) (req : request) (u p : string) (usr : User.t) :
  method req = POST ->
  multidict_get (form req) "username" = Some u ->
  multidict_get (form req) "password" = Some p ->
  App.user_by_name (db w) u = Some usr ->
  handle (Auth.register generate_password_hash req) w
  = (Redirect (url_for "register" []),
     with_flashes w [(Text "Username already exists!", "danger")])
  /\ App.user_by_name (db (snd (handle (Auth.register generate_password_hash req) w))) u
     = Some usr.
Proof.
  intros Hm Hu Hp Hfind.
  rewrite (register_post generate_password_hash w req u p Hm Hu Hp), Hfind.
  split; [reflexivity|exact Hfind].
Qed.

(** X7 at work: a second alice. *)
Lemma register_taken_name_rejected_witness :
  db (Demo.next (Auth.register (String.append "hash-of-")
                   (Demo.post [("username", "alice"); ("password", "secret")])) Demo.w0)
  = db Demo.w0.
Proof.
  unfold Demo.next.
  rewrite (proj1 (register_taken_name_rejected (String.append "hash-of-") Demo.w0
                    (Demo.post [("username", "alice"); ("password", "secret")])
                    "alice" "secret" Demo.alice eq_refl eq_refl eq_refl eq_refl)).
  reflexivity.
Defined.

(** X8. Register with a free user name appends exactly one user row: the
    name as given, the password as hashed by [generate_password_hash] and
    a key no user has; the users and expenses already stored are
    untouched, nobody is logged in by it, and the name now finds the new
    row. *)
Theorem register_creates_user (generate_password_hash : string -> string)
    (w : world) (req : request) (u p : string) :
  method req = POST ->
  multidict_get (form req) "username" = Some u ->
  multidict_get (form req) "password" = Some p ->
  App.user_by_name (db w) u = None ->
  handle (Auth.register generate_password_hash req) w
  = (Redirect (url_for "login" []),
     mkworld
       (mkdb (user_table (db w)
                ++ [User.mk (Auth.next_user_id (user_table (db w))) u
                      (generate_password_hash p)])
          (expense_table (db w)))
       (user_cookie w)
       (flashes w ++ [(Text "Registration successful! Please log in.", "success")]))
  /\ load_user (db w) (Auth.next_user_id (user_table (db w))) = None
  /\ App.user_by_name (db (snd (handle (Auth.register generate_password_hash req) w))) u
     = Some (User.mk (Auth.next_user_id (user_table (db w))) u (generate_password_hash p)).
Proof.
  intros Hm Hu Hp Hfree.
  rewrite (register_post generate_password_hash w req u p Hm Hu Hp), Hfree.
  split; [reflexivity|]. split.
  - unfold load_user. destruct (List.find _ (user_table (db w))) as [x|] eqn:Hf; [|reflexivity].
    apply find_some in Hf as [Hin Hid]. apply next_user_id_above in Hin. lia.
  - cbn [snd]. apply (user_by_name_registered w u _ Hfree).
Qed.

(** X8 at work: carol registers. *)
Lemma register_creates_user_witness :
  user_table (db (Demo.next (Auth.register (String.append "hash-of-")
                               (Demo.post [("username", "carol"); ("password", "secret")]))
                    Demo.w0))
  = [Demo.alice; Demo.bob; User.mk 3 "carol" "hash-of-secret"].
Proof.
  unfold Demo.next.
  rewrite (proj1 (register_creates_user (String.append "hash-of-") Demo.w0
                    (Demo.post [("username", "carol"); ("password", "secret")])
                    "carol" "secret" eq_refl eq_refl eq_refl eq_refl)).
  reflexivity.
Defined.


Lemma user_by_name_free (d : database) (u : string) :
  App.user_by_name d u = None -> u ∉ map User.username (user_table d).
Proof. destruct d as [tbl ex]. apply user_by_name_none_iff. Qed.

Lemma next_user_id_fresh (tbl : list User.t) : Auth.next_user_id tbl ∉ map User.id tbl.
Proof.
  intros Hin. apply list_elem_of_In, in_map_iff in Hin as (x & Hid & Hx).
  apply next_user_id_above in Hx. lia.
Qed.

Lemma NoDup_snoc {A} (l : list A) (x : A) : NoDup l -> x ∉ l -> NoDup (l ++ [x]).
Proof.
  intros Hl Hx. apply NoDup_app. split; [exact Hl|]. split; [|apply NoDup_singleton].
  intros y Hy Hy'. apply list_elem_of_singleton in Hy'. subst. contradiction.
Qed.

(** X9. Whatever is sent to /register, user names and user keys stay
    unique, the users already stored stay as they are and in place (at
    most one row is appended), and the expenses and the login cookie are
    not touched. *)
Theorem register_keeps_users (generate_password_hash : string -> string)
    (w : world) (req : request) :
  unique_usernames (user_table (db w)) ->
  unique_user_ids (user_table (db w)) ->
  unique_usernames (user_table (db (snd (handle (Auth.register generate_password_hash req) w))))
  /\ unique_user_ids (user_table (db (snd (handle (Auth.register generate_password_hash req) w))))
  /\ (exists added,
        user_table (db (snd (handle (Auth.register generate_password_hash req) w)))
        = user_table (db w) ++ added
        /\ (length added <= 1)%nat)
  /\ expense_table (db (snd (handle (Auth.register generate_password_hash req) w)))
     = expense_table (db w)
  /\ user_cookie (snd (handle (Auth.register generate_password_hash req) w)) = user_cookie w.
Proof.
  intros Hnames Hids.
  assert (forall w', db w' = db w -> user_cookie w' = user_cookie w ->
            unique_usernames (user_table (db w')) /\ unique_user_ids (user_table (db w'))
            /\ (exists added, user_table (db w') = user_table (db w) ++ added
                              /\ (length added <= 1)%nat)
            /\ expense_table (db w') = expense_table (db w) /\ user_cookie w' = user_cookie w)
    as Hsame.
  { intros w' Hdb Hck. rewrite Hdb. repeat split; try assumption.
    exists []. rewrite app_nil_r. split; [reflexivity|simpl; lia]. }
  destruct (method req) eqn:Hm.
  { apply Hsame; unfold Auth.register, handle; rewrite Hm; reflexivity. }
  destruct (multidict_get (form req) "username") as [u|] eqn:Hu.
  2:{ apply Hsame; unfold Auth.register, handle; rewrite Hm, bind_run; unfold form_get at 1;
        rewrite Hu; reflexivity. }
  destruct (multidict_get (form req) "password") as [p|] eqn:Hp.
  2:{ apply Hsame; unfold Auth.register, handle; rewrite Hm; run_form Hu;
        rewrite bind_run; unfold form_get at 1; rewrite Hp; reflexivity. }
  rewrite (register_post generate_password_hash w req u p Hm Hu Hp).
  destruct (App.user_by_name (db w) u) as [usr|] eqn:Hfind.
  { apply Hsame; reflexivity. }
  cbn [snd registered db user_table expense_table user_cookie].
  split; [|split; [|split; [|split; reflexivity]]].
  - unfold unique_usernames. rewrite map_app. cbn [map User.username].
    apply NoDup_snoc; [exact Hnames|apply user_by_name_free, Hfind].
  - unfold unique_user_ids. rewrite map_app. cbn [map User.id].
    apply NoDup_snoc; [exact Hids|apply next_user_id_fresh].
  - eexists. split; [reflexivity|]. simpl. lia.
Qed.

(** X9 at work: the sample users, and any registration. *)
Lemma register_keeps_users_witness :
  unique_usernames
    (user_table (db (Demo.next (Auth.register (String.append "hash-of-")
                                  (Demo.post [("username", "carol"); ("password", "secret")]))
                       Demo.w0))).
Proof.
  refine (proj1 (register_keeps_users (String.append "hash-of-") Demo.w0
                   (Demo.post [("username", "carol"); ("password", "secret")]) _ _)).
  - unfold unique_usernames. apply (bool_decide_unpack _). vm_compute. exact I.
  - unfold unique_user_ids. apply (bool_decide_unpack _). vm_compute. exact I.
Defined.

(** ** Login and logout *)

Lemma load_user_unique (d : database) (usr : User.t) :
  unique_user_ids (user_table d) -> In usr (user_table d) ->
  load_user d (User.id usr) = Some usr.
Proof.
  unfold unique_user_ids, load_user. induction (user_table d) as [|x l IH]; simpl.
  - intros _ [].
  - intros Hnd Hin. apply NoDup_cons in Hnd as [Hx Hnd].
    destruct (Z.eqb_spec (User.id x) (User.id usr)) as [Heq|Hne].
    + destruct Hin as [->|Hin]; [reflexivity|]. exfalso. apply Hx. rewrite Heq.
      apply list_elem_of_In, in_map, Hin.
    + destruct Hin as [->|Hin]; [congruence|]. apply IH; assumption.
Qed.

(** A POST to /login that goes through. *)
Lemma login_post_ok (check : string -> string -> bool) (w : world) (req : request)
    (u p : string) (usr : User.t) :
  method req = POST ->
  multidict_get (form req) "username" = Some u ->
  multidict_get (form req) "password" = Some p ->
  App.user_by_name (db w) u = Some usr ->
  check (User.password usr) p = true ->
  handle (App.login check req) w
  = (Redirect (url_for "expenses" []), mkworld (db w) (Some (User.id usr)) (flashes w)).
Proof.
  intros Hm Hu Hp Hfind Hcheck. unfold App.login, handle. rewrite Hm. run_form Hu. run_form Hp.
  rewrite bind_run. cbn [get_db cdb]. rewrite Hfind, Hcheck. reflexivity.
Qed.

(** X10. Login with the name of a stored user and a password its hash
    accepts sets the login cookie to that user's key and redirects to the
    expense list; the tables and the flashes stay as they were.  With
    unique user keys the caller of the next request is that user. *)
Theorem login_succeeds (check_password_hash : string -> string -> bool)
    (w : world) (req : request) (u p : string) (usr : User.t) :
  method req = POST ->
  multidict_get (form req) "username" = Some u ->
  multidict_get (form req) "password" = Some p ->
  App.user_by_name (db w) u = Some usr ->
  check_password_hash (User.password usr) p = true ->
  handle (App.login check_password_hash req) w
  = (Redirect (url_for "expenses" []), mkworld (db w) (Some (User.id usr)) (flashes w))
  /\ (unique_user_ids (user_table (db w)) ->
      logged_in (snd (handle (App.login check_password_hash req) w)) usr).
Proof.
  intros Hm Hu Hp Hfind Hcheck.
  pose proof (login_post_ok check_password_hash w req u p usr Hm Hu Hp Hfind Hcheck) as Hrun.
  split; [exact Hrun|]. intros Hids. rewrite Hrun. unfold logged_in. cbn.
  apply load_user_unique; [exact Hids|].
  unfold App.user_by_name in Hfind. apply find_some in Hfind as [Hin _]. exact Hin.
Qed.

(** X10 at work: bob logs in where alice was. *)
Lemma login_succeeds_witness :
  handle (App.login Demo.sample_check (Demo.post [("username", "bob"); ("password", "bob")]))
    Demo.w0
  = (Redirect (url_for "expenses" []), Demo.as_user 2 Demo.w0).
Proof.
  apply (proj1 (login_succeeds Demo.sample_check Demo.w0
                  (Demo.post [("username", "bob"); ("password", "bob")])
                  "bob" "bob" Demo.bob eq_refl eq_refl eq_refl eq_refl eq_refl)).
Defined.


(** X11. Register, then Login with the same name and password: when the
    password check accepts the hash made of that password, the login goes
    through and the caller of the next request is the new user, whatever
    users were there before. *)
Theorem register_then_login (generate_password_hash : string -> string)
    (check_password_hash : string -> string -> bool)
    (w : world) (req req' : request) (u p : string) :
  method req = POST ->
  multidict_get (form req) "username" = Some u ->
  multidict_get (form req) "password" = Some p ->
  App.user_by_name (db w) u = None ->
  method req' = POST ->
  multidict_get (form req') "username" = Some u ->
  multidict_get (form req') "password" = Some p ->
  check_password_hash (generate_password_hash p) p = true ->
  fst (handle (App.login check_password_hash req')
         (snd (handle (Auth.register generate_password_hash req) w)))
  = Redirect (url_for "expenses" [])
  /\ logged_in
       (snd (handle (App.login check_password_hash req')
               (snd (handle (Auth.register generate_password_hash req) w))))
       (User.mk (Auth.next_user_id (user_table (db w))) u (generate_password_hash p)).
Proof.
  intros Hm Hu Hp Hfree Hm' Hu' Hp' Hcheck.
  rewrite (register_post generate_password_hash w req u p Hm Hu Hp), Hfree. cbn [snd].
  set (new := User.mk (Auth.next_user_id (user_table (db w))) u (generate_password_hash p)).
  rewrite (login_post_ok check_password_hash _ req' u p new Hm' Hu' Hp'
             (user_by_name_registered w u _ Hfree) Hcheck).
  split; [reflexivity|].
  unfold logged_in. cbn [snd registered db user_cookie user_table].
  cbn [mbind option_bind]. unfold load_user. cbn [user_table].
  apply find_snoc_fresh.
  - intros y Hy. apply next_user_id_above in Hy. cbn [new User.id]. lia.
  - cbn [new User.id]. apply Z.eqb_refl.
Qed.

(** X11 at work: carol registers and logs in. *)
Lemma register_then_login_witness :
  logged_in
    (Demo.next (App.login Demo.sample_check
                  (Demo.post [("username", "carol"); ("password", "secret")]))
       (Demo.next (Auth.register (String.append "hash-of-")
                     (Demo.post [("username", "carol"); ("password", "secret")]))
          Demo.w0))
    (User.mk 3 "carol" "hash-of-secret").
Proof.
  refine (proj2 (register_then_login (String.append "hash-of-") Demo.sample_check Demo.w0
                   (Demo.post [("username", "carol"); ("password", "secret")])
                   (Demo.post [("username", "carol"); ("password", "secret")])
                   "carol" "secret" _ _ _ _ _ _ _ _)); vm_compute; reflexivity.
Defined.

(** X12. Logout by a logged-in caller clears the login cookie and nothing
    else but the flashes: the tables stay, the browser is sent to the
    homepage, which now shows the landing page, and every protected view
    is closed again. *)
Theorem logout_ends_session (w : world) (cu : User.t) (req req' : request) (k : Z) :
  logged_in w cu ->
  handle (Auth.logout req) w
  = (Redirect (url_for "home" []),
     mkworld (db w) None (flashes w ++ [(Text "You have been logged out.", "success")]))
  /\ anonymous (snd (handle (Auth.logout req) w))
  /\ fst (handle (Auth.home req') (snd (handle (Auth.logout req) w)))
     = Render "home.html" NoContext
  /\ Forall (fun view =>
               fst (handle view (snd (handle (Auth.logout req) w)))
               = Redirect (url_for "login" []))
       [App.expenses req'; App.add_expense req'; App.edit_expense k req';
        App.delete_expense k req'; App.dashboard req'; App.export req'; Auth.logout req'].
Proof.
  intros Hin.
  assert (handle (Auth.logout req) w
          = (Redirect (url_for "home" []),
             mkworld (db w) None (flashes w ++ [(Text "You have been logged out.", "success")])))
    as Hrun.
  { unfold Auth.logout. rewrite (handle_login_required _ w cu Hin). reflexivity. }
  rewrite Hrun. cbn [snd]. split; [reflexivity|]. split; [reflexivity|].
  split; [reflexivity|].
  repeat constructor; rewrite handle_login_required_anonymous; reflexivity.
Qed.

(** X12 at work: Alice logs out; her listing is closed. *)
Lemma logout_ends_session_witness :
  logged_in Demo.w_coffee Demo.alice
  /\ user_cookie (Demo.next (Auth.logout (Demo.get [])) Demo.w_coffee) = None
  /\ db (Demo.next (Auth.logout (Demo.get [])) Demo.w_coffee) = db Demo.w_coffee.
Proof.
  assert (logged_in Demo.w_coffee Demo.alice) as Hin by (vm_compute; reflexivity).
  split; [exact Hin|].
  unfold Demo.next.
  rewrite (proj1 (logout_ends_session Demo.w_coffee Demo.alice (Demo.get []) (Demo.get []) 1 Hin)).
  split; reflexivity.
Defined.


(** ** What a request can do to the expense table *)

Lemma caller_cases (w : world) : (exists cu, logged_in w cu) \/ anonymous w.
Proof.
  unfold logged_in, anonymous.
  destruct (user_cookie w ≫= load_user (db w)) as [cu|]; [left; exists cu|right]; reflexivity.
Qed.

Lemma steps_as_refl (uid : Z) (w : world) : steps_as uid w w.
Proof. repeat split. constructor. Qed.

Lemma steps_as_flashes (uid : Z) (w : world) (msgs : list (message * string)) :
  steps_as uid w (with_flashes w msgs).
Proof. repeat split. constructor. Qed.

Lemma steps_as_anonymous (uid : Z) (w : world) (view : User.t -> M response) :
  anonymous w -> steps_as uid w (snd (handle (login_required view) w)).
Proof.
  intros Hanon. rewrite (handle_login_required_anonymous view w Hanon).
  apply steps_as_flashes.
Qed.

(** A branch of a view that ends the request with the tables untouched. *)
Ltac no_step := repeat split; constructor.

Lemma add_expense_steps (w : world) (cu : User.t) (req : request) :
  logged_in w cu -> steps_as (User.id cu) w (snd (handle (App.add_expense req) w)).
Proof.
  intros Hin.
  destruct (method req) eqn:Hm.
  { unfold App.add_expense. rewrite (handle_login_required _ w cu Hin). unfold handle.
    rewrite Hm. no_step. }
  destruct (multidict_get (form req) "description") as [d|] eqn:Hd;
    [destruct (multidict_get (form req) "amount") as [sa|] eqn:Ha;
     [destruct (multidict_get (form req) "date") as [sd|] eqn:Hsd;
      [destruct (multidict_get (form req) "category") as [c|] eqn:Hc|]|]|].
  - rewrite (add_expense_post w cu req d sa sd c Hin Hm Hd Ha Hsd Hc). cbv zeta.
    destruct (Py.strptime sd) as [dt|err] eqn:Hdt; [|apply steps_as_flashes].
    destruct (Py.float_new sa) as [a|err]; [|apply steps_as_flashes].
    destruct (is_nan a) eqn:Hnan; [apply steps_as_flashes|].
    repeat split. cbn [snd with_expenses db expense_table].
    apply step_insert; [apply (strptime_valid sd dt Hdt)|exact Hnan].
  - unfold App.add_expense. rewrite (handle_login_required _ w cu Hin). unfold handle.
    rewrite Hm. run_form Hd. run_form Ha. run_form Hsd.
    rewrite bind_run. unfold form_get at 1. rewrite Hc. no_step.
  - unfold App.add_expense. rewrite (handle_login_required _ w cu Hin). unfold handle.
    rewrite Hm. run_form Hd. run_form Ha.
    rewrite bind_run. unfold form_get at 1. rewrite Hsd. no_step.
  - unfold App.add_expense. rewrite (handle_login_required _ w cu Hin). unfold handle.
    rewrite Hm. run_form Hd.
    rewrite bind_run. unfold form_get at 1. rewrite Ha. no_step.
  - unfold App.add_expense. rewrite (handle_login_required _ w cu Hin). unfold handle.
    rewrite Hm. rewrite bind_run. unfold form_get at 1. rewrite Hd. no_step.
Qed.

Lemma edit_expense_owner_steps (w : world) (cu : User.t) (k : Z) (req : request)
    (e : Expense.t) :
  logged_in w cu ->
  find_expense (expense_table (db w)) k = Some e ->
  Expense.user_id e = User.id cu ->
  steps_as (User.id cu) w (snd (handle (App.edit_expense k req) w)).
Proof.
  intros Hin Hfind Hown.
  unfold App.edit_expense. rewrite (handle_login_required _ w cu Hin).
  unfold handle. fold (start w). rewrite (load_found w k e _ Hfind).
  rewrite Hown, Z.eqb_refl. cbn [negb].
  destruct (method req).
  { rewrite bind_run. unfold deref. rewrite bind_run.
    cbn [get_session loaded csess identity_map]. rewrite lookup_singleton_eq. no_step. }
  destruct (multidict_get (form req) "description") as [d|] eqn:Hd.
  2:{ rewrite bind_run. unfold form_get at 1. rewrite Hd. no_step. }
  run_form Hd. run_setattr.
  destruct (multidict_get (form req) "amount") as [sa|] eqn:Ha.
  2:{ rewrite bind_run. unfold form_get at 1. rewrite Ha. no_step. }
  run_form Ha.
  destruct (Py.float_new sa) as [a|err] eqn:Hfa.
  2:{ run_lift. no_step. }
  run_lift. run_setattr.
  destruct (multidict_get (form req) "date") as [sd|] eqn:Hsd.
  2:{ rewrite bind_run. unfold form_get at 1. rewrite Hsd. no_step. }
  run_form Hsd.
  destruct (multidict_get (form req) "category") as [c|] eqn:Hc.
  2:{ rewrite bind_run. unfold form_get at 1. rewrite Hc. no_step. }
  run_form Hc. run_setattr.
  unfold try_except.
  destruct (Py.strptime sd) as [dt|err] eqn:Hdt.
  2:{ run_lift. no_step. }
  run_lift. run_setattr.
  cbn [loaded cdb csess ccookie cflashes identity_map pending_new pending_delete].
  rewrite !alter_singleton_eq, bind_run, commit_dirty.
  unfold not_null. cbn [Expense.set_date Expense.set_category
    Expense.set_amount Expense.set_description Expense.amount Expense.id Expense.user_id
    Expense.description Expense.date Expense.category].
  destruct (is_nan a) eqn:Hnan; cbn [negb]; [no_step|].
  change (Expense.set_date dt
            (Expense.set_category c (Expense.set_amount a (Expense.set_description d e))))
    with (Expense.mk (Expense.id e) d a dt c (Expense.user_id e)).
  rewrite (find_expense_id _ k e Hfind), Hown.
  repeat split.
  apply (step_update _ _ k e); [exact Hfind|exact Hown|apply (strptime_valid sd dt Hdt)|exact Hnan].
Qed.

(** EditExpense, DeleteExpense and AddExpense, whoever calls and whatever
    is sent: the users and the login cookie stay, and the expense table
    takes one step of the caller. *)
Lemma expense_views_step (w : world) (cu : User.t) (req : request) (k : Z) :
  logged_in w cu ->
  Forall (fun view => steps_as (User.id cu) w (snd (handle view w)))
    [App.add_expense req; App.edit_expense k req; App.delete_expense k req].
Proof.
  intros Hin. constructor; [|constructor; [|constructor; [|constructor]]].
  - apply (add_expense_steps w cu req Hin).
  - destruct (find_expense (expense_table (db w)) k) as [e|] eqn:Hfind.
    + destruct (Z.eq_dec (Expense.user_id e) (User.id cu)) as [Hown|Hother].
      * apply (edit_expense_owner_steps w cu k req e Hin Hfind Hown).
      * rewrite (edit_expense_not_owner w cu k req e Hin Hfind Hother).
        apply steps_as_flashes.
    + unfold App.edit_expense. rewrite (handle_login_required _ w cu Hin).
      unfold handle. fold (start w). rewrite (load_missing w k _ Hfind).
      no_step.
  - destruct (find_expense (expense_table (db w)) k) as [e|] eqn:Hfind.
    + destruct (Z.eq_dec (Expense.user_id e) (User.id cu)) as [Hown|Hother].
      * rewrite (delete_expense_owner w cu k req e Hin Hfind Hown).
        repeat split. cbn [snd with_expenses db expense_table].
        apply (step_delete _ _ k e Hfind Hown).
      * rewrite (delete_expense_not_owner w cu k req e Hin Hfind Hother).
        apply steps_as_flashes.
    + unfold App.delete_expense. rewrite (handle_login_required _ w cu Hin).
      unfold handle. fold (start w). rewrite (load_missing w k _ Hfind).
      no_step.
Qed.

(** ** Views that do not write *)

Lemma home_run (w : world) (req : request) :
  handle (Auth.home req) w
  = (match user_cookie w ≫= load_user (db w) with
     | Some _ => Redirect (url_for "expenses" [])
     | None => Render "home.html" NoContext
     end, w).
Proof.
  unfold Auth.home, handle. rewrite bind_run. unfold current_user.
  cbn [cdb ccookie]. destruct (user_cookie w ≫= load_user (db w)); cbn; rewrite world_eta;
    reflexivity.
Qed.

(** /dashboard shows a function of the caller's own rows. *)
Lemma dashboard_of_rows :
  exists page : list Expense.t -> response,
    forall (w : world) (cu : User.t) (req : request),
      logged_in w cu ->
      handle (App.dashboard req) w = (page (owned (User.id cu) (expense_table (db w))), w).
Proof.
  exists (fun rows =>
            Render "dashboard.html"
              (CtxDashboard
                 (map fst (App.group_by_sum Expense.category rows))
                 (map snd (App.group_by_sum Expense.category rows))
                 (map (fun i => default EmptyString (App.month_abbr !! Z.to_nat i))
                    App.range_1_13)
                 (map (fun i =>
                         default (PyInt 0)
                           (App.monthly_dict_of
                              (App.group_by_sum (fun e => Py.strftime_m (Expense.date e)) rows)
                            !! i))
                    App.range_1_13))).
  intros w cu req Hin. unfold App.dashboard. rewrite (handle_login_required _ w cu Hin).
  unfold handle, all. rewrite !bind_run. cbn [get_db cdb csess ccookie cflashes mret M_ret].
  fold (owned (User.id cu) (expense_table (db w))). rewrite world_eta.
  reflexivity.
Qed.

(** The views that read, whoever calls: the tables stay as they were. *)
Lemma reading_views_keep_db (check : string -> string -> bool) (w : world) (req : request) :
  Forall (fun view => db (snd (handle view w)) = db w)
    [Auth.home req; App.login check req; Auth.logout req;
     App.expenses req; App.dashboard req; App.export req].
Proof.
  destruct dashboard_of_rows as [page Hpage].
  constructor; [|constructor; [|constructor; [|constructor; [|constructor;
    [|constructor; [|constructor]]]]]].
  - rewrite home_run. reflexivity.
  - unfold App.login, handle. destruct (method req); [reflexivity|].
    destruct (multidict_get (form req) "username") as [u|] eqn:Hu.
    2:{ rewrite bind_run. unfold form_get at 1. rewrite Hu. reflexivity. }
    run_form Hu.
    destruct (multidict_get (form req) "password") as [p|] eqn:Hp.
    2:{ rewrite bind_run. unfold form_get at 1. rewrite Hp. reflexivity. }
    run_form Hp. rewrite bind_run. cbn [get_db cdb].
    destruct (App.user_by_name (db w) u) as [usr|]; [|reflexivity].
    destruct (check (User.password usr) p); reflexivity.
  - destruct (caller_cases w) as [[cu Hin]|Hanon].
    + unfold Auth.logout. rewrite (handle_login_required _ w cu Hin). reflexivity.
    + unfold Auth.logout. rewrite (handle_login_required_anonymous _ w Hanon). reflexivity.
  - destruct (caller_cases w) as [[cu Hin]|Hanon].
    + rewrite (expenses_run w cu req Hin). reflexivity.
    + unfold App.expenses. rewrite (handle_login_required_anonymous _ w Hanon). reflexivity.
  - destruct (caller_cases w) as [[cu Hin]|Hanon].
    + rewrite (Hpage w cu req Hin). reflexivity.
    + unfold App.dashboard. rewrite (handle_login_required_anonymous _ w Hanon). reflexivity.
  - destruct (caller_cases w) as [[cu Hin]|Hanon].
    + rewrite (export_run w cu req Hin). reflexivity.
    + unfold App.export. rewrite (handle_login_required_anonymous _ w Hanon). reflexivity.
Qed.

Lemma register_keeps_expenses (gen : string -> string) (w : world) (req : request) :
  expense_table (db (snd (handle (Auth.register gen req) w))) = expense_table (db w)
  /\ (method req = GET -> db (snd (handle (Auth.register gen req) w)) = db w).
Proof.
  destruct (method req) eqn:Hm.
  { unfold Auth.register, handle; rewrite Hm. split; reflexivity. }
  split; [|discriminate].
  destruct (multidict_get (form req) "username") as [u|] eqn:Hu.
  2:{ unfold Auth.register, handle; rewrite Hm, bind_run; unfold form_get at 1;
        rewrite Hu; reflexivity. }
  destruct (multidict_get (form req) "password") as [p|] eqn:Hp.
  2:{ unfold Auth.register, handle; rewrite Hm; run_form Hu;
        rewrite bind_run; unfold form_get at 1; rewrite Hp; reflexivity. }
  rewrite (register_post gen w req u p Hm Hu Hp).
  destruct (App.user_by_name (db w) u); reflexivity.
Qed.

(** Every route, whoever calls and whatever is sent, does to the expense
    table what the caller may do. *)
Lemma routes_table_step (gen : string -> string) (check : string -> string -> bool)
    (w : world) (req : request) (k : Z) (uid : Z) :
  (forall cu, logged_in w cu -> uid = User.id cu) ->
  Forall (fun view =>
            table_step uid (expense_table (db w)) (expense_table (db (snd (handle view w)))))
    (routes gen check req k).
Proof.
  intros Huid.
  pose proof (reading_views_keep_db check w req) as Hread.
  rewrite !Forall_cons in Hread.
  destruct Hread as (Hhome & Hlogin & Hlogout & Hexpenses & Hdashboard & Hexport & _).
  assert (Forall (fun view =>
                    table_step uid (expense_table (db w))
                      (expense_table (db (snd (handle view w)))))
            [App.add_expense req; App.edit_expense k req; App.delete_expense k req])
    as Hwrite.
  { destruct (caller_cases w) as [[cu Hin]|Hanon].
    - rewrite (Huid cu Hin). eapply List.Forall_impl; [|apply (expense_views_step w cu req k Hin)].
      intros view (_ & _ & Hstep). exact Hstep.
    - repeat constructor;
        refine (proj2 (proj2 (steps_as_anonymous uid w _ Hanon))). }
  rewrite !Forall_cons in Hwrite. destruct Hwrite as (Hadd & Hedit & Hdelete & _).
  unfold routes.
  repeat (apply List.Forall_cons); try apply List.Forall_nil; try assumption.
  - rewrite Hhome. constructor.
  - rewrite (proj1 (register_keeps_expenses gen w req)). constructor.
  - rewrite Hlogin. constructor.
  - rewrite Hlogout. constructor.
  - rewrite Hexpenses. constructor.
  - rewrite Hdashboard. constructor.
  - rewrite Hexport. constructor.
Qed.

(** ** What every request keeps *)

Lemma map_id_replace_row (k : Z) (e' : Expense.t) (tbl : list Expense.t) :
  Expense.id e' = k -> map Expense.id (replace_row k e' tbl) = map Expense.id tbl.
Proof.
  intros Hid. unfold replace_row. rewrite map_map. apply map_ext. intros row.
  destruct (Z.eqb_spec (Expense.id row) k); congruence.
Qed.

Lemma next_id_not_in (tbl : list Expense.t) : next_id tbl ∉ map Expense.id tbl.
Proof.
  intros Hin. apply list_elem_of_In, in_map_iff in Hin as (e & Heq & He).
  pose proof (next_id_above tbl e He). lia.
Qed.

Lemma unique_ids_filter (f : Expense.t -> bool) (tbl : list Expense.t) :
  unique_ids tbl -> unique_ids (List.filter f tbl).
Proof.
  unfold unique_ids. induction tbl as [|row tbl IH]; cbn [List.filter map]; [auto|].
  intros Hnd. apply NoDup_cons in Hnd as [Hrow Hnd]. destruct (f row); [|auto].
  cbn [map]. apply NoDup_cons. split; [|auto].
  intros Hin. apply Hrow. apply list_elem_of_In, in_map_iff in Hin as (e & Heq & He).
  apply filter_In in He as [He _]. rewrite <- Heq. apply list_elem_of_In, in_map, He.
Qed.

Lemma table_step_unique_ids (uid : Z) (tbl tbl' : list Expense.t) :
  table_step uid tbl tbl' -> unique_ids tbl -> unique_ids tbl'.
Proof.
  intros Hstep Hnd. destruct Hstep as [|d a dt c _ _|k e d a dt c _ _ _ _|k e _ _].
  - exact Hnd.
  - unfold unique_ids. rewrite map_app. cbn [map Expense.id].
    apply NoDup_snoc; [exact Hnd|apply next_id_not_in].
  - unfold unique_ids. rewrite map_id_replace_row; [exact Hnd|reflexivity].
  - apply unique_ids_filter, Hnd.
Qed.

Lemma table_step_well_formed (uid : Z) (tbl tbl' : list Expense.t) :
  table_step uid tbl tbl' ->
  dates_valid tbl /\ amounts_stored tbl -> dates_valid tbl' /\ amounts_stored tbl'.
Proof.
  intros Hstep [Hdates Hamounts].
  destruct Hstep as [|d a dt c Hdt Ha|k e d a dt c _ _ Hdt Ha|k e _ _].
  - split; assumption.
  - unfold dates_valid, amounts_stored. rewrite !Forall_app.
    split; (split; [assumption|]); (apply List.Forall_cons; [assumption|apply List.Forall_nil]).
  - split.
    + apply dates_valid_replace_row; assumption.
    + unfold amounts_stored, replace_row. apply List.Forall_map.
      eapply List.Forall_impl; [|exact Hamounts]. intros row Hrow. cbv beta.
      destruct (Expense.id row =? k); assumption.
  - unfold dates_valid, amounts_stored.
    split; apply List.Forall_forall; intros row Hrow; apply filter_In in Hrow as [Hrow _].
    + exact (proj1 (List.Forall_forall _ _) Hdates row Hrow).
    + exact (proj1 (List.Forall_forall _ _) Hamounts row Hrow).
Qed.

(** With unique keys, the row a key finds is the only row of that key. *)
Lemma unique_ids_find (tbl : list Expense.t) (k : Z) (e row : Expense.t) :
  unique_ids tbl -> find_expense tbl k = Some e -> In row tbl -> Expense.id row = k ->
  row = e.
Proof.
  unfold unique_ids, find_expense. induction tbl as [|x tbl IH]; cbn [map find]; [intros _ [=]|].
  intros Hnd Hfind Hin Hid. apply NoDup_cons in Hnd as [Hx Hnd].
  destruct (Z.eqb_spec (Expense.id x) k) as [Hxk|Hxk].
  - injection Hfind as <-. destruct Hin as [Heq|Hin]; [symmetry; exact Heq|].
    exfalso. apply Hx. rewrite Hxk, <- Hid. apply list_elem_of_In, in_map, Hin.
  - destruct Hin as [<-|Hin]; [contradiction|]. apply IH; assumption.
Qed.

Lemma table_step_others (uid uid' : Z) (tbl tbl' : list Expense.t) :
  table_step uid tbl tbl' -> unique_ids tbl -> uid' <> uid ->
  owned uid' tbl' = owned uid' tbl.
Proof.
  intros Hstep Hnd Hne. unfold owned, filter_by_user_id.
  destruct Hstep as [|d a dt c _ _|k e d a dt c Hfind Hown _ _|k e Hfind Hown].
  - reflexivity.
  - rewrite List.filter_app. cbn [List.filter Expense.user_id].
    destruct (Z.eqb_spec uid uid'); [congruence|]. apply app_nil_r.
  - pose proof (fun row => unique_ids_find tbl k e row Hnd Hfind) as Hsame. clear Hfind Hnd.
    unfold replace_row. induction tbl as [|row tbl IH]; cbn [map List.filter]; [reflexivity|].
    rewrite IH by (intros r Hr; apply Hsame; right; exact Hr).
    destruct (Z.eqb_spec (Expense.id row) k) as [Hk|_]; [|reflexivity].
    rewrite (Hsame row (or_introl eq_refl) Hk), Hown. cbn [Expense.user_id].
    destruct (Z.eqb_spec uid uid'); [congruence|]. reflexivity.
  - pose proof (fun row => unique_ids_find tbl k e row Hnd Hfind) as Hsame. clear Hfind Hnd.
    induction tbl as [|row tbl IH]; cbn [List.filter]; [reflexivity|].
    specialize (IH (fun r Hr => Hsame r (or_intror Hr))).
    destruct (Z.eqb_spec (Expense.id row) k) as [Hk|_]; cbn [negb List.filter].
    + rewrite IH, (Hsame row (or_introl eq_refl) Hk), Hown.
      destruct (Z.eqb_spec uid uid'); [congruence|]. reflexivity.
    + rewrite IH. reflexivity.
Qed.

(** X13. Primary keys stay unique: when no two expense rows share a key,
    no route of the application, whoever calls it and whatever is sent,
    leaves a table where two do. *)
Theorem every_route_keeps_keys_unique (generate_password_hash : string -> string)
    (check_password_hash : string -> string -> bool) (w : world) (req : request) (k : Z) :
  unique_ids (expense_table (db w)) ->
  Forall (fun view => unique_ids (expense_table (db (snd (handle view w)))))
    (routes generate_password_hash check_password_hash req k).
Proof.
  intros Hnd.
  destruct (caller_cases w) as [[cu Hin]|Hanon].
  - eapply List.Forall_impl;
      [|apply (routes_table_step generate_password_hash check_password_hash w req k
                 (User.id cu))].
    + intros view Hstep. exact (table_step_unique_ids _ _ _ Hstep Hnd).
    + intros cu' Hin'. unfold logged_in in Hin, Hin'. congruence.
  - eapply List.Forall_impl;
      [|apply (routes_table_step generate_password_hash check_password_hash w req k 0)].
    + intros view Hstep. exact (table_step_unique_ids _ _ _ Hstep Hnd).
    + intros cu' Hin'. unfold logged_in in Hin'. unfold anonymous in Hanon. congruence.
Qed.

(** X13 at work: a second coffee gets a key of its own. *)
Lemma every_route_keeps_keys_unique_witness :
  unique_ids (expense_table (db Demo.w_coffee))
  /\ unique_ids (expense_table (db (Demo.next (App.add_expense Demo.coffee) Demo.w_coffee))).
Proof.
  assert (unique_ids (expense_table (db Demo.w_coffee))) as Hnd.
  { unfold unique_ids. apply (bool_decide_unpack _). vm_compute. exact I. }
  split; [exact Hnd|].
  pose proof (every_route_keeps_keys_unique (String.append "hash-of-") Demo.sample_check
                Demo.w_coffee Demo.coffee 1 Hnd) as Hall.
  apply (proj1 (List.Forall_forall _ _) Hall (App.add_expense Demo.coffee)).
  unfold routes. simpl. tauto.
Defined.

(** X14. Stored rows stay well formed: when every stored date is a
    calendar date and every stored amount is a number (no NaN), the same
    holds after any route, whoever calls it and whatever is sent. *)
Theorem every_route_keeps_rows_well_formed (generate_password_hash : string -> string)
    (check_password_hash : string -> string -> bool) (w : world) (req : request) (k : Z) :
  dates_valid (expense_table (db w)) ->
  amounts_stored (expense_table (db w)) ->
  Forall (fun view =>
            dates_valid (expense_table (db (snd (handle view w))))
            /\ amounts_stored (expense_table (db (snd (handle view w)))))
    (routes generate_password_hash check_password_hash req k).
Proof.
  intros Hdates Hamounts.
  destruct (caller_cases w) as [[cu Hin]|Hanon].
  - eapply List.Forall_impl;
      [|apply (routes_table_step generate_password_hash check_password_hash w req k
                 (User.id cu))].
    + intros view Hstep. exact (table_step_well_formed _ _ _ Hstep (conj Hdates Hamounts)).
    + intros cu' Hin'. unfold logged_in in Hin, Hin'. congruence.
  - eapply List.Forall_impl;
      [|apply (routes_table_step generate_password_hash check_password_hash w req k 0)].
    + intros view Hstep. exact (table_step_well_formed _ _ _ Hstep (conj Hdates Hamounts)).
    + intros cu' Hin'. unfold logged_in in Hin'. unfold anonymous in Hanon. congruence.
Qed.

(** X14 at work: Alice's coffee, edited to a day that is no date and to an
    amount that is no number. *)
Lemma every_route_keeps_rows_well_formed_witness :
  dates_valid
    (expense_table
       (db (Demo.next
              (App.edit_expense 1
                 (Demo.post (Demo.expense_form "Coffee" "nan" "2024-02-30" "Food")))
              Demo.w_coffee))).
Proof.
  assert (dates_valid (expense_table (db Demo.w_coffee))) as Hdates.
  { vm_compute. repeat constructor; discriminate. }
  assert (amounts_stored (expense_table (db Demo.w_coffee))) as Hamounts.
  { vm_compute. repeat constructor. }
  pose proof (every_route_keeps_rows_well_formed (String.append "hash-of-") Demo.sample_check
                Demo.w_coffee
                (Demo.post (Demo.expense_form "Coffee" "nan" "2024-02-30" "Food")) 1
                Hdates Hamounts) as Hall.
  apply (proj1 (List.Forall_forall _ _) Hall
           (App.edit_expense 1
              (Demo.post (Demo.expense_form "Coffee" "nan" "2024-02-30" "Food")))).
  unfold routes. simpl. tauto.
Defined.

(** X15. No request touches another user's expenses: with unique keys,
    the rows of every user other than the caller, in table order, are the
    same before and after any route, whatever key the URL names and
    whatever is sent. *)
Theorem other_users_rows_untouched (generate_password_hash : string -> string)
    (check_password_hash : string -> string -> bool) (w : world) (req : request) (k : Z)
    (uid' : Z) :
  unique_ids (expense_table (db w)) ->
  (forall cu, logged_in w cu -> User.id cu <> uid') ->
  Forall (fun view =>
            owned uid' (expense_table (db (snd (handle view w))))
            = owned uid' (expense_table (db w)))
    (routes generate_password_hash check_password_hash req k).
Proof.
  intros Hnd Hother.
  destruct (caller_cases w) as [[cu Hin]|Hanon].
  - eapply List.Forall_impl;
      [|apply (routes_table_step generate_password_hash check_password_hash w req k
                 (User.id cu))].
    + intros view Hstep. apply (table_step_others (User.id cu) uid' _ _ Hstep Hnd).
      intros Heq. apply (Hother cu Hin). symmetry. exact Heq.
    + intros cu' Hin'. unfold logged_in in Hin, Hin'. congruence.
  - eapply List.Forall_impl;
      [|apply (routes_table_step generate_password_hash check_password_hash w req k
                 (uid' + 1))].
    + intros view Hstep. apply (table_step_others (uid' + 1) uid' _ _ Hstep Hnd). lia.
    + intros cu' Hin'. unfold logged_in in Hin'. unfold anonymous in Hanon. congruence.
Qed.

(** X15 at work: Bob asks for the deletion of Alice's coffee. *)
Lemma other_users_rows_untouched_witness :
  owned 1 (expense_table (db (Demo.next (App.delete_expense 1 (Demo.get []))
                                (Demo.as_user 2 Demo.w_coffee))))
  = owned 1 (expense_table (db Demo.w_coffee)).
Proof.
  assert (unique_ids (expense_table (db (Demo.as_user 2 Demo.w_coffee)))) as Hnd.
  { unfold unique_ids. apply (bool_decide_unpack _). vm_compute. exact I. }
  assert (forall cu, logged_in (Demo.as_user 2 Demo.w_coffee) cu -> User.id cu <> 1) as Hother.
  { intros cu Hin. vm_compute in Hin. injection Hin as <-. discriminate. }
  pose proof (other_users_rows_untouched (String.append "hash-of-") Demo.sample_check
                (Demo.as_user 2 Demo.w_coffee) (Demo.get []) 1 1 Hnd Hother) as Hall.
  apply (proj1 (List.Forall_forall _ _) Hall (App.delete_expense 1 (Demo.get []))).
  unfold routes. simpl. tauto.
Defined.

(** ** What one user's requests do to another user's pages *)

Lemma filter_selects_owned (uid : Z) (lo hi : option Py.date) (tbl : list Expense.t) :
  List.filter (selects uid lo hi) tbl = List.filter (selects uid lo hi) (owned uid tbl).
Proof.
  unfold owned, filter_by_user_id, selects.
  induction tbl as [|row tbl IH]; cbn [List.filter]; [reflexivity|].
  destruct (Expense.user_id row =? uid) eqn:Hrow; cbn [andb List.filter].
  - rewrite Hrow. cbn [andb]. rewrite IH. reflexivity.
  - exact IH.
Qed.

(** The three pages of a user show a function of that user's rows. *)
Lemma pages_of_own_rows (w1 w2 : world) (cu : User.t) (req : request) :
  logged_in w1 cu -> logged_in w2 cu ->
  owned (User.id cu) (expense_table (db w1)) = owned (User.id cu) (expense_table (db w2)) ->
  Forall (fun page => fst (handle page w1) = fst (handle page w2))
    [App.expenses req; App.dashboard req; App.export req].
Proof.
  intros Hin1 Hin2 Hsame. destruct dashboard_of_rows as [page Hpage].
  constructor; [|constructor; [|constructor; [|constructor]]].
  - rewrite (expenses_run w1 cu req Hin1), (expenses_run w2 cu req Hin2). cbn [fst].
    rewrite (filter_selects_owned _ _ _ (expense_table (db w1))),
      (filter_selects_owned _ _ _ (expense_table (db w2))), Hsame. reflexivity.
  - rewrite (Hpage w1 cu req Hin1), (Hpage w2 cu req Hin2), Hsame. reflexivity.
  - rewrite (export_run w1 cu req Hin1), (export_run w2 cu req Hin2), Hsame. reflexivity.
Qed.

Lemma register_appends (gen : string -> string) (w : world) (req : request) :
  exists added,
    user_table (db (snd (handle (Auth.register gen req) w))) = user_table (db w) ++ added.
Proof.
  destruct (method req) eqn:Hm.
  { exists []. rewrite (proj2 (register_keeps_expenses gen w req) Hm), app_nil_r. reflexivity. }
  destruct (multidict_get (form req) "username") as [u|] eqn:Hu.
  2:{ exists []. rewrite app_nil_r.
      unfold Auth.register, handle; rewrite Hm, bind_run; unfold form_get at 1;
        rewrite Hu; reflexivity. }
  destruct (multidict_get (form req) "password") as [p|] eqn:Hp.
  2:{ exists []. rewrite app_nil_r.
      unfold Auth.register, handle; rewrite Hm; run_form Hu;
        rewrite bind_run; unfold form_get at 1; rewrite Hp; reflexivity. }
  rewrite (register_post gen w req u p Hm Hu Hp).
  destruct (App.user_by_name (db w) u) as [usr|].
  - exists []. rewrite app_nil_r. reflexivity.
  - eexists. reflexivity.
Qed.

(** No route removes or rewrites a user: the user table only grows. *)
Lemma routes_users_grow (gen : string -> string) (check : string -> string -> bool)
    (w : world) (req : request) (k : Z) :
  Forall (fun view =>
            exists added, user_table (db (snd (handle view w))) = user_table (db w) ++ added)
    (routes gen check req k).
Proof.
  pose proof (reading_views_keep_db check w req) as Hread.
  rewrite !Forall_cons in Hread.
  destruct Hread as (Hhome & Hlogin & Hlogout & Hexpenses & Hdashboard & Hexport & _).
  assert (Forall (fun view => user_table (db (snd (handle view w))) = user_table (db w))
            [App.add_expense req; App.edit_expense k req; App.delete_expense k req])
    as Hwrite.
  { destruct (caller_cases w) as [[cu Hin]|Hanon].
    - eapply List.Forall_impl; [|apply (expense_views_step w cu req k Hin)].
      intros view (Husers & _). exact Husers.
    - repeat constructor; refine (proj1 (steps_as_anonymous 0 w _ Hanon)). }
  rewrite !Forall_cons in Hwrite. destruct Hwrite as (Hadd & Hedit & Hdelete & _).
  unfold routes.
  repeat (apply List.Forall_cons); try apply List.Forall_nil;
    try apply register_appends; exists []; rewrite app_nil_r; congruence.
Qed.

Lemma routes_others_step (gen : string -> string) (check : string -> string -> bool)
    (w : world) (req : request) (k : Z) (uid' : Z) :
  (forall cu, logged_in w cu -> User.id cu <> uid') ->
  Forall (fun view =>
            exists uid, uid <> uid'
                        /\ table_step uid (expense_table (db w))
                             (expense_table (db (snd (handle view w)))))
    (routes gen check req k).
Proof.
  intros Hother.
  destruct (caller_cases w) as [[cu Hin]|Hanon].
  - eapply List.Forall_impl; [|apply (routes_table_step gen check w req k (User.id cu))].
    + intros view Hstep. exists (User.id cu). split; [apply (Hother cu Hin)|exact Hstep].
    + intros cu' Hin'. unfold logged_in in Hin, Hin'. congruence.
  - eapply List.Forall_impl; [|apply (routes_table_step gen check w req k (uid' + 1))].
    + intros view Hstep. exists (uid' + 1). split; [lia|exact Hstep].
    + intros cu' Hin'. unfold logged_in in Hin'. unfold anonymous in Hanon. congruence.
Qed.

Lemma load_user_app (d d' : database) (uid : Z) (usr : User.t) (added : list User.t) :
  user_table d' = user_table d ++ added ->
  load_user d uid = Some usr -> load_user d' uid = Some usr.
Proof.
  unfold load_user. intros ->. induction (user_table d) as [|x l IH]; cbn [find app]; [intros [=]|].
  destruct (User.id x =? uid); [auto|exact IH].
Qed.

(** X16. What a user sees does not depend on what others do: with unique
    keys, the listing (under any date bounds), the dashboard and the CSV
    export of a user are the same before and after any route called by
    anyone else, logged in or not, whatever was sent. *)
Theorem others_cannot_change_my_pages (generate_password_hash : string -> string)
    (check_password_hash : string -> string -> bool) (w : world) (req req' : request) (k : Z)
    (me : User.t) :
  unique_ids (expense_table (db w)) ->
  load_user (db w) (User.id me) = Some me ->
  (forall cu, logged_in w cu -> User.id cu <> User.id me) ->
  Forall (fun view =>
            Forall (fun page =>
                      fst (handle page (browser_of (User.id me) (snd (handle view w))))
                      = fst (handle page (browser_of (User.id me) w)))
              [App.expenses req'; App.dashboard req'; App.export req'])
    (routes generate_password_hash check_password_hash req k).
Proof.
  intros Hnd Hme Hother.
  pose proof (routes_others_step generate_password_hash check_password_hash w req k
                (User.id me) Hother) as Hsteps.
  pose proof (routes_users_grow generate_password_hash check_password_hash w req k) as Husers.
  apply List.Forall_forall. intros view Hview.
  destruct (proj1 (List.Forall_forall _ _) Hsteps view Hview) as (uid & Hne & Hstep).
  destruct (proj1 (List.Forall_forall _ _) Husers view Hview) as (added & Hadded).
  apply (pages_of_own_rows _ _ me).
  - unfold logged_in, browser_of. cbn [user_cookie db mbind option_bind].
    apply (load_user_app (db w) _ _ _ added Hadded Hme).
  - exact Hme.
  - cbn [browser_of db]. apply (table_step_others uid (User.id me) _ _ Hstep Hnd).
    intros Heq. apply Hne. symmetry. exact Heq.
Qed.

(** X16 at work: Bob adds a coffee of his own; Alice's export is the same. *)
Lemma others_cannot_change_my_pages_witness :
  fst (handle (App.export (Demo.get []))
         (browser_of 1 (Demo.next (App.add_expense Demo.coffee) (Demo.as_user 2 Demo.w_coffee))))
  = fst (handle (App.export (Demo.get [])) (browser_of 1 (Demo.as_user 2 Demo.w_coffee))).
Proof.
  assert (unique_ids (expense_table (db (Demo.as_user 2 Demo.w_coffee)))) as Hnd.
  { unfold unique_ids. apply (bool_decide_unpack _). vm_compute. exact I. }
  assert (forall cu, logged_in (Demo.as_user 2 Demo.w_coffee) cu -> User.id cu <> 1) as Hother.
  { intros cu Hin. vm_compute in Hin. injection Hin as <-. discriminate. }
  pose proof (others_cannot_change_my_pages (String.append "hash-of-") Demo.sample_check
                (Demo.as_user 2 Demo.w_coffee) Demo.coffee (Demo.get []) 1 Demo.alice
                Hnd eq_refl Hother) as Hall.
  pose proof (proj1 (List.Forall_forall _ _) Hall (App.add_expense Demo.coffee)
                ltac:(unfold routes; simpl; tauto)) as Hpages.
  apply (proj1 (List.Forall_forall _ _) Hpages (App.export (Demo.get []))).
  simpl. tauto.
Defined.

(** ** The dashboard's categories, and the listing's bounds *)

(** The category side of /dashboard needs nothing of the stored dates. *)
Lemma dashboard_categories_run (w : world) (cu : User.t) (req : request) :
  logged_in w cu ->
  exists monthlyLabels monthlyData,
    handle (App.dashboard req) w =
    (Render "dashboard.html"
       (CtxDashboard
          (categories (User.id cu) (expense_table (db w)))
          (map (category_total (User.id cu) (expense_table (db w)))
             (categories (User.id cu) (expense_table (db w))))
          monthlyLabels monthlyData),
     w).
Proof.
  intros Hin. do 2 eexists. unfold App.dashboard. rewrite (handle_login_required _ w cu Hin).
  unfold handle, all. rewrite !bind_run. cbn [get_db cdb csess ccookie cflashes mret M_ret].
  fold (owned (User.id cu) (expense_table (db w))). rewrite world_eta.
  rewrite group_by_sum_spec, !map_map. cbn [group_total fst snd]. rewrite map_id.
  reflexivity.
Qed.

(** X17. The category labels of the dashboard are the categories in which
    the caller has an expense, each once, in ascending byte order (capital
    letters before small ones), whatever their order in the table; a
    category the caller has no expense in gets no label (unlike a month,
    which gets a zero).  Each label has its value: the float sum of the
    amounts of its expenses in table order, [None] when that is not a
    number.  This holds whatever the stored dates are. *)
Theorem dashboard_category_labels (w : world) (cu : User.t) (req : request) :
  logged_in w cu ->
  exists labels values monthlyLabels monthlyData,
    handle (App.dashboard req) w
    = (Render "dashboard.html" (CtxDashboard labels values monthlyLabels monthlyData), w)
    /\ StronglySorted text_lt labels
    /\ NoDup labels
    /\ (forall c, c ∈ labels <->
                  exists e, In e (expense_table (db w))
                            /\ Expense.user_id e = User.id cu /\ Expense.category e = c)
    /\ length values = length labels
    /\ values
       = map (fun c =>
                if is_nan (App.fsum (amounts (of_category c (owned (User.id cu)
                                                               (expense_table (db w))))))
                then PyNone
                else PyFloat (App.fsum (amounts (of_category c (owned (User.id cu)
                                                                  (expense_table (db w)))))))
           labels.
Proof.
  intros Hin. destruct (dashboard_categories_run w cu req Hin) as (ml & md & Hrun).
  assert (forall c, c ∈ categories (User.id cu) (expense_table (db w)) <->
                    exists e, In e (expense_table (db w))
                              /\ Expense.user_id e = User.id cu /\ Expense.category e = c)
    as Hlabels.
  { intros c. unfold categories.
    rewrite elem_of_order_by, elem_of_first_keys, list_elem_of_In, in_map_iff.
    unfold owned. split.
    - intros (e & Hc & He). apply filter_In in He as [He Hu]. exists e.
      repeat split; [exact He|lia|exact Hc].
    - intros (e & He & Hu & Hc). exists e. split; [exact Hc|].
      apply filter_In. split; [exact He|lia]. }
  do 4 eexists. split; [exact Hrun|].
  split; [|split; [apply NoDup_categories|split; [exact Hlabels|split; [apply length_map|]]]].
  - apply sorted_NoDup_strict; [|apply NoDup_categories].
    unfold categories. apply StronglySorted_order_by; apply _.
  - apply map_ext_in. intros c Hc. unfold category_total.
    apply list_elem_of_In, Hlabels in Hc as (e & He & Hu & Hc).
    assert (In e (of_category c (owned (User.id cu) (expense_table (db w))))) as Hrow.
    { unfold of_category, group_rows, owned. apply filter_In. split.
      - apply filter_In. split; [exact He|lia].
      - apply bool_decide_eq_true_2. exact Hc. }
    unfold reported.
    destruct (of_category c (owned (User.id cu) (expense_table (db w)))); [destruct Hrow|].
    reflexivity.
Qed.

(** X17 at work: Alice entered Home, Fun, food and Bus in that order; her
    labels are Bus, Fun, Home, food, and Bob's Art is not among them. *)
Lemma dashboard_category_labels_witness :
  map Expense.category (expense_table (db Demo.w_labels))
  = ["Home"; "Fun"; "food"; "Art"; "Bus"]
  /\ exists values monthlyLabels monthlyData,
       fst (handle (App.dashboard (Demo.get [])) Demo.w_labels)
       = Render "dashboard.html"
           (CtxDashboard ["Bus"; "Fun"; "Home"; "food"] values monthlyLabels monthlyData).
Proof.
  split; [vm_compute; reflexivity|].
  destruct (dashboard_category_labels Demo.w_labels Demo.alice (Demo.get [])
              ltac:(vm_compute; reflexivity))
    as (labels & values & ml & md & Hrun & _).
  exists values, ml, md. rewrite Hrun. cbn [fst].
  pose proof Hrun as Hrun'. vm_compute in Hrun'. injection Hrun' as <- _ _ _. reflexivity.
Defined.

Lemma date_le_trans (a b c : Py.date) : Py.date_le a b -> Py.date_le b c -> Py.date_le a c.
Proof. unfold Py.date_le. lia. Qed.

Lemma strptime_truthy (s : string) (d : Py.date) :
  Py.strptime s = Ok d -> truthy (Some s) = true.
Proof. destruct s; [discriminate|reflexivity]. Qed.

(** X18. A listing whose start date is after its end date is empty, for
    every table: both bounds are applied, no warning is flashed and
    nothing else changes. *)
Theorem inverted_range_lists_nothing (w : world) (cu : User.t) (req : request)
    (s1 s2 : string) (d1 d2 : Py.date) :
  logged_in w cu ->
  args_get req "start_date" = Some s1 ->
  args_get req "end_date" = Some s2 ->
  Py.strptime s1 = Ok d1 ->
  Py.strptime s2 = Ok d2 ->
  date_lt d2 d1 ->
  handle (App.expenses req) w = (Render "expenses.html" (CtxExpenses []), w).
Proof.
  intros Hin Hs1 Hs2 Hd1 Hd2 Hlt.
  rewrite (expenses_run w cu req Hin), Hs1, Hs2.
  unfold bound_warnings, unparsable, parsed_bound. rewrite Hd1, Hd2, !andb_false_r.
  cbn [app]. rewrite with_flashes_nil.
  replace (List.filter _ _) with (@nil Expense.t); [reflexivity|].
  symmetry. induction (expense_table (db w)) as [|row tbl IH]; [reflexivity|].
  cbn [List.filter]. rewrite IH.
  destruct (selects (User.id cu) (Some d1) (Some d2) row) eqn:Hsel; [|reflexivity].
  exfalso. apply selects_spec in Hsel as (_ & Hlo & Hhi). apply Hlt.
  exact (date_le_trans _ _ _ (Hlo d1 eq_refl) (Hhi d2 eq_refl)).
Qed.

(** X18 at work: Alice asks for February back to January. *)
Lemma inverted_range_lists_nothing_witness :
  handle (App.expenses (Demo.get [("start_date", "2024-02-01"); ("end_date", "2024-01-01")]))
    Demo.w_coffee
  = (Render "expenses.html" (CtxExpenses []), Demo.w_coffee).
Proof.
  apply (inverted_range_lists_nothing Demo.w_coffee Demo.alice _ "2024-02-01" "2024-01-01"
           (Py.mkdate 2024 2 1) (Py.mkdate 2024 1 1)).
  - vm_compute. reflexivity.
  - reflexivity.
  - reflexivity.
  - vm_compute. reflexivity.
  - vm_compute. reflexivity.
  - unfold date_lt, Py.date_le. cbn. lia.
Defined.

(** X19. The unfiltered listing and the export show the same rows in the
    same order: the CSV document is the header followed by the rows of
    the listing without bounds, one line each. *)
Theorem export_matches_listing (w : world) (cu : User.t) (req req' : request) :
  logged_in w cu ->
  args_get req "start_date" = None ->
  args_get req "end_date" = None ->
  exists listing,
    handle (App.expenses req) w = (Render "expenses.html" (CtxExpenses listing), w)
    /\ handle (App.export req') w
       = (Response (csv_header +:+ join_rows (map App.export_row listing)) "text/csv"
            [("Content-Disposition", "attachment;filename=expenses.csv")], w).
Proof.
  intros Hin Hs He. eexists. split.
  - rewrite (expenses_run w cu req Hin), Hs, He. cbn [parsed_bound bound_warnings truthy andb app].
    rewrite with_flashes_nil. reflexivity.
  - rewrite (export_run w cu req' Hin). unfold owned.
    rewrite (filter_ext (filter_by_user_id (User.id cu)) (selects (User.id cu) None None));
      [reflexivity|].
    intros e. unfold selects, filter_by_user_id. rewrite !andb_true_r. reflexivity.
Qed.

(** X19 at work: Alice's coffee, listed and exported. *)
Lemma export_matches_listing_witness :
  exists listing,
    handle (App.expenses (Demo.get [])) Demo.w_coffee
    = (Render "expenses.html" (CtxExpenses listing), Demo.w_coffee)
    /\ body_of (fst (handle (App.export (Demo.get [])) Demo.w_coffee))
       = csv_header +:+ join_rows (map App.export_row listing).
Proof.
  destruct (export_matches_listing Demo.w_coffee Demo.alice (Demo.get []) (Demo.get [])
              ltac:(vm_compute; reflexivity) eq_refl eq_refl)
    as (listing & Hlist & Hexport).
  exists listing. split; [exact Hlist|]. rewrite Hexport. reflexivity.
Defined.

(** ** Requests that repeat, and requests that only look *)

Lemma replace_row_twice (k : Z) (e' : Expense.t) (tbl : list Expense.t) :
  Expense.id e' = k -> replace_row k e' (replace_row k e' tbl) = replace_row k e' tbl.
Proof.
  intros Hid. unfold replace_row. rewrite map_map. apply map_ext. intros row.
  destruct (Z.eqb_spec (Expense.id row) k) as [Heq|Hne].
  - rewrite Hid, Z.eqb_refl. reflexivity.
  - destruct (Z.eqb_spec (Expense.id row) k); [contradiction|reflexivity].
Qed.

Lemma logged_in_with_flashes (w : world) (cu : User.t) (msgs : list (message * string)) :
  logged_in w cu -> logged_in (with_flashes w msgs) cu.
Proof. unfold logged_in, with_flashes. simpl. trivial. Qed.

(** X20. The owner's edit form is idempotent: submitted a second time, it
    is answered as the first time and leaves the tables as the first
    submission left them, whether that one stored the fields or refused
    them. *)
Theorem edit_expense_twice_as_once (w : world) (cu : User.t) (k : Z) (req : request)
    (e : Expense.t) (d sa sd c : string) :
  logged_in w cu ->
  find_expense (expense_table (db w)) k = Some e ->
  Expense.user_id e = User.id cu ->
  method req = POST ->
  multidict_get (form req) "description" = Some d ->
  multidict_get (form req) "amount" = Some sa ->
  multidict_get (form req) "date" = Some sd ->
  multidict_get (form req) "category" = Some c ->
  fst (handle (App.edit_expense k req) (snd (handle (App.edit_expense k req) w)))
  = fst (handle (App.edit_expense k req) w)
  /\ db (snd (handle (App.edit_expense k req) (snd (handle (App.edit_expense k req) w))))
     = db (snd (handle (App.edit_expense k req) w)).
Proof.
  intros Hin Hfind Hown Hm Hd Ha Hsd Hc.
  pose proof (edit_expense_post w cu k req e d sa sd c Hin Hfind Hown Hm Hd Ha Hsd Hc) as Hfirst.
  cbv zeta in Hfirst.
  destruct (Py.float_new sa) as [a|err] eqn:Hfa.
  2:{ rewrite Hfirst. cbn [snd]. rewrite Hfirst. split; reflexivity. }
  assert (forall msgs,
            handle (App.edit_expense k req) w
            = (Redirect (url_for "edit_expense" [("expense_id", k)]), with_flashes w msgs) ->
            handle (App.edit_expense k req) (with_flashes w msgs)
            = (Redirect (url_for "edit_expense" [("expense_id", k)]),
               with_flashes (with_flashes w msgs) msgs))
    as Hrefused.
  { intros msgs Hrun. rewrite Hrun in Hfirst.
    rewrite (edit_expense_post (with_flashes w msgs) cu k req e d sa sd c
               (logged_in_with_flashes w cu msgs Hin) Hfind Hown Hm Hd Ha Hsd Hc).
    cbv zeta. rewrite Hfa.
    destruct (Py.strptime sd) as [dt|err] eqn:Hdt.
    - destruct (is_nan a).
      + injection Hfirst as Hmsgs.
        apply app_inv_head in Hmsgs. rewrite Hmsgs. reflexivity.
      + discriminate Hfirst.
    - injection Hfirst as Hmsgs.
      apply app_inv_head in Hmsgs. rewrite Hmsgs. reflexivity. }
  destruct (Py.strptime sd) as [dt|err] eqn:Hdt.
  2:{ pose proof (Hrefused _ Hfirst) as Hsecond. rewrite Hfirst. cbn [snd].
      rewrite Hsecond. split; reflexivity. }
  destruct (is_nan a) eqn:Hnan.
  { pose proof (Hrefused _ Hfirst) as Hsecond. rewrite Hfirst. cbn [snd].
    rewrite Hsecond. split; reflexivity. }
  clear Hrefused. rewrite Hfirst. cbn [fst snd].
  set (e' := Expense.mk (Expense.id e) d a dt c (Expense.user_id e)) in *.
  set (w1 := with_expenses w (replace_row k e' (expense_table (db w)))
               [(Text "Expense updated successfully!", "success")]).
  assert (Expense.id e' = k) as Hid by apply (find_expense_id _ k e Hfind).
  rewrite (edit_expense_post w1 cu k req e' d sa sd c
             (logged_in_with_expenses w cu _ _ Hin)
             (find_expense_replace_row _ k e e' Hfind Hid) Hown Hm Hd Ha Hsd Hc).
  cbv zeta. rewrite Hfa, Hdt, Hnan. split; [reflexivity|].
  cbn [snd w1 with_expenses db expense_table user_table Expense.id Expense.user_id e'].
  fold e'. rewrite (replace_row_twice k e' _ Hid). reflexivity.
Qed.

(** X20 at work: Alice renames her coffee, and sends the form again. *)
Lemma edit_expense_twice_as_once_witness :
  db (Demo.next (App.edit_expense 1
                   (Demo.post (Demo.expense_form "Espresso" "3.50" "2024-01-15" "Food")))
        (Demo.next (App.edit_expense 1
                      (Demo.post (Demo.expense_form "Espresso" "3.50" "2024-01-15" "Food")))
           Demo.w_coffee))
  = db (Demo.next (App.edit_expense 1
                     (Demo.post (Demo.expense_form "Espresso" "3.50" "2024-01-15" "Food")))
          Demo.w_coffee).
Proof.
  refine (proj2 (edit_expense_twice_as_once Demo.w_coffee Demo.alice 1
                   (Demo.post (Demo.expense_form "Espresso" "3.50" "2024-01-15" "Food"))
                   _ "Espresso" "3.50" "2024-01-15" "Food" _ _ _ _ _ _ _ _)).
  - vm_compute. reflexivity.
  - vm_compute. reflexivity.
  - reflexivity.
  - reflexivity.
  - reflexivity.
  - reflexivity.
  - reflexivity.
  - reflexivity.
Defined.

Lemma add_expense_get (w : world) (req : request) :
  method req = GET -> db (snd (handle (App.add_expense req) w)) = db w.
Proof.
  intros Hm. destruct (caller_cases w) as [[cu Hin]|Hanon].
  - unfold App.add_expense. rewrite (handle_login_required _ w cu Hin). unfold handle.
    rewrite Hm. reflexivity.
  - unfold App.add_expense. rewrite (handle_login_required_anonymous _ w Hanon). reflexivity.
Qed.

Lemma edit_expense_get (w : world) (k : Z) (req : request) :
  method req = GET -> db (snd (handle (App.edit_expense k req) w)) = db w.
Proof.
  intros Hm. destruct (caller_cases w) as [[cu Hin]|Hanon].
  2:{ unfold App.edit_expense. rewrite (handle_login_required_anonymous _ w Hanon).
      reflexivity. }
  destruct (find_expense (expense_table (db w)) k) as [e|] eqn:Hfind.
  2:{ unfold App.edit_expense. rewrite (handle_login_required _ w cu Hin).
      unfold handle. fold (start w). rewrite (load_missing w k _ Hfind). reflexivity. }
  destruct (Z.eq_dec (Expense.user_id e) (User.id cu)) as [Hown|Hother].
  2:{ rewrite (edit_expense_not_owner w cu k req e Hin Hfind Hother). reflexivity. }
  unfold App.edit_expense. rewrite (handle_login_required _ w cu Hin).
  unfold handle. fold (start w). rewrite (load_found w k e _ Hfind).
  rewrite Hown, Z.eqb_refl, Hm. cbn [negb].
  rewrite bind_run. unfold deref. rewrite bind_run.
  cbn [get_session loaded csess identity_map]. rewrite lookup_singleton_eq. reflexivity.
Qed.

(** X21. A request with method GET writes nothing, on every route but
    /delete: the two tables are the same after as before, whoever calls. *)
Theorem get_requests_do_not_write (generate_password_hash : string -> string)
    (check_password_hash : string -> string -> bool) (w : world) (req : request) (k : Z) :
  method req = GET ->
  Forall (fun view => db (snd (handle view w)) = db w)
    [Auth.home req; Auth.register generate_password_hash req;
     App.login check_password_hash req; Auth.logout req; App.expenses req;
     App.add_expense req; App.edit_expense k req; App.dashboard req; App.export req].
Proof.
  intros Hm.
  pose proof (reading_views_keep_db check_password_hash w req) as Hread.
  rewrite !Forall_cons in Hread.
  destruct Hread as (Hhome & Hlogin & Hlogout & Hexpenses & Hdashboard & Hexport & _).
  repeat (apply List.Forall_cons); try apply List.Forall_nil; try assumption.
  - apply (proj2 (register_keeps_expenses generate_password_hash w req) Hm).
  - apply (add_expense_get w req Hm).
  - apply (edit_expense_get w k req Hm).
Qed.

(** X21 at work: Alice opens the edit form of her coffee. *)
Lemma get_requests_do_not_write_witness :
  db (Demo.next (App.edit_expense 1 (Demo.get [])) Demo.w_coffee) = db Demo.w_coffee.
Proof.
  pose proof (get_requests_do_not_write (String.append "hash-of-") Demo.sample_check
                Demo.w_coffee (Demo.get []) 1 eq_refl) as Hall.
  apply (proj1 (List.Forall_forall _ _) Hall (App.edit_expense 1 (Demo.get []))).
  simpl. tauto.
Defined.

Lemma register_keeps_cookie (gen : string -> string) (w : world) (req : request) :
  user_cookie (snd (handle (Auth.register gen req) w)) = user_cookie w.
Proof.
  destruct (method req) eqn:Hm.
  { unfold Auth.register, handle; rewrite Hm. reflexivity. }
  destruct (multidict_get (form req) "username") as [u|] eqn:Hu.
  2:{ unfold Auth.register, handle; rewrite Hm, bind_run; unfold form_get at 1;
        rewrite Hu; reflexivity. }
  destruct (multidict_get (form req) "password") as [p|] eqn:Hp.
  2:{ unfold Auth.register, handle; rewrite Hm; run_form Hu;
        rewrite bind_run; unfold form_get at 1; rewrite Hp; reflexivity. }
  rewrite (register_post gen w req u p Hm Hu Hp).
  destruct (App.user_by_name (db w) u); reflexivity.
Qed.

(** X22. Only Login and Logout change who is logged in: every other
    route, whatever is sent, leaves the login cookie as it was, and a
    caller who was logged in before is the caller after; a registration
    made while logged in does not switch the session to the new user. *)
Theorem session_survives_other_routes (generate_password_hash : string -> string)
    (w : world) (req : request) (k : Z) :
  Forall (fun view =>
            user_cookie (snd (handle view w)) = user_cookie w
            /\ forall cu, logged_in w cu -> logged_in (snd (handle view w)) cu)
    [Auth.home req; Auth.register generate_password_hash req; App.expenses req;
     App.add_expense req; App.edit_expense k req; App.delete_expense k req;
     App.dashboard req; App.export req].
Proof.
  assert (Forall (fun view => user_cookie (snd (handle view w)) = user_cookie w)
            [Auth.home req; Auth.register generate_password_hash req; App.expenses req;
             App.add_expense req; App.edit_expense k req; App.delete_expense k req;
             App.dashboard req; App.export req]) as Hcookie.
  { destruct dashboard_of_rows as [page Hpage].
    assert (Forall (fun view => user_cookie (snd (handle view w)) = user_cookie w)
              [App.add_expense req; App.edit_expense k req; App.delete_expense k req])
      as Hwrite.
    { destruct (caller_cases w) as [[cu Hin]|Hanon].
      - eapply List.Forall_impl; [|apply (expense_views_step w cu req k Hin)].
        intros view (_ & Hck & _). exact Hck.
      - repeat constructor; refine (proj1 (proj2 (steps_as_anonymous 0 w _ Hanon))). }
    rewrite !Forall_cons in Hwrite. destruct Hwrite as (Hadd & Hedit & Hdelete & _).
    repeat (apply List.Forall_cons); try apply List.Forall_nil; try assumption.
    - rewrite home_run. reflexivity.
    - apply register_keeps_cookie.
    - destruct (caller_cases w) as [[cu Hin]|Hanon].
      + rewrite (expenses_run w cu req Hin). reflexivity.
      + unfold App.expenses. rewrite (handle_login_required_anonymous _ w Hanon). reflexivity.
    - destruct (caller_cases w) as [[cu Hin]|Hanon].
      + rewrite (Hpage w cu req Hin). reflexivity.
      + unfold App.dashboard. rewrite (handle_login_required_anonymous _ w Hanon). reflexivity.
    - destruct (caller_cases w) as [[cu Hin]|Hanon].
      + rewrite (export_run w cu req Hin). reflexivity.
      + unfold App.export. rewrite (handle_login_required_anonymous _ w Hanon). reflexivity. }
  pose proof (routes_users_grow generate_password_hash (fun _ _ => false) w req k) as Husers.
  apply List.Forall_forall. intros view Hview.
  pose proof (proj1 (List.Forall_forall _ _) Hcookie view Hview) as Hck.
  split; [exact Hck|]. intros cu Hin.
  assert (In view (routes generate_password_hash (fun _ _ => false) req k)) as Hroute.
  { unfold routes. simpl in Hview |- *. tauto. }
  destruct (proj1 (List.Forall_forall _ _) Husers view Hroute) as (added & Hadded).
  unfold logged_in in *. rewrite Hck.
  destruct (user_cookie w) as [uid|]; [|discriminate Hin].
  cbn [mbind option_bind] in *. apply (load_user_app (db w) _ _ _ added Hadded Hin).
Qed.

(** X22 at work: Alice registers carol while logged in, and is still Alice. *)
Lemma session_survives_other_routes_witness :
  logged_in
    (Demo.next (Auth.register (String.append "hash-of-")
                  (Demo.post [("username", "carol"); ("password", "secret")]))
       Demo.w_coffee)
    Demo.alice.
Proof.
  pose proof (session_survives_other_routes (String.append "hash-of-") Demo.w_coffee
                (Demo.post [("username", "carol"); ("password", "secret")]) 1) as Hall.
  refine (proj2 (proj1 (List.Forall_forall _ _) Hall
                   (Auth.register (String.append "hash-of-")
                      (Demo.post [("username", "carol"); ("password", "secret")])) _)
            Demo.alice _).
  - simpl. tauto.
  - vm_compute. reflexivity.
Defined.
